(** * Stock analysis: retrieval, news aggregation, prompt assembly and the
      sequential crew, embedded from the Python sources

    - [simple_stock_analysis.py]: [get_stock_data] (with its inner
      [try_fetch_stock]), [search_stock_news], [analyze_stock_simple];
    - [financial_companion_crew.py]: [__init__], [_create_agents],
      [_create_tasks], [_create_crew], [process_customer_data], [main];
    - [app.py]: the script of the front end.

    Python effects are written out: an exception is an [outcome], every call
    that leaves the process (market data, web search, hosted model, print,
    sleep) is an [event] of the trace a computation carries with it.  A text
    is kept as the bytes of its UTF-8 encoding. *)

From Stdlib Require Import Ascii.
From stdpp Require Import base option list strings gmap pretty.
From Stdlib Require Import ZArith Floats Lia.

Open Scope string_scope.
Open Scope list_scope.
Open Scope nat_scope.
Open Scope stdpp_scope.

(** ** Python strings *)

Module PyStr.

(** [p] is an initial segment of [s] ([str.startswith]). *)
Fixpoint startswith (s p : string) : bool :=
  match p, s with
  | EmptyString, _ => true
  | String a p', String b s' => if Ascii.eqb a b then startswith s' p' else false
  | String _ _, EmptyString => false
  end.

(** [s.endswith(suf)]: some tail of [s] is [suf]. *)
Fixpoint endswith (s suf : string) : bool :=
  String.eqb s suf ||
  match s with
  | EmptyString => false
  | String _ s' => endswith s' suf
  end.

(** [s.find(sub)]: index of the leftmost occurrence, [None] for -1. *)
Fixpoint find (s sub : string) : option nat :=
  if startswith s sub then Some 0
  else match s with
       | EmptyString => None
       | String _ s' => S <$> find s' sub
       end.

(** [sub in s]. *)
Definition contains (s sub : string) : bool :=
  if find s sub is Some _ then true else false.

Fixpoint take (n : nat) (s : string) : string :=
  match n, s with
  | S n', String c s' => String c (take n' s')
  | _, _ => EmptyString
  end.

Fixpoint drop (n : nat) (s : string) : string :=
  match n, s with
  | S n', String _ s' => drop n' s'
  | _, _ => s
  end.

(** A text is kept as the bytes of its UTF-8 encoding, so a character is a
    byte that is not a continuation byte (10xxxxxx) with the continuation
    bytes after it. *)
Definition is_continuation (a : Ascii.ascii) : bool :=
  match a with
  | Ascii.Ascii _ _ _ _ _ _ b6 b7 => b7 && negb b6
  end.

(** [len(s)]: the number of characters. *)
Fixpoint len (s : string) : nat :=
  match s with
  | EmptyString => 0
  | String a s' => (if is_continuation a then 0 else 1) + len s'
  end.

(** [s[:n]]: the first [n] characters. *)
Fixpoint take_chars (n : nat) (s : string) : string :=
  match s with
  | EmptyString => EmptyString
  | String a s' =>
      if is_continuation a then String a (take_chars n s')
      else match n with
           | O => EmptyString
           | S n' => String a (take_chars n' s')
           end
  end.

(** [s.split(sep)] for a non-empty separator: cut at the leftmost
    occurrence, go on after it.  The fuel bounds the number of cuts; a
    string of length [n] has at most [n] of them. *)
Fixpoint split_fuel (fuel : nat) (s sep : string) : list string :=
  match fuel with
  | O => [s]
  | S fuel' =>
      match find s sep with
      | None => [s]
      | Some i => take i s :: split_fuel fuel' (drop (i + String.length sep) s) sep
      end
  end.

Definition split (s sep : string) : list string :=
  split_fuel (S (String.length s)) s sep.

(** ["x" * n]. *)
Fixpoint repeat (s : string) (n : nat) : string :=
  match n with
  | O => EmptyString
  | S n' => s +:+ repeat s n'
  end.

Fixpoint concat (l : list string) : string :=
  match l with
  | [] => EmptyString
  | s :: l' => s +:+ concat l'
  end.

End PyStr.

(** ** Exceptions and traces *)

(** A raised exception: its class and what [str(e)] gives. *)
Record exn := Exn { exn_class : string; exn_str : string }.

Inductive outcome (A : Type) : Type :=
| Return (a : A)
| Raise (e : exn).
Arguments Return {A} a.
Arguments Raise {A} e.

(** What the program does to the outside, in order. *)
Inductive event : Type :=
| EvPrint (line : string)
| EvTicker (ticker_symbol : string)                     (* yf.Ticker(...) *)
| EvDDGS                                                (* DDGS() entered *)
| EvSearch (query : string) (max_results : nat) (region : string)
| EvSleep (seconds : nat)
| EvLLMInit (model : string)
| EvInvoke (prompt : string)
| EvKickoff
| EvExecute (role description : string).

(** A computation: the events it produced and how it ended. *)
Definition py (A : Type) : Type := (list event * outcome A)%type.

Definition trace {A} (m : py A) : list event := m.1.
Definition result {A} (m : py A) : outcome A := m.2.

#[global] Instance py_ret : MRet py := λ A a, ([], Return a).
#[global] Instance py_bind : MBind py := λ A B f m,
  match m with
  | (t, Return a) => let '(t', r) := f a in (t ++ t', r)
  | (t, Raise e) => (t, Raise e)
  end.

Definition raise {A} (e : exn) : py A := ([], Raise e).
Definition emit (ev : event) : py unit := ([ev], Return tt).
Definition lift {A} (o : outcome A) : py A := ([], o).

(** [try: m  except Exception as e: h e]. *)
Definition try_except {A} (m : py A) (h : exn → py A) : py A :=
  match m with
  | (t, Return a) => (t, Return a)
  | (t, Raise e) => let '(t', r) := h e in (t ++ t', r)
  end.

Definition print (line : string) : py unit := emit (EvPrint line).

Definition KeyError (key : string) : exn := Exn "KeyError" ("'" +:+ key +:+ "'").
Definition IndexError (what : string) : exn := Exn "IndexError" what.

(** [l[i]] on a Python list. *)
Definition list_getitem {A} (l : list A) (i : nat) : py A :=
  match l !! i with
  | Some x => mret x
  | None => raise (IndexError "list index out of range")
  end.

(** ** Values *)

(** The numbers of a price series.  The source gets them from the market
    data library as 64-bit floats, whose division does not raise.  Only the
    operations the source applies are required; division has an outcome, so
    that the handler around the return fields has something to catch in an
    instance whose numbers do raise. *)
Class Num (num : Type) := {
  num_sub : num → num → num;
  num_div : num → num → outcome num;
  num_mul : num → Z → num;
  format_2f : num → string;          (* f"{x:.2f}" *)
  num_str : num → string;            (* str(x) *)
}.

Section Values.
Context {num : Type} `{!Num num}.

Inductive pyval : Type :=
| VStr (s : string)
| VInt (z : Z)
| VNum (x : num)
| VNone.

(** What an f-string writes for [{v}]. *)
Definition py_str (v : pyval) : string :=
  match v with
  | VStr s => s
  | VInt z => pretty z
  | VNum x => num_str x
  | VNone => "None"
  end.

(** [d.get(key, fallback)]. *)
Definition dict_get {V} (d : gmap string V) (key : string) (fallback : V) : V :=
  default fallback (d !! key).

(** [d[key]]. *)
Definition getitem {V} (d : gmap string V) (key : string) : py V :=
  match d !! key with
  | Some v => mret v
  | None => raise (KeyError key)
  end.

(** An f-string over one dictionary [data]: literal text and
    [{data['key']}] fields, evaluated left to right. *)
Inductive part : Type :=
| Lit (text : string)
| Field (key : string).

Fixpoint fstring (parts : list part) (data : gmap string pyval) : py string :=
  match parts with
  | [] => mret EmptyString
  | Lit text :: rest => s ← fstring rest data; mret (text +:+ s)
  | Field key :: rest =>
      v ← getitem data key;
      s ← fstring rest data;
      mret (py_str v +:+ s)
  end.

End Values.
Arguments pyval : clear implicits.

(** ** The outside world *)

(** A search hit: the dictionary the search client yields. *)
Abbreviation hit := (gmap string string).

(** What the hosted model hands back: an object that may carry [content]. *)
Record response := Response { content : option string; response_str : string }.

(** The collaborators of one run, as the program sees them: what each call
    returns or raises. *)
Record world (num : Type) `{!Num num} := World {
  yf_info : string → outcome (gmap string (pyval num));     (* yf.Ticker(t).info *)
  yf_history : string → outcome (list num);            (* .history(...)['Close'] *)
  ddgs_open : outcome unit;                            (* with DDGS() as ddgs *)
  ddgs_text : string → nat → string → outcome (list hit);
  llm_init : outcome unit;                             (* ChatGoogleGenerativeAI(...) *)
  llm_invoke : string → outcome response;
}.
Arguments World {num _}.
Arguments yf_info {num _}.
Arguments yf_history {num _}.
Arguments ddgs_open {num _}.
Arguments ddgs_text {num _}.
Arguments llm_init {num _}.
Arguments llm_invoke {num _}.

Definition NL : string := String (Ascii.ascii_of_nat 10) EmptyString.

(** ** [get_stock_data] *)

Section StockData.
Context {num : Type} `{!Num num} (w : world num).

(** What [try_fetch_stock] returns: [(stock_data, True)] or
    [(message, False)]. *)
Inductive fetched : Type :=
| Fetched (stock_data : gmap string (pyval num))
| NotFetched (message : string).

Definition success (r : fetched) : bool :=
  match r with Fetched _ => true | NotFetched _ => false end.

(** [closes[-k]] on the price series. *)
Definition neg_index (closes : list num) (k : nat) : py num :=
  if bool_decide (1 ≤ k ≤ length closes)
  then list_getitem closes (length closes - k)
  else raise (IndexError "index out of bounds").

(** One of the three return fields:
    [f"{((current_price - c[-k]) / c[-k] * 100):.2f}" if len(c) >= k else 'N/A']. *)
Definition trailing_return (current_price : num) (closes : list num) (k : nat)
  : py (pyval num) :=
  if bool_decide (k ≤ length closes) then
    a ← neg_index closes k;
    b ← neg_index closes k;
    q ← lift (num_div (num_sub current_price a) b);
    mret (VStr (format_2f (num_mul q 100)))
  else mret (VStr "N/A").

Definition NA : pyval num := VStr "N/A".

(** The dictionary literal [stock_data = {...}]. *)
Definition stock_data_of (ticker_symbol : string) (info : gmap string (pyval num))
    (current_price : pyval num) : gmap string (pyval num) :=
  <["avg_volume" := dict_get info "averageVolume" NA]> $
  <["volume" := dict_get info "volume" NA]> $
  <["52_week_low" := dict_get info "fiftyTwoWeekLow" NA]> $
  <["52_week_high" := dict_get info "fiftyTwoWeekHigh" NA]> $
  <["industry" := dict_get info "industry" NA]> $
  <["sector" := dict_get info "sector" NA]> $
  <["beta" := dict_get info "beta" NA]> $
  <["dividend_yield" := dict_get info "dividendYield" NA]> $
  <["price_to_book" := dict_get info "priceToBook" NA]> $
  <["revenue_growth" := dict_get info "revenueGrowth" NA]> $
  <["profit_margin" := dict_get info "profitMargins" NA]> $
  <["roe" := dict_get info "returnOnEquity" NA]> $
  <["debt_to_equity" := dict_get info "debtToEquity" NA]> $
  <["pe_ratio" := dict_get info "forwardPE" (dict_get info "trailingPE" NA)]> $
  <["market_cap" := dict_get info "marketCap" NA]> $
  <["current_price" := current_price]> $
  <["company_name" := dict_get info "longName" NA]> $
  <["symbol" := VStr ticker_symbol]> ∅.

Definition set_returns (r1 r3 r12 : pyval num) (stock_data : gmap string (pyval num))
  : gmap string (pyval num) :=
  <["1_year_return" := r12]> $ <["3_month_return" := r3]> $
  <["1_month_return" := r1]> stock_data.

(** The block under [# Add recent performance], for a series whose last
    close is [current_price].  The handler overwrites all three keys, so it
    starts from the dictionary as it was before the [try]. *)
Definition add_returns (current_price : num) (closes : list num)
    (stock_data : gmap string (pyval num)) : py (gmap string (pyval num)) :=
  try_except
    (r1 ← trailing_return current_price closes 30;
     r3 ← trailing_return current_price closes 90;
     r12 ← trailing_return current_price closes 252;
     mret (set_returns r1 r3 r12 stock_data))
    (λ _, mret (set_returns NA NA NA stock_data)).

Definition try_fetch_stock (ticker_symbol : string) : py fetched :=
  try_except
    (emit (EvTicker ticker_symbol);;
     info ← lift (yf_info w ticker_symbol);
     closes ← lift (yf_history w ticker_symbol);
     (* [hist_data.empty] is [last closes = None]; both tests of it read
        the same frame.  ['Close'][-k] is read by position, counting from
        the end, as the code means it. *)
     let current_price :=
       match last closes with
       | Some c => VNum c
       | None => dict_get info "currentPrice" NA
       end in
     let stock_data := stock_data_of ticker_symbol info current_price in
     stock_data ←
       match last closes with
       | Some c => add_returns c closes stock_data
       | None => mret stock_data
       end;
     mret (Fetched stock_data))
    (λ e, mret (NotFetched ("Error fetching " +:+ ticker_symbol +:+ ": " +:+ exn_str e))).

(** The f-string of [get_stock_data], line by line. *)
Definition stock_template : list (list part) :=
  [ [];
    [Lit "STOCK DATA FOR "; Field "symbol"];
    [Lit "==============================="];
    [Lit "Company: "; Field "company_name"];
    [Lit "Sector: "; Field "sector"; Lit " | Industry: "; Field "industry"];
    [];
    [Lit "CURRENT METRICS:"];
    [Lit "- Current Price: $"; Field "current_price"];
    [Lit "- Market Cap: "; Field "market_cap"];
    [Lit "- P/E Ratio: "; Field "pe_ratio"];
    [Lit "- Price to Book: "; Field "price_to_book"];
    [Lit "- Beta: "; Field "beta"];
    [];
    [Lit "FINANCIAL HEALTH:"];
    [Lit "- Debt to Equity: "; Field "debt_to_equity"];
    [Lit "- Return on Equity: "; Field "roe"];
    [Lit "- Profit Margin: "; Field "profit_margin"];
    [Lit "- Revenue Growth: "; Field "revenue_growth"];
    [Lit "- Dividend Yield: "; Field "dividend_yield"];
    [];
    [Lit "PERFORMANCE:"];
    [Lit "- 52 Week High: $"; Field "52_week_high"];
    [Lit "- 52 Week Low: $"; Field "52_week_low"];
    [Lit "- 1 Month Return: "; Field "1_month_return"; Lit "%"];
    [Lit "- 3 Month Return: "; Field "3_month_return"; Lit "%"];
    [Lit "- 1 Year Return: "; Field "1_year_return"; Lit "%"];
    [];
    [Lit "TRADING DATA:"];
    [Lit "- Volume: "; Field "volume"];
    [Lit "- Average Volume: "; Field "avg_volume"];
    [Lit "        "] ].

(** The lines of a template, a newline between two of them. *)
Fixpoint join_lines (lines : list (list part)) : list part :=
  match lines with
  | [] => []
  | [l] => l
  | l :: rest => l ++ Lit NL :: join_lines rest
  end.

Definition format_stock (data : gmap string (pyval num)) : py string :=
  fstring (join_lines stock_template) data.

(** The two attempts of [get_stock_data]: the symbol as given, then, if
    that failed and the symbol has no [.NS] yet, the symbol with [.NS]. *)
Definition fetch_with_fallback (symbol : string) : py fetched :=
  r ← try_fetch_stock symbol;
  if negb (success r) && negb (PyStr.endswith symbol ".NS") then
    print ("Trying " +:+ symbol +:+ ".NS for Indian stock...");;
    try_fetch_stock (symbol +:+ ".NS")
  else mret r.

Definition get_stock_data (symbol : string) : py string :=
  r ← fetch_with_fallback symbol;
  match r with
  | Fetched data => format_stock data
  | NotFetched message => mret message
  end.

End StockData.

(** ** [search_stock_news] *)

Record news_item := NewsItem {
  title : string;
  body : string;
  url : string;
  source : string;
}.

Section News.
Context {num : Type} `{!Num num} (w : world num).

(** [result.get('href', '').split('/')[2] if result.get('href') else 'Unknown'] *)
Definition source_of (result : hit) : py string :=
  match result !! "href" with
  | None | Some EmptyString => mret "Unknown"
  | Some _ => list_getitem (PyStr.split (dict_get result "href" "") "/") 2
  end.

Definition make_news_item (result : hit) : py news_item :=
  src ← source_of result;
  mret {| title := dict_get result "title" "";
          body := dict_get result "body" "";
          url := dict_get result "href" "";
          source := src |}.

(** The inner [for result in results] loop.  [all_news] is a list mutated
    in place: what was appended before an exception stays appended, so
    the list is returned next to the way the loop ended. *)
Fixpoint append_results (results : list hit) (all_news : list news_item)
  : list news_item * outcome unit :=
  match results with
  | [] => (all_news, Return tt)
  | r :: rest =>
      match result (make_news_item r) with
      | Return item => append_results rest (all_news ++ [item])
      | Raise e => (all_news, Raise e)
      end
  end.

(** One turn of [for query in queries], with its own [try]/[except]. *)
Definition run_query (all_news : list news_item) (query : string)
  : py (list news_item) :=
  let failed (e : exn) :=
    print ("Error with query '" +:+ query +:+ "': " +:+ exn_str e) in
  emit (EvSearch query 3 "us-en");;
  match ddgs_text w query 3 "us-en" with
  | Raise e => failed e;; mret all_news
  | Return results =>
      match append_results results all_news with
      | (all_news, Return _) => emit (EvSleep 1);; mret all_news
      | (all_news, Raise e) => failed e;; mret all_news
      end
  end.

Definition queries (company_name symbol : string) : list string :=
  [ company_name +:+ " stock news";
    symbol +:+ " earnings news";
    company_name +:+ " financial news" ].

Fixpoint for_queries (qs : list string) (all_news : list news_item)
  : py (list news_item) :=
  match qs with
  | [] => mret all_news
  | query :: rest => all_news ← run_query all_news query; for_queries rest all_news
  end.

(** The whole [with DDGS() as ddgs:] block: the list after the three
    queries. *)
Definition gather_news (company_name symbol : string) : py (list news_item) :=
  emit EvDDGS;;
  lift (ddgs_open w);;
  for_queries (queries company_name symbol) [].

(** One numbered entry of the rendered list. *)
Definition render_item (i : nat) (news : news_item) : string :=
  NL +:+ pretty i +:+ ". " +:+ title news +:+ NL +:+
  "   Source: " +:+ source news +:+ NL +:+
  "   Summary: " +:+ PyStr.take_chars 200 (body news) +:+ "..." +:+ NL +:+
  "   URL: " +:+ url news +:+ NL +:+
  "   " +:+ NL.

(** [enumerate(all_news[:8], 1)], each entry rendered. *)
Definition rendered_items (all_news : list news_item) : list string :=
  imap (λ i news, render_item (S i) news) (take 8 all_news).

Definition news_header (company_name symbol : string) : string :=
  NL +:+ "RECENT NEWS FOR " +:+ company_name +:+ " (" +:+ symbol +:+ ")" +:+ NL +:+
  "==========================================" +:+ NL.

Definition format_news (company_name symbol : string) (all_news : list news_item)
  : string :=
  match all_news with
  | [] => "No recent news found for " +:+ company_name +:+ " (" +:+ symbol +:+ ")"
  | _ => news_header company_name symbol +:+ PyStr.concat (rendered_items all_news)
  end.

Definition search_stock_news (company_name symbol : string) : py string :=
  try_except
    (all_news ← gather_news company_name symbol;
     mret (format_news company_name symbol all_news))
    (λ e, mret ("Error searching for news: " +:+ exn_str e)).

End News.

(** ** [analyze_stock_simple] *)

Section Analysis.
Context {num : Type} `{!Num num} (w : world num).

(** The text the news search is keyed on: what follows ["Company: "] on
    its line when the block has one, the ticker otherwise. *)
Definition company_name_of (stock_symbol stock_data : string) : py string :=
  if PyStr.contains stock_data "Company:" then
    try_except
      (after ← list_getitem (PyStr.split stock_data "Company: ") 1;
       list_getitem (PyStr.split after NL) 0)
      (λ _, mret stock_symbol)
  else mret stock_symbol.

Definition lines (l : list string) : string :=
  PyStr.concat ((λ s, s +:+ NL) <$> l).

Definition analysis_prompt (stock_symbol stock_data news_data : string) : string :=
  lines
    [ "";
      "You are a senior financial analyst. Please provide a comprehensive stock analysis for "
        +:+ stock_symbol +:+ " based on the following data:";
      "";
      "STOCK DATA:";
      stock_data;
      "";
      "NEWS DATA:";
      news_data;
      "";
      "Please provide:";
      "";
      "1. **EXECUTIVE SUMMARY** (2-3 sentences about the company and current situation)";
      "";
      "2. **FINANCIAL HEALTH ASSESSMENT** ";
      "   - Analyze key metrics (P/E, debt-to-equity, ROE, profit margins, etc.)";
      "   - Compare to industry standards where possible";
      "   - Rate financial health: Excellent/Good/Fair/Poor";
      "";
      "3. **VALUATION ANALYSIS**";
      "   - Is the stock overvalued, fairly valued, or undervalued?";
      "   - Key valuation metrics analysis";
      "   ";
      "4. **RECENT NEWS IMPACT**";
      "   - How recent news affects the stock outlook";
      "   - Market sentiment analysis";
      "";
      "5. **INVESTMENT RECOMMENDATION**";
      "   - Clear decision: **BUY** / **HOLD** / **SELL**";
      "   - Confidence level: High/Medium/Low";
      "   - 3-5 key reasons supporting your recommendation";
      "   - Main risks to consider";
      "   - Suggested time horizon (short/medium/long term)";
      "";
      "6. **BOTTOM LINE** (1-2 sentences in plain English for beginner investors)";
      "";
      "Make your analysis clear, actionable, and accessible to both beginners and experienced investors. Be honest about uncertainties and risks." ].

(** [response.content if hasattr(response, 'content') else str(response)] *)
Definition text_of (r : response) : string :=
  default (response_str r) (content r).

Definition analyze_stock_simple (stock_symbol : string) : py string :=
  print (NL +:+ "Starting Simple Stock Analysis for: " +:+ stock_symbol);;
  print (PyStr.repeat "=" 50);;
  try_except
    (emit (EvLLMInit "gemini-1.5-flash");;
     lift (llm_init w);;
     print "Fetching stock data...";;
     stock_data ← get_stock_data w stock_symbol;
     print "Searching for recent news...";;
     company_name ← company_name_of stock_symbol stock_data;
     news_data ← search_stock_news w company_name stock_symbol;
     let prompt := analysis_prompt stock_symbol stock_data news_data in
     print "Generating AI analysis...";;
     emit (EvInvoke prompt);;
     response ← lift (llm_invoke w prompt);
     let analysis_result := text_of response in
     print (NL +:+ "Analysis Complete for " +:+ stock_symbol);;
     print (PyStr.repeat "=" 50);;
     mret analysis_result)
    (λ e,
       let error_msg := "Error during analysis: " +:+ exn_str e in
       print error_msg;;
       mret error_msg).

End Analysis.

(** ** The financial companion crew *)

Module Crew.

Record Agent := {
  role : string;
  goal : string;
  backstory : string;
  agent_verbose : bool;
  allow_delegation : bool;
  tools : list string;
}.

Record Task := {
  description : string;
  expected_output : string;
  agent : Agent;
}.

Inductive Process := sequential | hierarchical.

Record Crew := {
  agents : list Agent;
  tasks : list Task;
  process : Process;
  verbose : bool;
  memory : bool;
  max_rpm : nat;
}.

(** What a run is started with. *)
Record inputs := {
  transaction_file : string;
  customer_profile : gmap string string;
  analysis_date : string;
  lookback_period_months : nat;
  fraud_analysis_days : nat;
}.

(** A value of the dictionary [process_customer_data] returns. *)
Inductive value :=
| Str (s : string)
| CrewOutput (tasks_output : list string).

(** The collaborators of a crew run: the loader of the [.env] file, the
    constructors of the libraries (the model client, the file tool, an
    agent, a task, a crew: each checks what it is given and may raise, and
    the object it returns holds what it was given), the hosted model behind
    every agent (one task carried out by its agent, given the outputs so
    far), the runner's other process, and the clock. *)
Record runtime := {
  dotenv_load : outcome unit;      (* from dotenv import load_dotenv; load_dotenv() *)
  llm_new : outcome unit;          (* ChatGoogleGenerativeAI(...) *)
  tool_new : outcome unit;         (* FileReadTool() *)
  agent_new : Agent → outcome unit;
  task_new : Task → outcome unit;
  crew_new : Crew → outcome unit;
  execute_task : Agent → Task → inputs → list string → outcome string;
  run_hierarchical : Crew → inputs → outcome (list string);
  now_isoformat : string;
}.

Definition data_processor : Agent :=
  {| role := "Transaction Data Validator and Processor";
     goal := "Clean, validate, and normalize customer transaction data while ensuring data privacy and security compliance, achieving 99.9% data quality standards";
     backstory := "You are a meticulous data engineer with 10+ years in fintech data processing, 
                        specializing in transaction data normalization and privacy-first data handling. 
                        You are expert in detecting data anomalies and ensuring regulatory compliance from day one.
                        You understand the importance of data quality in financial systems and always prioritize security.";
     agent_verbose := true;
     allow_delegation := false;
     tools := ["file_read_tool"] |}.

Definition risk_guardian : Agent :=
  {| role := "Fraud Detection and Risk Assessment Analyst";
     goal := "Identify suspicious transaction patterns and generate multi-level fraud alerts (low/medium/high risk) with 95% accuracy while minimizing false positives";
     backstory := "You are a former bank security analyst with expertise in real-time fraud detection systems. 
                        You combine traditional rule-based approaches with machine learning to catch evolving fraud patterns 
                        while protecting legitimate customers from unnecessary blocks. You understand the balance between 
                        security and customer experience.";
     agent_verbose := true;
     allow_delegation := false;
     tools := [] |}.

Definition health_advisor : Agent :=
  {| role := "Spending Pattern Analyst and Financial Wellness Expert";
     goal := "Analyze 6-12 months of transaction history to identify spending patterns, calculate key financial health metrics, and generate actionable savings recommendations";
     backstory := "You are a certified financial planner who transitioned to fintech, specializing in 
                        micro-finance and financial inclusion. You are expert at translating complex financial data 
                        into simple, actionable insights for customers with varying financial literacy levels. 
                        You focus on practical advice that customers can immediately implement.";
     agent_verbose := true;
     allow_delegation := false;
     tools := [] |}.

Definition product_matchmaker : Agent :=
  {| role := "Financial Product Recommendation Specialist";
     goal := "Match customer financial profiles with optimal financial products (savings, micro-loans, insurance, investments) based on industry-standard eligibility criteria and risk assessments";
     backstory := "You are a former product manager at a leading digital bank with deep knowledge of 
                        financial product design and customer segmentation. You specialize in creating personalized 
                        product recommendations that drive both customer value and business growth. You understand 
                        regulatory requirements and eligibility criteria for various financial products.";
     agent_verbose := true;
     allow_delegation := false;
     tools := [] |}.

Definition report_synthesizer : Agent :=
  {| role := "Financial Insights Report Generator";
     goal := "Create comprehensive, easy-to-understand financial health reports in both JSON and human-readable formats that non-finance experts can easily comprehend";
     backstory := "You are a financial communications expert who bridges the gap between complex financial 
                        analysis and customer understanding. You are expert at creating reports that comply with 
                        regulatory requirements while remaining accessible to all education levels. You know how to 
                        present complex data in simple, actionable formats.";
     agent_verbose := true;
     allow_delegation := false;
     tools := [] |}.

(** [self.agents[key]]. *)
Definition agents_getitem (agents : list (string * Agent)) (key : string) : py Agent :=
  match list_find (λ kv, kv.1 = key) agents with
  | Some (_, (_, a)) => mret a
  | None => raise (KeyError key)
  end.

Definition task1_description : string :=
  "Load and validate the customer transaction data. Your responsibilities include:
            1. Read the transaction data file (CSV or JSON format)
            2. Validate required fields: transaction_id, date_time, amount, merchant_name, category, transaction_type, account_id, channel
            3. Check data quality: missing values, duplicates, invalid dates, negative amounts where inappropriate
            4. Normalize transaction categories and clean merchant names
            5. Ensure data privacy compliance (mask sensitive information if needed)
            6. Create a clean dataset ready for analysis
            7. Generate a data quality report with completeness scores
            
            Focus on data integrity and security. Flag any suspicious data patterns or quality issues.".

Definition task1_expected_output : string :=
  "A comprehensive data validation report including:
            - Data quality score (percentage)
            - Number of transactions processed
            - Data completeness by field
            - Any data quality issues found and resolved
            - Summary of data cleaning actions taken
            - Confirmation that data meets security standards".

Definition task2_description : string :=
  "Analyze recent transaction patterns (last 30 days) to detect potential fraud. Your analysis should include:
            1. Identify unusual transaction patterns using statistical methods
            2. Check for impossible travel (transactions in different locations within impossible timeframes)
            3. Detect abnormal transaction amounts compared to customer's typical behavior
            4. Identify suspicious merchant patterns or new merchant interactions
            5. Check transaction velocity (too many transactions in short time periods)
            6. Generate multi-level risk alerts:
               - LOW: Unusual but not immediately concerning (new merchant, different location)
               - MEDIUM: Suspicious patterns requiring customer notification
               - HIGH: High probability fraud requiring immediate action
            7. Provide specific reasoning for each alert
            
            Balance fraud detection with customer experience - avoid false positives.".

Definition task2_expected_output : string :=
  "Fraud risk assessment report containing:
            - Overall fraud risk score (Low/Medium/High)
            - Specific fraud alerts with risk levels and detailed explanations
            - Suspicious transaction details and patterns identified
            - Recommended actions for each risk level
            - Summary of normal vs suspicious transaction patterns
            - Confidence scores for each fraud alert".

Definition task3_description : string :=
  "Analyze the customer's financial health using 6-12 months of transaction history:
            1. Calculate spending patterns by category (groceries, utilities, entertainment, etc.)
            2. Determine monthly income vs expenses and cash flow trends
            3. Identify savings potential based on spending habits
            4. Calculate key financial ratios and metrics
            5. Detect seasonal spending patterns and trends
            6. Assess financial stability and identify areas for improvement
            7. Generate personalized savings opportunities
            8. Evaluate debt-to-income ratio if loan payments are present
            9. Provide financial wellness score
            
            Focus on actionable insights that help customers improve their financial health.".

Definition task3_expected_output : string :=
  "Comprehensive financial health analysis including:
            - Financial wellness score (0-100)
            - Monthly spending breakdown by category
            - Income vs expense analysis with trends
            - Identified savings opportunities with potential amounts
            - Financial stability indicators
            - Personalized recommendations for financial improvement
            - Key financial ratios and benchmarks
            - Seasonal spending patterns and insights".

Definition task4_description : string :=
  "Based on the financial health analysis and customer profile, recommend appropriate financial products:
            1. Analyze customer's financial profile and needs
            2. Match customer segments with appropriate products:
               - Savings accounts for customers with surplus cash
               - Micro-loans for customers with temporary cash flow gaps
               - Insurance products for risk protection needs
               - Investment products based on risk appetite and surplus funds
            3. Apply industry-standard eligibility criteria
            4. Consider customer's transaction behavior and financial stability
            5. Prioritize products by relevance and potential customer benefit
            6. Explain why each product is recommended
            7. Include terms, benefits, and eligibility requirements
            
            Focus on products that genuinely benefit the customer's financial situation.".

Definition task4_expected_output : string :=
  "Prioritized financial product recommendations including:
            - Top 3-5 recommended products with priority ranking
            - Detailed explanation of why each product fits the customer
            - Eligibility requirements and likelihood of approval
            - Expected benefits and potential returns/savings
            - Product terms and conditions summary
            - Risk assessment for each recommended product
            - Next steps for product application/enrollment".

Definition task5_description : string :=
  "Synthesize all previous analyses into comprehensive financial companion reports:
            1. Create an executive summary of key findings
            2. Compile fraud alerts and security recommendations
            3. Present financial health insights in easy-to-understand language
            4. Include product recommendations with clear explanations
            5. Generate actionable next steps for the customer
            6. Create both technical (JSON) and customer-friendly (narrative) formats
            7. Ensure all content is accessible to non-finance experts
            8. Include compliance disclaimers and privacy notices
            9. Structure information logically with clear sections
            
            Make complex financial analysis understandable for everyday customers.".

Definition task5_expected_output : string :=
  "Complete financial companion report package containing:
            1. Executive Summary (key insights in 2-3 paragraphs)
            2. Security Status (fraud alerts and recommendations)
            3. Financial Health Dashboard (scores, trends, and insights)
            4. Personalized Recommendations (savings tips and product suggestions)
            5. Action Plan (specific next steps for customer)
            6. Technical JSON output for system integration
            7. Customer-friendly PDF/HTML formatted report
            All content should be clear, actionable, and compliant with regulations.".

(** The object [__init__] builds. *)
Record FinancialCompanionCrew := {
  self_agents : list (string * Agent);
  self_tasks : list Task;
  self_crew : Crew;
}.

Section Run.
Context (rt : runtime).

(** [Agent(...)], [Task(...)] and [Crew(...)]. *)
Definition new_agent (a : Agent) : py Agent := lift (agent_new rt a);; mret a.
Definition new_task (t : Task) : py Task := lift (task_new rt t);; mret t.
Definition new_crew (c : Crew) : py Crew := lift (crew_new rt c);; mret c.

(** [_create_agents]: the dictionary, in insertion order. *)
Definition _create_agents : py (list (string * Agent)) :=
  a1 ← new_agent data_processor;
  a2 ← new_agent risk_guardian;
  a3 ← new_agent health_advisor;
  a4 ← new_agent product_matchmaker;
  a5 ← new_agent report_synthesizer;
  mret [ ("data_processor", a1);
         ("risk_guardian", a2);
         ("health_advisor", a3);
         ("product_matchmaker", a4);
         ("report_synthesizer", a5) ].

Definition _create_tasks (agents : list (string * Agent)) : py (list Task) :=
  a1 ← agents_getitem agents "data_processor";
  t1 ← new_task {| description := task1_description;
                   expected_output := task1_expected_output; agent := a1 |};
  a2 ← agents_getitem agents "risk_guardian";
  t2 ← new_task {| description := task2_description;
                   expected_output := task2_expected_output; agent := a2 |};
  a3 ← agents_getitem agents "health_advisor";
  t3 ← new_task {| description := task3_description;
                   expected_output := task3_expected_output; agent := a3 |};
  a4 ← agents_getitem agents "product_matchmaker";
  t4 ← new_task {| description := task4_description;
                   expected_output := task4_expected_output; agent := a4 |};
  a5 ← agents_getitem agents "report_synthesizer";
  t5 ← new_task {| description := task5_description;
                   expected_output := task5_expected_output; agent := a5 |};
  mret [t1; t2; t3; t4; t5].

Definition _create_crew (agents : list (string * Agent)) (tasks : list Task)
  : py Crew :=
  new_crew {| agents := agents.*2;
              tasks := tasks;
              process := sequential;
              verbose := true;
              memory := true;
              max_rpm := 10 |}.

Definition __init__ : py FinancialCompanionCrew :=
  lift (dotenv_load rt);;
  emit (EvLLMInit "gemini-1.5-flash");;
  lift (llm_new rt);;
  lift (tool_new rt);;
  agents ← _create_agents;
  tasks ← _create_tasks agents;
  crew ← _create_crew agents tasks;
  mret {| self_agents := agents; self_tasks := tasks; self_crew := crew |}.

(** Modelled from the spec: the orchestration library's runner is not
    part of the sources.  The sequential process, as section 4.4 words
    it: the tasks are carried out strictly in order, each by its own
    agent, each output made available to the tasks after it; the first
    failure ends the run. *)
Fixpoint run_sequential (todo : list Task) (inp : inputs) (outputs : list string)
  : py (list string) :=
  match todo with
  | [] => mret outputs
  | t :: rest =>
      emit (EvExecute (role (agent t)) (description t));;
      out ← lift (execute_task rt (agent t) t inp outputs);
      run_sequential rest inp (outputs ++ [out])
  end.

(** Modelled from the spec: [Crew.kickoff] of the orchestration library,
    dispatching on the configured process. *)
Definition kickoff (c : Crew) (inp : inputs) : py (list string) :=
  emit EvKickoff;;
  match process c with
  | sequential => run_sequential (tasks c) inp []
  | hierarchical => lift (run_hierarchical rt c inp)
  end.

(** The printed lines open with the characters the file holds there. *)
Definition process_customer_data (self : FinancialCompanionCrew)
    (file : string) (profile : option (gmap string string))
  : py (gmap string value) :=
  let inp := {| transaction_file := file;
                customer_profile := default ∅ profile;
                analysis_date := now_isoformat rt;
                lookback_period_months := 12;
                fraud_analysis_days := 30 |} in
  print "üöÄ Starting Financial Companion Analysis...";;
  print ("üìÅ Processing file: " +:+ file);;
  print ("üìÖ Analysis date: " +:+ analysis_date inp);;
  print (PyStr.repeat "-" 50);;
  try_except
    (outputs ← kickoff (self_crew self) inp;
     mret (<["crew_execution" := Str "completed"]> $
           <["results" := CrewOutput outputs]> $
           <["transaction_file" := Str file]> $
           <["analysis_date" := Str (analysis_date inp)]> $
           <["status" := Str "success"]> ∅))
    (λ e,
       print ("‚ùå Error during crew execution: " +:+ exn_str e);;
       mret (<["analysis_date" := Str (analysis_date inp)]> $
             <["error_message" := Str (exn_str e)]> $
             <["status" := Str "error"]> ∅)).

End Run.

(** The (role, task) pairs of a task list, in order. *)
Definition steps (todo : list Task) : list (string * string) :=
  (λ t, (role (agent t), description t)) <$> todo.

(** The five pairs of the pipeline. *)
Definition plan : list (string * string) :=
  [ (role data_processor, task1_description);
    (role risk_guardian, task2_description);
    (role health_advisor, task3_description);
    (role product_matchmaker, task4_description);
    (role report_synthesizer, task5_description) ].

(** The agents, the tasks and the crew the constructors are called with,
    and the object [__init__] builds from them. *)
Definition the_agents : list (string * Agent) :=
  [ ("data_processor", data_processor);
    ("risk_guardian", risk_guardian);
    ("health_advisor", health_advisor);
    ("product_matchmaker", product_matchmaker);
    ("report_synthesizer", report_synthesizer) ].

Definition the_tasks : list Task :=
  [ {| description := task1_description;
       expected_output := task1_expected_output; agent := data_processor |};
    {| description := task2_description;
       expected_output := task2_expected_output; agent := risk_guardian |};
    {| description := task3_description;
       expected_output := task3_expected_output; agent := health_advisor |};
    {| description := task4_description;
       expected_output := task4_expected_output; agent := product_matchmaker |};
    {| description := task5_description;
       expected_output := task5_expected_output; agent := report_synthesizer |} ].

Definition the_crew : Crew :=
  {| agents := the_agents.*2;
     tasks := the_tasks;
     process := sequential;
     verbose := true;
     memory := true;
     max_rpm := 10 |}.

Definition built : FinancialCompanionCrew :=
  {| self_agents := the_agents; self_tasks := the_tasks; self_crew := the_crew |}.

(** The calls that can fail while the object is built, in the order in
    which [__init__] makes them. *)
Definition constructions (rt : runtime) : list (outcome unit) :=
  [dotenv_load rt; llm_new rt; tool_new rt] ++
  (agent_new rt <$> the_agents.*2) ++
  (task_new rt <$> the_tasks) ++
  [crew_new rt the_crew].

(** The exception of the first call that raises. *)
Fixpoint first_failure (calls : list (outcome unit)) : option exn :=
  match calls with
  | [] => None
  | Return _ :: rest => first_failure rest
  | Raise e :: _ => Some e
  end.

(** What [process_customer_data] hands to the runner. *)
Definition inputs_for (rt : runtime) (file : string)
    (profile : option (gmap string string)) : inputs :=
  {| transaction_file := file;
     customer_profile := default ∅ profile;
     analysis_date := now_isoformat rt;
     lookback_period_months := 12;
     fraud_analysis_days := 30 |}.

(** The two dictionaries [process_customer_data] can return. *)
Definition success_result (date file : string) (outputs : list string)
  : gmap string value :=
  <["crew_execution" := Str "completed"]> $
  <["results" := CrewOutput outputs]> $
  <["transaction_file" := Str file]> $
  <["analysis_date" := Str date]> $
  <["status" := Str "success"]> ∅.

Definition error_result (date : string) (e : exn) : gmap string value :=
  <["analysis_date" := Str date]> $
  <["error_message" := Str (exn_str e)]> $
  <["status" := Str "error"]> ∅.

(** A runtime in which the third step is refused and every other step
    answers with the role that carried it out. *)
Definition refuses_third : runtime :=
  {| dotenv_load := Return tt;
     llm_new := Return tt;
     tool_new := Return tt;
     agent_new _ := Return tt;
     task_new _ := Return tt;
     crew_new _ := Return tt;
     execute_task a _ _ _ :=
       if String.eqb (role a) "Spending Pattern Analyst and Financial Wellness Expert"
       then Raise (Exn "ResourceExhausted" "429 quota exceeded")
       else Return ("done by " +:+ role a);
     run_hierarchical _ _ := Raise (Exn "NotImplementedError" "hierarchical");
     now_isoformat := "2025-01-01T00:00:00" |}.

(** A runtime in which the model client is built and the crew is refused,
    as by a library that cannot set up the memory it is asked for. *)
Definition refuses_crew : runtime :=
  {| dotenv_load := Return tt;
     llm_new := Return tt;
     tool_new := Return tt;
     agent_new _ := Return tt;
     task_new _ := Return tt;
     crew_new _ := Raise (Exn "ValidationError" "1 validation error for Crew");
     execute_task a _ _ _ := Return ("done by " +:+ role a);
     run_hierarchical _ _ := Raise (Exn "NotImplementedError" "hierarchical");
     now_isoformat := "2025-01-01T00:00:00" |}.

(** A runtime in which every step answers. *)
Definition answers_all : runtime :=
  {| dotenv_load := Return tt;
     llm_new := Return tt;
     tool_new := Return tt;
     agent_new _ := Return tt;
     task_new _ := Return tt;
     crew_new _ := Return tt;
     execute_task a _ _ _ := Return ("done by " +:+ role a);
     run_hierarchical _ _ := Raise (Exn "NotImplementedError" "hierarchical");
     now_isoformat := "2025-01-01T00:00:00" |}.

End Crew.

(** ** Reading a run *)

(** The ticker symbols looked up, in order. *)
Definition attempts (t : list event) : list string :=
  omap (λ ev, if ev is EvTicker s then Some s else None) t.

(** The searches issued: query, result cap, region. *)
Definition searches (t : list event) : list (string * nat * string) :=
  omap (λ ev, if ev is EvSearch q m r then Some (q, m, r) else None) t.

(** The prompts sent to the hosted model. *)
Definition invocations (t : list event) : list string :=
  omap (λ ev, if ev is EvInvoke p then Some p else None) t.

(** The crew steps carried out: role and task description. *)
Definition executed (t : list event) : list (string * string) :=
  omap (λ ev, if ev is EvExecute r d then Some (r, d) else None) t.

(** The needles occur in the text one after the other, without overlap. *)
Fixpoint in_order (needles : list string) (text : string) : Prop :=
  match needles with
  | [] => True
  | needle :: rest =>
      ∃ before after, text = before +:+ needle +:+ after ∧ in_order rest after
  end.

(** A template with its fields filled in from [value]. *)
Fixpoint fill (parts : list part) (value : string → string) : string :=
  match parts with
  | [] => EmptyString
  | Lit text :: rest => text +:+ fill rest value
  | Field key :: rest => value key +:+ fill rest value
  end.

(** The same for runs of template parts inside a template. *)
Fixpoint parts_in_order (needles : list (list part)) (parts : list part) : Prop :=
  match needles with
  | [] => True
  | needle :: rest =>
      ∃ before after, parts = before ++ needle ++ after ∧ parts_in_order rest after
  end.

(** The keys a template reads, in the order it reads them. *)
Definition fields_of (parts : list part) : list string :=
  omap (λ p, if p is Field key then Some key else None) parts.

(** The pieces of [s] between the occurrences of the character [c]. *)
Fixpoint segments (c : Ascii.ascii) (s : string) : list string :=
  match s with
  | EmptyString => [EmptyString]
  | String a s' =>
      if Ascii.eqb a c then EmptyString :: segments c s'
      else match segments c s' with
           | piece :: pieces => String a piece :: pieces
           | [] => [String a EmptyString]
           end
  end.

(** [sep.join(pieces)]. *)
Fixpoint join (sep : string) (pieces : list string) : string :=
  match pieces with
  | [] => EmptyString
  | [piece] => piece
  | piece :: rest => piece +:+ sep +:+ join sep rest
  end.

(** How often the character [c] occurs in [s]. *)
Fixpoint count_char (c : Ascii.ascii) (s : string) : nat :=
  match s with
  | EmptyString => 0
  | String a s' => (if Ascii.eqb a c then 1 else 0) + count_char c s'
  end.

(** What indexing past the end of a list raises. *)
Definition out_of_range : exn := IndexError "list index out of range".

(** The message of a failed lookup. *)
Definition error_text (t : string) (e : exn) : string :=
  "Error fetching " +:+ t +:+ ": " +:+ exn_str e.

(** One entry of the rendered list as section 4.2 has it: its number, the
    title, the source, the summary and the address. *)
Definition news_entry (i : nat) (title source summary url : string) : string :=
  NL +:+ pretty i +:+ ". " +:+ title +:+ NL +:+
  "   Source: " +:+ source +:+ NL +:+
  "   Summary: " +:+ summary +:+ "..." +:+ NL +:+
  "   URL: " +:+ url +:+ NL +:+
  "   " +:+ NL.

(** The entries of [items], numbered from 1, the summary of each being the
    first [width] characters of its body. *)
Definition listing (width : nat) (items : list news_item) : string :=
  PyStr.concat
    (imap (λ i item,
             news_entry (S i) (title item) (source item)
               (PyStr.take_chars width (body item)) (url item))
          items).

Section Vocabulary.
Context {num : Type} `{!Num num}.

(** The items a result list contributes to [all_news]. *)
Definition collected (results : list hit) : list news_item :=
  (append_results results []).1.

(** What one query adds to [all_news]. *)
Definition contribution (w : world num) (query : string) : list news_item :=
  match ddgs_text w query 3 "us-en" with
  | Return results => collected results
  | Raise _ => []
  end.

(** The search client hands back no more results than it was asked for. *)
Definition honours_cap (w : world num) : Prop :=
  ∀ query max_results region results,
    ddgs_text w query max_results region = Return results →
    length results ≤ max_results.

(** A return field that was computed: the two-decimal rendering of
    [(last - c) / c * 100], [c] the close [k] observations back. *)
Definition populated (closes : list num) (k : nat) (v : pyval num) : Prop :=
  ∃ current_price c q,
    last closes = Some current_price ∧
    closes !! (length closes - k) = Some c ∧
    num_div (num_sub current_price c) c = Return q ∧
    v = VStr (format_2f (num_mul q 100)).

(** The return over [k] observations can be computed without an error. *)
Definition computable (closes : list num) (k : nat) : Prop :=
  k ≤ length closes → ∃ v, populated closes k v.

Definition all_computable (closes : list num) : Prop :=
  computable closes 30 ∧ computable closes 90 ∧ computable closes 252.

(** A return field as section 4.1 words it: computed when the series has
    at least [k] observations, marked unavailable otherwise. *)
Definition return_field (closes : list num) (k : nat) (field : option (pyval num))
  : Prop :=
  (k ≤ length closes → ∃ v, field = Some v ∧ populated closes k v) ∧
  (length closes < k → field = Some NA).

Definition return_fields (closes : list num) (data : gmap string (pyval num)) : Prop :=
  return_field closes 30 (data !! "1_month_return") ∧
  return_field closes 90 (data !! "3_month_return") ∧
  return_field closes 252 (data !! "1_year_return").

(** What the f-string writes for [data[key]]. *)
Definition shown (data : gmap string (pyval num)) (key : string) : string :=
  py_str (default VNone (data !! key)).

(** The headers and the lines with a unit that section 4.1 fixes, as they
    stand in the block of [data]. *)
Definition mandated (data : gmap string (pyval num)) : list string :=
  [ "STOCK DATA FOR " +:+ shown data "symbol";
    "Company: " +:+ shown data "company_name";
    "CURRENT METRICS:";
    "- Current Price: $" +:+ shown data "current_price";
    "FINANCIAL HEALTH:";
    "PERFORMANCE:";
    "- 52 Week High: $" +:+ shown data "52_week_high";
    "- 52 Week Low: $" +:+ shown data "52_week_low";
    "- 1 Month Return: " +:+ shown data "1_month_return" +:+ "%";
    "- 3 Month Return: " +:+ shown data "3_month_return" +:+ "%";
    "- 1 Year Return: " +:+ shown data "1_year_return" +:+ "%";
    "TRADING DATA:" ].

(** The keys the f-string of [get_stock_data] reads. *)
Definition stock_fields : list string :=
  [ "symbol"; "company_name"; "sector"; "industry"; "current_price"; "market_cap";
    "pe_ratio"; "price_to_book"; "beta"; "debt_to_equity"; "roe"; "profit_margin";
    "revenue_growth"; "dividend_yield"; "52_week_high"; "52_week_low";
    "1_month_return"; "3_month_return"; "1_year_return"; "volume"; "avg_volume" ].

End Vocabulary.

(** ** A concrete instance for the examples *)

(** Prices as the 64-bit floats of the source: the kernel's binary64 with
    its subtraction, division (which does not raise: a zero divisor gives
    an infinity or a NaN) and multiplication, printed the way Python prints
    a float. *)
Module Exact.

(** [n / d] rounded to the nearest integer, a tie to the even one
    ([0 ≤ n], [0 < d]). *)
Definition round_half_even (n d : Z) : Z :=
  let f := (n / d)%Z in
  match (2 * (n mod d) ?= d)%Z with
  | Lt => f
  | Gt => (f + 1)%Z
  | Eq => if Z.even f then f else (f + 1)%Z
  end.

(** [m * 2^e * 100], rounded. *)
Definition hundredths (m : positive) (e : Z) : Z :=
  if (0 <=? e)%Z then (Z.pos m * 2 ^ e * 100)%Z
  else round_half_even (Z.pos m * 100) (2 ^ (- e)).

Definition two_digits (n : Z) : string :=
  if (n <? 10)%Z then "0" +:+ pretty n else pretty n.

Definition fixed2 (negative : bool) (n : Z) : string :=
  ((if negative then "-" else "") +:+ pretty (n / 100)%Z) +:+ "." +:+
  two_digits (n mod 100)%Z.

(** [f"{x:.2f}"]: the exact value of the float, rounded to two decimals. *)
Definition float_format_2f (x : float) : string :=
  match Prim2SF x with
  | S754_nan => "nan"
  | S754_infinity s => if s then "-inf" else "inf"
  | S754_zero s => fixed2 s 0
  | S754_finite s m e => fixed2 s (hundredths m e)
  end.

(** Comparison of [a * 10^q] with [b * 2^e], [a] and [b] not negative. *)
Definition compare_scaled (a q b e : Z) : comparison :=
  (a * 10 ^ Z.max q 0 * 2 ^ Z.max (- e) 0 ?= b * 2 ^ Z.max e 0 * 10 ^ Z.max (- q) 0)%Z.

(** The least [k] with [b * 2^e < 10^k], looked for from [k] upwards or
    downwards. *)
Fixpoint decimal_point (fuel : nat) (b e k : Z) : Z :=
  match fuel with
  | O => k
  | S fuel' =>
      match compare_scaled 1 k b e with
      | Gt =>
          match compare_scaled 1 (k - 1) b e with
          | Gt => decimal_point fuel' b e (k - 1)
          | _ => k
          end
      | _ => decimal_point fuel' b e (k + 1)
      end
  end.

Definition between (inclusive : bool) (lo hi c q e : Z) : bool :=
  match compare_scaled c q lo e, compare_scaled c q hi e with
  | Gt, Lt => true
  | Eq, Lt | Gt, Eq => inclusive
  | _, _ => false
  end.

(** The decimal [c * 10^q] with [n] digits nearest to [v * 2^e], if one
    lies between [lo * 2^e] and [hi * 2^e]. *)
Definition nearest (inclusive : bool) (lo v hi e k : Z) (n : Z) : option (Z * Z) :=
  let q := (k - n)%Z in
  let num := (v * 2 ^ Z.max e 0 * 10 ^ Z.max (- q) 0)%Z in
  let den := (2 ^ Z.max (- e) 0 * 10 ^ Z.max q 0)%Z in
  let down := (num / den)%Z in
  let up := (down + 1)%Z in
  let ok_down := between inclusive lo hi down q e in
  let ok_up := between inclusive lo hi up q e in
  let take_down :=
    match (2 * (num mod den) ?= den)%Z with
    | Lt => true
    | Gt => false
    | Eq => Z.even down
    end in
  if ok_down && (take_down || negb ok_up) then Some (down, q)
  else if ok_up then Some (up, q)
  else None.

Fixpoint shortest (fuel : nat) (inclusive : bool) (lo v hi e k : Z) (n : Z)
  : Z * Z :=
  match fuel with
  | O => (v, e)
  | S fuel' =>
      match nearest inclusive lo v hi e k n with
      | Some cq => cq
      | None => shortest fuel' inclusive lo v hi e k (n + 1)
      end
  end.

Fixpoint strip_zeros (fuel : nat) (c q : Z) : Z * Z :=
  match fuel with
  | O => (c, q)
  | S fuel' =>
      if ((c mod 10 =? 0) && negb (c =? 0))%Z then strip_zeros fuel' (c / 10) (q + 1)
      else (c, q)
  end.

(** The digits and the place of the decimal point of the shortest decimal
    that reads back as the float [m * 2^e]. *)
Definition shortest_digits (m : positive) (e : Z) : string * Z :=
  let v := (4 * Z.pos m)%Z in
  let lo := if ((Z.pos m =? 2 ^ 52) && (-1074 <? e))%Z then (v - 1)%Z else (v - 2)%Z in
  let hi := (v + 2)%Z in
  let k := decimal_point 700 v (e - 2) 0 in
  let '(c, q) := shortest 17 (Z.even (Z.pos m)) lo v hi (e - 2) k 1 in
  let '(c, q) := strip_zeros 20 c q in
  let digits := pretty c in
  (digits, (Z.of_nat (String.length digits) + q)%Z).

Definition zeros (n : Z) : string := String.concat "" (replicate (Z.to_nat n) "0").

Definition string_take (n : nat) (s : string) : string := String.substring 0 n s.
Definition string_drop (n : nat) (s : string) : string :=
  String.substring n (String.length s - n) s.

(** [repr] of a positive finite float from its digits: plain notation
    when the decimal point lies within [-4 < point ≤ 16], with exponent
    otherwise. *)
Definition place (digits : string) (point : Z) : string :=
  let n := Z.of_nat (String.length digits) in
  if ((-4 <? point) && (point <=? 16))%Z then
    if (point <=? 0)%Z then "0." +:+ zeros (- point) +:+ digits
    else if (n <=? point)%Z then digits +:+ zeros (point - n) +:+ ".0"
    else string_take (Z.to_nat point) digits +:+ "." +:+ string_drop (Z.to_nat point) digits
  else
    let x := (point - 1)%Z in
    string_take 1 digits +:+
    (if (1 <? n)%Z then "." +:+ string_drop 1 digits else "") +:+
    "e" +:+ (if (x <? 0)%Z then "-" else "+") +:+ two_digits (Z.abs x).

(** [str(x)]. *)
Definition float_str (x : float) : string :=
  match Prim2SF x with
  | S754_nan => "nan"
  | S754_infinity s => if s then "-inf" else "inf"
  | S754_zero s => if s then "-0.0" else "0.0"
  | S754_finite s m e =>
      let '(digits, point) := shortest_digits m e in
      (if s then "-" else "") +:+ place digits point
  end.

(** An integer as a float ([|z| < 2^63]). *)
Definition float_of_Z (z : Z) : float :=
  if (z <? 0)%Z then PrimFloat.opp (PrimFloat.of_uint63 (Uint63.of_Z (- z)))
  else PrimFloat.of_uint63 (Uint63.of_Z z).

#[global] Instance num_float : Num float := {|
  num_sub := PrimFloat.sub;
  num_div x y := Return (PrimFloat.div x y);
  num_mul x z := PrimFloat.mul x (float_of_Z z);
  format_2f := float_format_2f;
  num_str := float_str;
|}.

Definition unreachable_exn : exn := Exn "ConnectionError" "no route to host".

Definition unreachable {A} : outcome A := Raise unreachable_exn.

(** A world with nothing in it: every collaborator fails. *)
Definition offline : world float :=
  {| yf_info _ := unreachable;
     yf_history _ := unreachable;
     ddgs_open := unreachable;
     ddgs_text _ _ _ := unreachable;
     llm_init := unreachable;
     llm_invoke _ := unreachable |}.

(** [n] closes, all equal to [c]. *)
Definition flat (n : nat) (c : float) : list float := replicate n c.

(** 45 daily closes: 44 at 100, the last at 110. *)
Definition closes45 : list float := flat 44 100%float ++ [110%float].

Definition tcs_info : gmap string (pyval float) :=
  <["longName" := VStr "Tata Consultancy Services Limited"]> $
  <["sector" := VStr "Technology"]> ∅.

(** The snapshot of [TCS.NS] over [closes45]. *)
Definition tcs_snapshot : gmap string (pyval float) :=
  set_returns (VStr "10.00") NA NA (stock_data_of "TCS.NS" tcs_info (VNum 110%float)).

(** The market data source knows [TCS.NS] and nothing else. *)
Definition only_tcs_ns : world float :=
  {| yf_info t :=
       if String.eqb t "TCS.NS" then Return tcs_info
       else Raise (Exn "HTTPError" "404 Client Error: Not Found");
     yf_history t := if String.eqb t "TCS.NS" then Return closes45 else Return [];
     ddgs_open := Return tt;
     ddgs_text _ _ _ := Return [];
     llm_init := Return tt;
     llm_invoke _ := Return {| content := Some "HOLD"; response_str := "AIMessage" |} |}.

(** The market data source answers every symbol with a nearly empty
    description and no price history, as it does for a delisted one. *)
Definition delisted : world float :=
  {| yf_info _ := Return (<["trailingPegRatio" := VNone]> ∅);
     yf_history _ := Return [];
     ddgs_open := Return tt;
     ddgs_text _ _ _ := Return [];
     llm_init := Return tt;
     llm_invoke _ := Return {| content := Some "HOLD"; response_str := "AIMessage" |} |}.

Definition mk_hit (t b href : string) : hit :=
  <["title" := t]> $ <["body" := b]> $ <["href" := href]> ∅.

(** Five hits; the search client below hands out the first [max_results]. *)
Definition five_hits : list hit :=
  [ mk_hit "Shares rally" "Shares rose after results." "https://news.example.com/a";
    mk_hit "Outlook cut" "Guidance was lowered." "https://wire.example.org/b";
    mk_hit "Dividend" "The board declared a dividend." "https://mkt.example.net/c";
    mk_hit "Buyback" "A buyback was announced." "https://news.example.com/d";
    mk_hit "Downgrade" "An analyst downgraded." "https://wire.example.org/e" ].

Definition llm_ok : string → outcome response :=
  λ _, Return {| content := Some "HOLD"; response_str := "AIMessage" |}.

(** Every query is answered, within the cap. *)
Definition newsy : world float :=
  {| yf_info _ := unreachable;
     yf_history _ := unreachable;
     ddgs_open := Return tt;
     ddgs_text _ max_results _ := Return (take max_results five_hits);
     llm_init := Return tt;
     llm_invoke := llm_ok |}.

(** A search client that hands back all five hits whatever number it is
    asked for. *)
Definition generous : world float :=
  {| yf_info _ := unreachable;
     yf_history _ := unreachable;
     ddgs_open := Return tt;
     ddgs_text _ _ _ := Return five_hits;
     llm_init := Return tt;
     llm_invoke := llm_ok |}.

(** The earnings query is refused, the other two are answered. *)
Definition flaky : world float :=
  {| yf_info _ := unreachable;
     yf_history _ := unreachable;
     ddgs_open := Return tt;
     ddgs_text query max_results _ :=
       if String.eqb query "ACME earnings news"
       then Raise (Exn "RatelimitException" "202 Ratelimit")
       else Return (take max_results five_hits);
     llm_init := Return tt;
     llm_invoke := llm_ok |}.

(** The search answers, with nothing. *)
Definition silent : world float :=
  {| yf_info _ := unreachable;
     yf_history _ := unreachable;
     ddgs_open := Return tt;
     ddgs_text _ _ _ := Return [];
     llm_init := Return tt;
     llm_invoke := llm_ok |}.

(** A hit whose address has no ['/'] in it, between two ordinary ones. *)
Definition bare_host : hit := mk_hit "Bare" "No scheme." "news.example.com".

Definition with_bare_host : world float :=
  {| yf_info _ := unreachable;
     yf_history _ := unreachable;
     ddgs_open := Return tt;
     ddgs_text _ _ _ :=
       Return [ mk_hit "Shares rally" "Shares rose." "https://news.example.com/a";
                bare_host;
                mk_hit "Dividend" "A dividend." "https://mkt.example.net/c" ];
     llm_init := Return tt;
     llm_invoke := llm_ok |}.

End Exact.

(** The snapshot fields that are copied from the description, each with the
    key it is read from. *)
Definition info_fields : list (string * string) :=
  [ ("company_name", "longName"); ("market_cap", "marketCap");
    ("debt_to_equity", "debtToEquity"); ("roe", "returnOnEquity");
    ("profit_margin", "profitMargins"); ("revenue_growth", "revenueGrowth");
    ("price_to_book", "priceToBook"); ("dividend_yield", "dividendYield");
    ("beta", "beta"); ("sector", "sector"); ("industry", "industry");
    ("52_week_high", "fiftyTwoWeekHigh"); ("52_week_low", "fiftyTwoWeekLow");
    ("volume", "volume"); ("avg_volume", "averageVolume") ].

(** The pauses taken, in seconds, and the lines printed. *)
Definition pauses (t : list event) : list nat :=
  omap (λ ev, if ev is EvSleep n then Some n else None) t.

Definition printed (t : list event) : list string :=
  omap (λ ev, if ev is EvPrint line then Some line else None) t.

Section MoreVocabulary.
Context {num : Type} `{!Num num}.

(** The query is answered and every hit of the answer makes a news item. *)
Definition completes (w : world num) (query : string) : bool :=
  match ddgs_text w query 3 "us-en" with
  | Return results =>
      if (append_results results []).2 is Return _ then true else false
  | Raise _ => false
  end.

(** What the handler of a query prints for the exception [e]. *)
Definition complaint (query : string) (e : exn) : string :=
  "Error with query '" +:+ query +:+ "': " +:+ exn_str e.

End MoreVocabulary.

(** What every analysis starts with: two printed lines and the model
    client. *)
Definition opening (stock_symbol : string) : list event :=
  [ EvPrint (NL +:+ "Starting Simple Stock Analysis for: " +:+ stock_symbol);
    EvPrint (PyStr.repeat "=" 50);
    EvLLMInit "gemini-1.5-flash" ].

(** No occurrence of [sub] in [before +:+ rest] starts inside [before]. *)
Fixpoint no_start (before rest sub : string) : Prop :=
  match before with
  | EmptyString => True
  | String a before' =>
      PyStr.startswith (String a (before' +:+ rest)) sub = false ∧
      no_start before' rest sub
  end.

(** ** The front end ([app.py]) *)

(** What [str.upper] and [str.strip] do to ASCII text.  Python's own
    functions work on every character; the script below takes them as they
    are, and these are used where the text is known to be ASCII. *)
Module PyText.

(** Every byte is below 128. *)
Fixpoint is_ascii (s : string) : bool :=
  match s with
  | EmptyString => true
  | String a s' => (Ascii.nat_of_ascii a <? 128) && is_ascii s'
  end.

(** The ASCII characters [str.isspace] accepts: 9 to 13 and 28 to 32. *)
Definition is_space (a : Ascii.ascii) : bool :=
  let n := Ascii.nat_of_ascii a in
  (9 <=? n) && (n <=? 13) || (28 <=? n) && (n <=? 32).

Definition upper_char (a : Ascii.ascii) : Ascii.ascii :=
  let n := Ascii.nat_of_ascii a in
  if (97 <=? n) && (n <=? 122) then Ascii.ascii_of_nat (n - 32) else a.

Fixpoint upper (s : string) : string :=
  match s with
  | EmptyString => EmptyString
  | String a s' => String (upper_char a) (upper s')
  end.

Fixpoint lstrip (s : string) : string :=
  match s with
  | EmptyString => EmptyString
  | String a s' => if is_space a then lstrip s' else s
  end.

Fixpoint rstrip (s : string) : string :=
  match s with
  | EmptyString => EmptyString
  | String a s' =>
      match rstrip s' with
      | EmptyString => if is_space a then EmptyString else String a EmptyString
      | rest => String a rest
      end
  end.

Definition strip (s : string) : string := rstrip (lstrip s).

(** Truth of a text: it is not empty. *)
Definition truthy (s : string) : bool :=
  match s with EmptyString => false | String _ _ => true end.

(** Only white space, or nothing. *)
Fixpoint blank (s : string) : bool :=
  match s with
  | EmptyString => true
  | String a s' => is_space a && blank s'
  end.

(** The text holds the character 0. *)
Fixpoint has_nul (s : string) : bool :=
  match s with
  | EmptyString => false
  | String a s' => Ascii.eqb a Ascii.zero || has_nul s'
  end.

End PyText.

Module App.

Definition DQ : string := String (Ascii.ascii_of_nat 34) EmptyString.

(** The text under [if not analyze_button]. *)
Definition instructions : string :=
  "
    ## How to Use
    
    1. **Enter a stock symbol** in the sidebar (e.g., AAPL, GOOGL, TCS)
    2. **Click " +:+ DQ +:+ "Analyze Stock" +:+ DQ +:+ "** to start the analysis
    3. **Wait for the AI crew** to complete the analysis (this may take a few minutes)
    4. **Review the comprehensive report** with buy/hold/sell recommendation
    
    ## Features
    
    - 📊 **Financial Data Analysis**: Current metrics, ratios, and historical performance
    - 📰 **News Intelligence**: Recent news and market sentiment analysis  
    - 🔍 **Fundamental Analysis**: Comprehensive financial health assessment
    - 💡 **Investment Recommendation**: Clear buy/hold/sell advice with reasoning
    
    ## Supported Markets
    
    - **US Stocks**: AAPL, GOOGL, MSFT, TSLA, etc.
    - **Indian Stocks**: TCS, RELIANCE, INFY (automatically adds .NS suffix)
    
    ## Requirements
    
    1. **Google API Key**: Enter your Google Gemini API key in the sidebar
       - Get a free API key from [Google AI Studio](https://aistudio.google.com/app/apikey)
       - The API key is used only for this session and not stored
    
    ## Dependencies
    
    If you encounter errors, you may need to install or update:
    ```bash
    pip install crewai crewai-tools langchain-google-genai yfinance duckduckgo-search streamlit python-dotenv
    ```
    ".

(** What the script puts on the page, in order.  A widget is named by its
    label or text; the keyword arguments that only dress it (type, help,
    placeholder, initial value) are not recorded.  [Analysis] is the call
    of [analyze_stock_simple], with what that call did. *)
Inductive ui_event : Type :=
| SetPageConfig (page_title page_icon layout : string)
| Title (text : string)
| Markdown (text : string)
| SidebarHeader (text : string)
| SidebarTextInput (label : string)
| SidebarMarkdown (text : string)
| SidebarButton (label : string)
| Header (text : string)
| ErrorBox (text : string)
| InfoBox (text : string)
| Spinner (text : string)
| SuccessBox (text : string)
| Expander (label : string) (expanded : bool)
| Code (text : string)
| WarningBox (text : string)
| Analysis (t : list event).

Definition KEY : string := "GOOGLE_API_KEY".

(** [.upper().strip()] on ASCII text. *)
Definition symbol_of (raw : string) : string := PyText.strip (PyText.upper raw).

(** [os.environ[KEY] = value]: a value that holds the character 0 is
    refused, and the environment is left as it was. *)
Definition environ_setitem (value : string) (environ : gmap string string)
  : outcome (gmap string string) :=
  if PyText.has_nul value then Raise (Exn "ValueError" "embedded null byte")
  else Return (<[KEY := value]> environ).

Section Script.
Context {num : Type} `{!Num num}.
(** [.upper().strip()] of what the symbol box holds: Python's functions,
    on whatever text the box delivers. *)
Context (normalise : string → string).
(** The collaborators as a function of the process environment (the model
    client is given the key it finds there), and what importing the
    analysis module does: it raises, or its [load_dotenv()] reads the
    variables of the [.env] file (none when the module is loaded
    already), which are added where the environment has no such
    variable. *)
Context (world_of : gmap string string → world num).
Context (import_module : outcome (gmap string string)).

(** The body of the [try], with the environment it leaves. *)
Definition attempt (api_key stock_symbol : string) (environ : gmap string string)
  : list ui_event * gmap string string * outcome unit :=
  match environ_setitem api_key environ with
  | Raise e => ([], environ, Raise e)
  | Return environ =>
      match import_module with
      | Raise e => ([], environ, Raise e)
      | Return loaded =>
          let environ := environ ∪ loaded in
          match analyze_stock_simple (world_of environ) stock_symbol with
          | (t, Return result) =>
              ([ Analysis t;
                 SuccessBox "Analysis Complete!";
                 Expander "📊 Complete Analysis Report" true;
                 Markdown result ], environ, Return tt)
          | (t, Raise e) => ([Analysis t], environ, Raise e)
          end
      end
  end.

(** The [try]/[except]/[finally] under the spinner. *)
Definition run_analysis (api_key stock_symbol : string) (environ : gmap string string)
  : list ui_event * gmap string string :=
  let '(page, environ, r) := attempt api_key stock_symbol environ in
  let page :=
    match r with
    | Return _ => page
    | Raise e =>
        page ++
        [ ErrorBox ("Error during analysis: " +:+ exn_str e);
          InfoBox "Please check your API key, dependencies, and internet connection.";
          Expander "Error Details" false;
          Code (exn_str e) ]
    end in
  (* finally: if 'GOOGLE_API_KEY' in os.environ: del os.environ['GOOGLE_API_KEY'] *)
  (page, delete KEY environ).

(** What every run of the script starts with. *)
Definition top : list ui_event :=
  [ SetPageConfig "Stock Analysis AI" "📈" "wide";
    Title "📈 AI-Powered Stock Analysis";
    Markdown "Get comprehensive stock analysis with buy/hold/sell recommendations powered by CrewAI";
    SidebarHeader "API Configuration";
    SidebarTextInput "Google API Key";
    SidebarMarkdown "---";
    SidebarHeader "Stock Analysis Settings";
    SidebarTextInput "Enter Stock Symbol";
    SidebarButton "🔍 Analyze Stock" ].

Definition footer : list ui_event :=
  [Markdown "---"; Markdown "*Powered by CrewAI and Google Gemini*"].

(** One run of the script: from what the two boxes hold, whether the
    button was pressed and the process environment, to the page and the
    environment it leaves. *)
Definition app (api_key raw_symbol : string) (analyze_button : bool)
    (environ : gmap string string) : list ui_event * gmap string string :=
  let stock_symbol := normalise raw_symbol in
  let '(middle, environ) :=
    if analyze_button && PyText.truthy stock_symbol then
      if negb (PyText.truthy api_key) then
        ([ ErrorBox "⚠️ Please enter your Google API Key in the sidebar to proceed.";
           InfoBox "You can get a free API key from [Google AI Studio](https://aistudio.google.com/app/apikey)" ],
         environ)
      else
        let '(page, environ) := run_analysis api_key stock_symbol environ in
        (Header ("Analysis for " +:+ stock_symbol) ::
         Spinner ("Analyzing " +:+ stock_symbol +:+ "... This may take a few minutes.") ::
         page, environ)
    else if negb (PyText.truthy stock_symbol) && analyze_button then
      ([WarningBox "Please enter a stock symbol to analyze."], environ)
    else ([], environ) in
  (top ++ middle ++
   (if negb analyze_button then [Markdown instructions] else []) ++ footer,
   environ).

End Script.

(** The calls of the analysis on a page, the boxes and the texts. *)
Definition analyses (page : list ui_event) : list (list event) :=
  omap (λ ev, if ev is Analysis t then Some t else None) page.

Definition error_boxes (page : list ui_event) : list string :=
  omap (λ ev, if ev is ErrorBox text then Some text else None) page.

Definition warnings (page : list ui_event) : list string :=
  omap (λ ev, if ev is WarningBox text then Some text else None) page.

Definition successes (page : list ui_event) : list string :=
  omap (λ ev, if ev is SuccessBox text then Some text else None) page.

Definition texts (page : list ui_event) : list string :=
  omap (λ ev, if ev is Markdown text then Some text else None) page.

(** The environment the analysis runs in: the typed key set, and the
    variables of the [.env] file where the environment had none. *)
Definition running (api_key : string) (environ loaded : gmap string string)
  : gmap string string := <[KEY := api_key]> environ ∪ loaded.

(** [normalise] agrees with Python's functions where the text is ASCII. *)
Definition on_ascii (normalise : string → string) : Prop :=
  ∀ s, PyText.is_ascii s = true → normalise s = symbol_of s.

(** A front end whose collaborators answer one key only: with it the
    market data source knows no price history and the model answers; with
    any other key, or none, nothing can be reached. *)
Definition keyed (environ : gmap string string) : world float :=
  if bool_decide (environ !! KEY = Some "secret") then Exact.delisted
  else Exact.offline.

End App.

(** ** The crew's demonstration ([main]) *)

Module CrewMain.
Import Crew.

(** [d[key]] on a dictionary. *)
Definition dict_getitem (d : gmap string value) (key : string) : py value :=
  match d !! key with
  | Some v => mret v
  | None => raise (KeyError key)
  end.

(** The example profile.  Its values are kept as their text (the age is a
    number and the goals are a list in the source); the wrapper hands the
    profile to the runner and never looks inside. *)
Definition example_profile : gmap string string :=
  <["customer_id" := "CUST_001"]> $
  <["age" := "28"]> $
  <["gender" := "F"]> $
  <["region" := "Lagos"]> $
  <["income_range" := "50000-100000"]> $
  <["financial_goals" := "['savings', 'investment']"]> $
  <["risk_appetite" := "moderate"]> ∅.

Section Main.
(** Besides the crew's collaborators: the file system, and how the
    runner's output prints. *)
Context (rt : runtime) (path_exists : string → bool).
Context (show_output : list string → string).

(** [str] of a value of the result dictionary. *)
Definition value_str (v : value) : string :=
  match v with
  | Str s => s
  | CrewOutput outputs => show_output outputs
  end.

(** [v == "success"]. *)
Definition is_success (v : value) : bool :=
  match v with
  | Str s => String.eqb s "success"
  | CrewOutput _ => false
  end.

(** The printed lines open with the characters the file holds there. *)
Definition main : py unit :=
  print "Financial Companion CrewAI Framework";;
  print (PyStr.repeat "=" 50);;
  financial_crew ← __init__ rt;
  let customer_profile := example_profile in
  let transaction_file := "customer_transactions.csv" in
  if negb (path_exists transaction_file) then
    print ("‚ö†Ô∏è  Transaction file '" +:+ transaction_file +:+ "' not found.");;
    print "üìù Please ensure your transaction data file is available.";;
    print (NL +:+ "Expected CSV format should include columns:");;
    print "transaction_id, date_time, amount, merchant_name, category, transaction_type, account_id, channel"
  else
    results ← process_customer_data rt financial_crew transaction_file
                (Some customer_profile);
    status ← dict_getitem results "status";
    if is_success status then
      print "‚úÖ Financial Companion Analysis Completed Successfully!";;
      r ← dict_getitem results "results";
      print ("üìä Results: " +:+ value_str r)
    else
      e ← dict_getitem results "error_message";
      print ("‚ùå Analysis Failed: " +:+ value_str e).

End Main.

End CrewMain.

(** The runs a crew was started for, and the model clients built. *)
Definition kickoffs (t : list event) : nat :=
  length (omap (λ ev, if ev is EvKickoff then Some tt else None) t).

Definition clients (t : list event) : list string :=
  omap (λ ev, if ev is EvLLMInit model then Some model else None) t.

(** * Properties *)

(** ** Python strings *)

Section Strings.
Implicit Types (s p sub sep : string) (c a : Ascii.ascii).

Lemma str_app_cons a s p : String a s +:+ p = String a (s +:+ p).
Proof. done. Qed.

Lemma str_app_nil_l s : EmptyString +:+ s = s.
Proof. done. Qed.

Lemma str_app_nil_r s : s +:+ EmptyString = s.
Proof. induction s as [|a s IH]; [done|]. by rewrite str_app_cons, IH. Qed.

Lemma str_app_assoc s p sub : s +:+ p +:+ sub = (s +:+ p) +:+ sub.
Proof. induction s as [|a s IH]; [done|]. by rewrite !str_app_cons, IH. Qed.

Lemma str_length_app s p : String.length (s +:+ p) = String.length s + String.length p.
Proof. induction s as [|a s IH]; [done|]. rewrite str_app_cons. simpl. by rewrite IH. Qed.

Lemma str_take_drop n s : PyStr.take n s +:+ PyStr.drop n s = s.
Proof.
  revert s. induction n as [|n IH]; intros [|a s]; try done.
  simpl. by rewrite str_app_cons, IH.
Qed.

Lemma str_length_drop n s : String.length (PyStr.drop n s) = String.length s - n.
Proof. revert s. induction n as [|n IH]; intros [|a s]; simpl; auto with lia. Qed.

Lemma str_length_take n s : String.length (PyStr.take n s) = n `min` String.length s.
Proof. revert s. induction n as [|n IH]; intros [|a s]; simpl; auto with lia. Qed.

Lemma str_drop_app_length s p : PyStr.drop (String.length s) (s +:+ p) = p.
Proof. induction s as [|a s IH]; [by destruct p|]. by rewrite str_app_cons. Qed.

Lemma len_take_chars n s : PyStr.len (PyStr.take_chars n s) ≤ n.
Proof.
  revert n. induction s as [|a s IH]; intros n; [simpl; lia|].
  cbn [PyStr.take_chars]. destruct (PyStr.is_continuation a) eqn:Ha.
  - cbn [PyStr.len]. rewrite Ha. apply IH.
  - destruct n as [|n]; [simpl; lia|]. cbn [PyStr.len]. rewrite Ha.
    specialize (IH n). lia.
Qed.

Lemma take_chars_prefix n s : ∃ rest, s = PyStr.take_chars n s +:+ rest.
Proof.
  revert n. induction s as [|a s IH]; intros n; [by exists EmptyString|].
  cbn [PyStr.take_chars]. destruct (PyStr.is_continuation a).
  - destruct (IH n) as [rest Hrest]. exists rest. by rewrite str_app_cons, <-Hrest.
  - destruct n as [|n]; [by exists (String a s)|].
    destruct (IH n) as [rest Hrest]. exists rest. by rewrite str_app_cons, <-Hrest.
Qed.

Lemma take_chars_all n s : PyStr.len s ≤ n → PyStr.take_chars n s = s.
Proof.
  revert n. induction s as [|a s IH]; intros n; [done|].
  cbn [PyStr.take_chars PyStr.len]. destruct (PyStr.is_continuation a).
  - intros Hn. by rewrite IH.
  - destruct n as [|n]; [simpl; lia|]. intros Hn. rewrite IH; [done|simpl in Hn; lia].
Qed.

Lemma str_take_app_length s p : PyStr.take (String.length s) (s +:+ p) = s.
Proof.
  induction s as [|a s IH]; [by destruct p|]. rewrite str_app_cons. simpl. by rewrite IH.
Qed.

Lemma startswith_nil s : PyStr.startswith s EmptyString = true.
Proof. by destruct s. Qed.

Lemma startswith_spec s p : PyStr.startswith s p = true ↔ ∃ rest, s = p +:+ rest.
Proof.
  revert s. induction p as [|a p IH]; intros s.
  - rewrite startswith_nil. split; [by exists s|done].
  - destruct s as [|b s]; simpl.
    + split; [done|]. by intros [rest ?].
    + destruct (Ascii.eqb_spec a b) as [->|Hne].
      * rewrite IH. split; intros [rest Hrest]; exists rest.
        -- by rewrite str_app_cons, Hrest.
        -- rewrite str_app_cons in Hrest. by simplify_eq.
      * split; [done|]. intros [rest Hrest]. rewrite str_app_cons in Hrest. by simplify_eq.
Qed.

(** [endswith] is what its name says. *)
Lemma endswith_spec s p : PyStr.endswith s p = true ↔ ∃ before, s = before +:+ p.
Proof.
  induction s as [|a s IH].
  - change (PyStr.endswith EmptyString p) with (String.eqb EmptyString p || false).
    destruct (String.eqb_spec EmptyString p) as [<-|Hne]; simpl.
    + split; [|done]. by exists EmptyString.
    + split; [done|]. intros [[|b before] Hb]; [done|]. by rewrite str_app_cons in Hb.
  - change (PyStr.endswith (String a s) p)
      with (String.eqb (String a s) p || PyStr.endswith s p).
    destruct (String.eqb_spec (String a s) p) as [<-|Hne]; simpl.
    + split; [|done]. by exists EmptyString.
    + rewrite IH. split.
      * intros [before ->]. by exists (String a before).
      * intros [[|b before] Hb]; [done|]. rewrite str_app_cons in Hb. simplify_eq.
        by exists before.
Qed.

Lemma find_nil sub :
  PyStr.find EmptyString sub =
  if PyStr.startswith EmptyString sub then Some 0 else None.
Proof. done. Qed.

Lemma find_cons a s sub :
  PyStr.find (String a s) sub =
  if PyStr.startswith (String a s) sub then Some 0 else S <$> PyStr.find s sub.
Proof. done. Qed.

(** [find] returns the place of an occurrence. *)
Lemma find_Some s sub i :
  PyStr.find s sub = Some i →
  s = PyStr.take i s +:+ sub +:+ PyStr.drop (i + String.length sub) s ∧
  i + String.length sub ≤ String.length s.
Proof.
  assert (Hhere : ∀ s, PyStr.startswith s sub = true →
            s = PyStr.take 0 s +:+ sub +:+ PyStr.drop (0 + String.length sub) s ∧
            0 + String.length sub ≤ String.length s).
  { intros s' [rest ->]%startswith_spec.
    replace (PyStr.take 0 (sub +:+ rest)) with EmptyString by (by destruct (sub +:+ rest)).
    rewrite str_app_nil_l, Nat.add_0_l, str_drop_app_length, str_length_app. split; [done|lia]. }
  revert i. induction s as [|a s IH]; intros i.
  - rewrite find_nil. destruct (PyStr.startswith _ _) eqn:Hp; [|done].
    intros [= <-]. by apply Hhere.
  - rewrite find_cons. destruct (PyStr.startswith _ _) eqn:Hp.
    + intros [= <-]. by apply Hhere.
    + destruct (PyStr.find s sub) as [j|]; [|done]. intros [= <-].
      destruct (IH j eq_refl) as [Heq Hle]. simpl. rewrite str_app_cons.
      split; [by rewrite <-Heq|lia].
Qed.

(** ... and the leftmost one: nothing found means no occurrence. *)
Lemma find_None s sub before rest :
  PyStr.find s sub = None → s ≠ before +:+ sub +:+ rest.
Proof.
  assert (Hhere : ∀ s, PyStr.startswith s sub = false → s ≠ sub +:+ rest).
  { intros s' Hp ->. assert (PyStr.startswith (sub +:+ rest) sub = true); [|congruence].
    apply startswith_spec. by exists rest. }
  revert before. induction s as [|a s IH]; intros before.
  - rewrite find_nil. destruct (PyStr.startswith _ _) eqn:Hp; [done|]. intros _ Heq.
    destruct before; [|done]. by apply (Hhere EmptyString).
  - rewrite find_cons. destruct (PyStr.startswith _ _) eqn:Hp; [done|].
    destruct (PyStr.find s sub) eqn:Hf; [done|]. intros _ Heq.
    destruct before as [|b before].
    + by apply (Hhere (String a s)).
    + rewrite str_app_cons in Heq. simplify_eq. by eapply IH.
Qed.

Lemma contains_weaken s sub p :
  PyStr.contains s (sub +:+ p) = true → PyStr.contains s sub = true.
Proof.
  unfold PyStr.contains. destruct (PyStr.find s (sub +:+ p)) as [i|] eqn:Hi; [|done].
  intros _. destruct (PyStr.find s sub) eqn:Hs; [done|].
  apply find_Some in Hi as [Heq _]. rewrite <-str_app_assoc in Heq.
  by destruct (find_None _ _ _ _ Hs Heq).
Qed.

End Strings.

(** ** The computation monad *)

Ltac py_unfold :=
  unfold print in *;
  unfold mbind, mret, py_bind, py_ret, raise, emit, lift, try_except,
    trace, result in *.

Lemma bind_return {A B} (t : list event) (a : A) (f : A → py B) :
  (t, Return a) ≫= f = (t ++ (f a).1, (f a).2).
Proof. py_unfold. by destruct (f a). Qed.

Lemma ret_bind {A B} (a : A) (f : A → py B) : mret a ≫= f = f a.
Proof. py_unfold. by destruct (f a). Qed.

Lemma bind_raise {A B} (t : list event) (e : exn) (f : A → py B) :
  (t, Raise e) ≫= f = (t, Raise e).
Proof. done. Qed.

Lemma trace_bind {A B} (m : py A) (f : A → py B) :
  trace (m ≫= f) =
  trace m ++ match result m with Return a => trace (f a) | Raise _ => [] end.
Proof.
  destruct m as [t [a|e]]; py_unfold; simpl.
  - by destruct (f a).
  - by rewrite app_nil_r.
Qed.

Lemma result_bind {A B} (m : py A) (f : A → py B) :
  result (m ≫= f) =
  match result m with Return a => result (f a) | Raise e => Raise e end.
Proof. destruct m as [t [a|e]]; py_unfold; simpl; [by destruct (f a) | done]. Qed.

Lemma trace_try_except {A} (m : py A) (h : exn → py A) :
  trace (try_except m h) =
  trace m ++ match result m with Return _ => [] | Raise e => trace (h e) end.
Proof.
  destruct m as [t [a|e]]; py_unfold; simpl.
  - by rewrite app_nil_r.
  - by destruct (h e).
Qed.

Lemma result_try_except {A} (m : py A) (h : exn → py A) :
  result (try_except m h) =
  match result m with Return a => Return a | Raise e => result (h e) end.
Proof. destruct m as [t [a|e]]; py_unfold; simpl; [done | by destruct (h e)]. Qed.

Lemma result_pair {A} (t : list event) (o : outcome A) : result (t, o) = o.
Proof. done. Qed.

Lemma trace_pair {A} (t : list event) (o : outcome A) : trace (t, o) = t.
Proof. done. Qed.

Ltac py_step := rewrite ?result_pair, ?trace_pair; cbv beta iota.

Lemma py_eta {A} (m : py A) : m = (trace m, result m).
Proof. by destruct m. Qed.

(** ** The return fields *)

Section ReturnFields.
Context {num : Type} `{!Num num}.

Lemma neg_index_in_range (closes : list num) (k : nat) (x : num) :
  1 ≤ k ≤ length closes →
  closes !! (length closes - k) = Some x →
  neg_index closes k = ([], Return x).
Proof.
  intros Hk Hx. unfold neg_index, list_getitem.
  rewrite bool_decide_eq_true_2 by done. by rewrite Hx.
Qed.

Lemma trailing_return_short (c : num) (closes : list num) (k : nat) :
  length closes < k → trailing_return c closes k = ([], Return NA).
Proof.
  intros Hk. unfold trailing_return.
  rewrite bool_decide_eq_false_2 by lia. done.
Qed.

Lemma trailing_return_long (c x : num) (closes : list num) (k : nat) :
  1 ≤ k ≤ length closes →
  closes !! (length closes - k) = Some x →
  trailing_return c closes k =
    ([], match num_div (num_sub c x) x with
         | Return q => Return (VStr (format_2f (num_mul q 100)))
         | Raise e => Raise e
         end).
Proof.
  intros Hk Hx. unfold trailing_return.
  rewrite bool_decide_eq_true_2 by lia.
  rewrite (neg_index_in_range _ _ x) by done.
  py_unfold. simpl. by destruct (num_div _ _).
Qed.

(** A return field produces no event, and when it is computed without an
    error it is what section 4.1 asks for. *)
Lemma trailing_return_spec (c : num) (closes : list num) (k : nat) :
  1 ≤ k → last closes = Some c →
  trace (trailing_return c closes k) = [] ∧
  (∀ v, result (trailing_return c closes k) = Return v →
        return_field closes k (Some v)) ∧
  (∀ e, result (trailing_return c closes k) = Raise e →
        k ≤ length closes ∧ ¬ ∃ v, populated closes k v).
Proof.
  intros Hk Hlast.
  destruct (decide (k ≤ length closes)) as [Hle|Hgt].
  - destruct (lookup_lt_is_Some_2 closes (length closes - k)) as [x Hx]; [lia|].
    rewrite (trailing_return_long c x) by (done || lia).
    split; [done|]. simpl. split.
    + intros v Hv. split; [|lia]. intros _. exists v. split; [done|].
      exists c, x. destruct (num_div _ _) as [q|e] eqn:Hq; [|done].
      exists q. by simplify_eq.
    + intros e He. split; [done|]. intros (v & c' & x' & q & Hl & Hx' & Hq & _).
      simplify_eq. by rewrite Hq in He.
  - rewrite trailing_return_short by lia. split; [done|]. simpl. split.
    + intros v [= <-]. split; [lia|done].
    + done.
Qed.

End ReturnFields.

Section Fetch.
Context {num : Type} `{!Num num} (w : world num).

Lemma add_returns_spec (c : num) (closes : list num) (d : gmap string (pyval num)) :
  last closes = Some c →
  ∃ r1 r3 r12,
    add_returns c closes d = ([], Return (set_returns r1 r3 r12 d)) ∧
    (all_computable closes →
       return_field closes 30 (Some r1) ∧ return_field closes 90 (Some r3) ∧
       return_field closes 252 (Some r12)) ∧
    (¬ all_computable closes → r1 = NA ∧ r3 = NA ∧ r12 = NA).
Proof.
  intros Hlast.
  destruct (trailing_return_spec c closes 30) as (T1 & R1 & E1); [lia|done|].
  destruct (trailing_return_spec c closes 90) as (T3 & R3 & E3); [lia|done|].
  destruct (trailing_return_spec c closes 252) as (T12 & R12 & E12); [lia|done|].
  unfold add_returns.
  rewrite (py_eta (trailing_return c closes 30)), T1.
  rewrite (py_eta (trailing_return c closes 90)), T3.
  rewrite (py_eta (trailing_return c closes 252)), T12.
  assert (Hfail : ∀ k, (k ≤ length closes ∧ ¬ ∃ v, populated closes k v) →
                       ¬ computable closes k).
  { intros k [Hk Hno] Hc. by apply Hno, Hc. }
  destruct (result (trailing_return c closes 30)) as [r1|e1].
  2:{ exists NA, NA, NA. split; [done|]. split; [|done].
      intros (C1 & _ & _). by destruct (Hfail 30 (E1 _ eq_refl)). }
  destruct (result (trailing_return c closes 90)) as [r3|e3].
  2:{ exists NA, NA, NA. split; [done|]. split; [|done].
      intros (_ & C3 & _). by destruct (Hfail 90 (E3 _ eq_refl)). }
  destruct (result (trailing_return c closes 252)) as [r12|e12].
  2:{ exists NA, NA, NA. split; [done|]. split; [|done].
      intros (_ & _ & C12). by destruct (Hfail 252 (E12 _ eq_refl)). }
  exists r1, r3, r12. split; [done|]. split.
  - intros _. split; [by apply R1 | split; [by apply R3 | by apply R12]].
  - intros Hno. destruct Hno. repeat split; intros Hk.
    + destruct (R1 _ eq_refl) as [Hp _]. destruct (Hp Hk) as (v & _ & Hv). by exists v.
    + destruct (R3 _ eq_refl) as [Hp _]. destruct (Hp Hk) as (v & _ & Hv). by exists v.
    + destruct (R12 _ eq_refl) as [Hp _]. destruct (Hp Hk) as (v & _ & Hv). by exists v.
Qed.

Lemma try_fetch_stock_trace (t : string) :
  trace (try_fetch_stock w t) = [EvTicker t].
Proof.
  unfold try_fetch_stock. py_unfold. simpl.
  destruct (yf_info w t) as [info|e]; simpl; [|done].
  destruct (yf_history w t) as [closes|e]; simpl; [|done].
  destruct (last closes) as [c|] eqn:Hlast; simpl; [|done].
  destruct (add_returns_spec c closes
    (stock_data_of t info (VNum c)) Hlast) as (r1 & r3 & r12 & -> & _).
  done.
Qed.

Lemma try_fetch_stock_info_error (t : string) (e : exn) :
  yf_info w t = Raise e →
  result (try_fetch_stock w t) = Return (NotFetched (error_text t e)).
Proof. intros He. unfold try_fetch_stock. py_unfold. simpl. by rewrite He. Qed.

Lemma try_fetch_stock_history_error (t : string) info (e : exn) :
  yf_info w t = Return info → yf_history w t = Raise e →
  result (try_fetch_stock w t) = Return (NotFetched (error_text t e)).
Proof.
  intros Hi He. unfold try_fetch_stock. py_unfold. simpl. by rewrite Hi, He.
Qed.

Lemma try_fetch_stock_empty (t : string) info :
  yf_info w t = Return info → yf_history w t = Return [] →
  result (try_fetch_stock w t) =
    Return (Fetched (stock_data_of t info (dict_get info "currentPrice" NA))).
Proof.
  intros Hi Hh. unfold try_fetch_stock. py_unfold. simpl. by rewrite Hi, Hh.
Qed.

Lemma try_fetch_stock_nonempty (t : string) info (closes : list num) (c : num) :
  yf_info w t = Return info → yf_history w t = Return closes →
  last closes = Some c →
  ∃ r1 r3 r12,
    result (try_fetch_stock w t) =
      Return (Fetched (set_returns r1 r3 r12 (stock_data_of t info (VNum c)))) ∧
    (all_computable closes →
       return_field closes 30 (Some r1) ∧ return_field closes 90 (Some r3) ∧
       return_field closes 252 (Some r12)) ∧
    (¬ all_computable closes → r1 = NA ∧ r3 = NA ∧ r12 = NA).
Proof.
  intros Hi Hh Hlast.
  destruct (add_returns_spec c closes (stock_data_of t info (VNum c)) Hlast)
    as (r1 & r3 & r12 & Heq & Hok & Hbad).
  exists r1, r3, r12. split; [|done].
  unfold try_fetch_stock. py_unfold. simpl. rewrite Hi, Hh. simpl.
  rewrite Hlast. simpl. by rewrite Heq.
Qed.

(** [try_fetch_stock] never raises; a snapshot it returns bears the
    symbol that was looked up. *)
Lemma try_fetch_stock_returns (t : string) :
  ∃ r, result (try_fetch_stock w t) = Return r ∧
       ∀ data, r = Fetched data → data !! "symbol" = Some (VStr t).
Proof.
  destruct (yf_info w t) as [info|e] eqn:Hi.
  2:{ eexists. split; [by apply try_fetch_stock_info_error|done]. }
  destruct (yf_history w t) as [closes|e] eqn:Hh.
  2:{ eexists. split; [by eapply try_fetch_stock_history_error|done]. }
  destruct (last closes) as [c|] eqn:Hlast.
  - destruct (try_fetch_stock_nonempty t info closes c) as (r1 & r3 & r12 & -> & _);
      [done..|].
    eexists. split; [done|]. by intros data [= <-].
  - apply last_None in Hlast as ->.
    eexists. split; [by apply try_fetch_stock_empty|]. by intros data [= <-].
Qed.

End Fetch.

(** ** Templates *)

Section Templates.
Context {num : Type} `{!Num num}.
Implicit Types (data : gmap string (pyval num)) (parts : list part).

Lemma fstring_trace parts data : trace (fstring parts data) = [].
Proof.
  induction parts as [|[text|key] rest IH]; simpl; [done|..].
  - rewrite trace_bind, IH. by destruct (result _).
  - unfold getitem. destruct (data !! key); [|done].
    rewrite ret_bind, trace_bind, IH. by destruct (result _).
Qed.

Lemma fstring_lit text rest data :
  result (fstring (Lit text :: rest) data) =
  match result (fstring rest data) with
  | Return s => Return (text +:+ s)
  | Raise e => Raise e
  end.
Proof. simpl. rewrite result_bind. by destruct (result _). Qed.

Lemma fstring_field key rest data :
  result (fstring (Field key :: rest) data) =
  match data !! key with
  | None => Raise (KeyError key)
  | Some v => match result (fstring rest data) with
              | Return s => Return (py_str v +:+ s)
              | Raise e => Raise e
              end
  end.
Proof.
  simpl. unfold getitem. destruct (data !! key); [|done].
  rewrite ret_bind, result_bind. by destruct (result _).
Qed.

(** Whatever an f-string returns is its template filled in. *)
Lemma fstring_return parts data block :
  result (fstring parts data) = Return block → block = fill parts (shown data).
Proof.
  revert block. induction parts as [|[text|key] rest IH]; intros block.
  - by intros [= <-].
  - rewrite fstring_lit. destruct (result _); [|done].
    intros [= <-]. simpl. by rewrite <-(IH _ eq_refl).
  - rewrite fstring_field. cbn [fill]. unfold shown at 1.
    destruct (data !! key) as [v|]; [|done]. destruct (result _); [|done].
    intros [= <-]. simpl. by rewrite <-(IH _ eq_refl).
Qed.

(** With every key present the f-string returns. *)
Lemma fstring_total parts data :
  Forall (λ key, is_Some (data !! key)) (fields_of parts) →
  fstring parts data = ([], Return (fill parts (shown data))).
Proof.
  intros Hall. rewrite (py_eta (fstring _ _)), fstring_trace. f_equal.
  induction parts as [|[text|key] rest IH]; [done|..].
  - rewrite fstring_lit, IH; done.
  - unfold fields_of in Hall. simpl in Hall. apply Forall_cons in Hall as [[v Hv] Hall].
    rewrite fstring_field, Hv, IH by done. cbn [fill]. unfold shown at 2. by rewrite Hv.
Qed.

(** The first key that is missing is the one the [KeyError] names. *)
Lemma fstring_missing parts present key later data :
  fields_of parts = present ++ key :: later →
  Forall (λ k, is_Some (data !! k)) present →
  data !! key = None →
  fstring parts data = ([], Raise (KeyError key)).
Proof.
  intros Hparts Hall Hkey. rewrite (py_eta (fstring _ _)), fstring_trace. f_equal.
  revert present Hparts Hall.
  induction parts as [|[text|k] rest IH]; intros present Hparts Hall.
  - by destruct present.
  - rewrite fstring_lit, (IH present); done.
  - rewrite fstring_field. unfold fields_of in Hparts. simpl in Hparts.
    destruct present as [|p present]; simplify_eq/=.
    + by rewrite Hkey.
    + apply Forall_cons in Hall as [[v Hv] Hall].
      rewrite Hv, (IH present); done.
Qed.

Lemma stock_template_fields :
  fields_of (join_lines stock_template) = stock_fields.
Proof. reflexivity. Qed.

End Templates.

(** ** The snapshot dictionary *)

Section Snapshot.
Context {num : Type} `{!Num num}.
Implicit Types (info : gmap string (pyval num)) (cp : pyval num).

Lemma stock_data_of_keys t info cp :
  Forall (λ k, is_Some (stock_data_of t info cp !! k))
    [ "symbol"; "company_name"; "sector"; "industry"; "current_price"; "market_cap";
      "pe_ratio"; "price_to_book"; "beta"; "debt_to_equity"; "roe"; "profit_margin";
      "revenue_growth"; "dividend_yield"; "52_week_high"; "52_week_low";
      "volume"; "avg_volume" ].
Proof.
  unfold stock_data_of.
  repeat (apply Forall_cons; split; [by simplify_map_eq|]). done.
Qed.

Lemma stock_data_of_no_returns t info cp :
  stock_data_of t info cp !! "1_month_return" = None.
Proof. unfold stock_data_of. by simplify_map_eq. Qed.

Lemma set_returns_lookup r1 r3 r12 (d : gmap string (pyval num)) :
  set_returns r1 r3 r12 d !! "1_month_return" = Some r1 ∧
  set_returns r1 r3 r12 d !! "3_month_return" = Some r3 ∧
  set_returns r1 r3 r12 d !! "1_year_return" = Some r12.
Proof. unfold set_returns. by simplify_map_eq. Qed.

Lemma set_returns_keeps r1 r3 r12 (d : gmap string (pyval num)) key :
  is_Some (d !! key) → is_Some (set_returns r1 r3 r12 d !! key).
Proof.
  intros Hk. unfold set_returns. rewrite !lookup_insert. by repeat case_decide.
Qed.

Lemma set_returns_symbol r1 r3 r12 t info cp :
  set_returns r1 r3 r12 (stock_data_of t info cp) !! "symbol" = Some (VStr t).
Proof. unfold set_returns, stock_data_of. by simplify_map_eq. Qed.

(** A snapshot with its three return fields has every key the block
    reads. *)
Lemma set_returns_keys r1 r3 r12 t info cp :
  Forall (λ k, is_Some (set_returns r1 r3 r12 (stock_data_of t info cp) !! k))
    stock_fields.
Proof.
  pose proof (stock_data_of_keys t info cp) as Hbase.
  pose proof (set_returns_lookup r1 r3 r12 (stock_data_of t info cp)) as (H1 & H3 & H12).
  rewrite !Forall_cons in Hbase. unfold stock_fields. rewrite !Forall_cons.
  repeat split; try done; try (by apply set_returns_keeps, Hbase); by eexists.
Qed.

(** An empty history leaves the return keys out: the block cannot be
    written. *)
Lemma format_stock_without_returns t info cp :
  format_stock (stock_data_of t info cp) = ([], Raise (KeyError "1_month_return")).
Proof.
  apply (fstring_missing _
    [ "symbol"; "company_name"; "sector"; "industry"; "current_price"; "market_cap";
      "pe_ratio"; "price_to_book"; "beta"; "debt_to_equity"; "roe"; "profit_margin";
      "revenue_growth"; "dividend_yield"; "52_week_high"; "52_week_low" ]
    _ [ "3_month_return"; "1_year_return"; "volume"; "avg_volume" ]).
  - reflexivity.
  - pose proof (stock_data_of_keys t info cp) as Hbase.
    rewrite !Forall_cons in Hbase. rewrite !Forall_cons. tauto.
  - apply stock_data_of_no_returns.
Qed.

End Snapshot.

(** ** Quote retrieval with the regional fallback *)

Section Fallback.
Context {num : Type} `{!Num num} (w : world num).

Lemma fallback_no_retry (symbol : string) (r : fetched) :
  result (try_fetch_stock w symbol) = Return r →
  negb (success r) && negb (PyStr.endswith symbol ".NS") = false →
  fetch_with_fallback w symbol = ([EvTicker symbol], Return r).
Proof.
  intros Hr Hcond. unfold fetch_with_fallback.
  rewrite (py_eta (try_fetch_stock w symbol)), try_fetch_stock_trace, Hr.
  rewrite bind_return, Hcond. done.
Qed.

Lemma fallback_retry (symbol message : string) :
  result (try_fetch_stock w symbol) = Return (NotFetched message) →
  PyStr.endswith symbol ".NS" = false →
  fetch_with_fallback w symbol =
    ([EvTicker symbol; EvPrint ("Trying " +:+ symbol +:+ ".NS for Indian stock...");
      EvTicker (symbol +:+ ".NS")],
     result (try_fetch_stock w (symbol +:+ ".NS"))).
Proof.
  intros Hr Hns. unfold fetch_with_fallback.
  rewrite (py_eta (try_fetch_stock w symbol)), try_fetch_stock_trace, Hr.
  rewrite bind_return, Hns. simpl.
  rewrite (py_eta (try_fetch_stock w (symbol +:+ ".NS"))), try_fetch_stock_trace.
  done.
Qed.

Lemma get_stock_data_trace (symbol : string) :
  trace (get_stock_data w symbol) = trace (fetch_with_fallback w symbol).
Proof.
  unfold get_stock_data. rewrite trace_bind.
  destruct (result (fetch_with_fallback w symbol)) as [[data|message]|e].
  - unfold format_stock. by rewrite fstring_trace, app_nil_r.
  - by rewrite app_nil_r.
  - by rewrite app_nil_r.
Qed.

(** The block of a snapshot opens with the symbol the snapshot bears. *)
Lemma format_stock_header (data : gmap string (pyval num)) (t block : string) :
  data !! "symbol" = Some (VStr t) →
  result (format_stock data) = Return block →
  ∃ rest, block = NL +:+ "STOCK DATA FOR " +:+ t +:+ NL +:+ rest.
Proof.
  intros Ht Hblock. apply fstring_return in Hblock as ->.
  cbn [join_lines stock_template app fill]. unfold shown at 1. rewrite Ht. simpl.
  by eexists.
Qed.

(** C1.  A symbol that already ends in [.NS] is looked up once.  For any
    other symbol whose first lookup fails, exactly two lookups are made:
    the symbol, then the symbol with [.NS] appended.  When that second
    lookup succeeds its snapshot bears the suffixed symbol, the block
    returned is the rendering of that snapshot and opens with the suffixed
    symbol, and it is returned whenever the history is not empty. *)
Theorem fallback_retries_once_with_suffix (symbol : string) :
  (PyStr.endswith symbol ".NS" = true →
     attempts (trace (get_stock_data w symbol)) = [symbol]) ∧
  (PyStr.endswith symbol ".NS" = false →
   ∀ message, result (try_fetch_stock w symbol) = Return (NotFetched message) →
     attempts (trace (get_stock_data w symbol)) = [symbol; symbol +:+ ".NS"] ∧
     ∀ data,
       result (try_fetch_stock w (symbol +:+ ".NS")) = Return (Fetched data) →
       data !! "symbol" = Some (VStr (symbol +:+ ".NS")) ∧
       result (get_stock_data w symbol) = result (format_stock data) ∧
       (∀ block, result (get_stock_data w symbol) = Return block →
          ∃ rest, block =
            NL +:+ "STOCK DATA FOR " +:+ (symbol +:+ ".NS") +:+ NL +:+ rest) ∧
       (∀ closes, yf_history w (symbol +:+ ".NS") = Return closes → closes ≠ [] →
          ∃ block, result (get_stock_data w symbol) = Return block)).
Proof.
  split.
  - intros Hns. rewrite get_stock_data_trace.
    destruct (try_fetch_stock_returns w symbol) as (r & Hr & _).
    rewrite (fallback_no_retry symbol r); [done..|].
    rewrite Hns. by destruct (success r).
  - intros Hns message Hfirst. rewrite get_stock_data_trace.
    rewrite (fallback_retry symbol message) by done. split; [done|].
    intros data Hsecond.
    destruct (try_fetch_stock_returns w (symbol +:+ ".NS")) as (r & Hr & Hsym).
    rewrite Hr in Hsecond. injection Hsecond as ->.
    specialize (Hsym data eq_refl).
    assert (Hres : result (get_stock_data w symbol) = result (format_stock data)).
    { unfold get_stock_data. rewrite result_bind.
      rewrite (fallback_retry symbol message) by done. simpl. by rewrite Hr. }
    split; [done|]. split; [done|]. split.
    + intros block Hblock. rewrite Hres in Hblock.
      by apply (format_stock_header data).
    + intros closes Hh Hne. rewrite Hres.
      destruct (yf_info w (symbol +:+ ".NS")) as [info|e] eqn:Hi.
      2:{ rewrite (try_fetch_stock_info_error w (symbol +:+ ".NS") e) in Hr; done. }
      destruct (last closes) as [c|] eqn:Hlast.
      2:{ by apply last_None in Hlast. }
      destruct (try_fetch_stock_nonempty w (symbol +:+ ".NS") info closes c)
        as (r1 & r3 & r12 & Heq & _); [done..|].
      rewrite Heq in Hr. injection Hr as <-.
      unfold format_stock. rewrite fstring_total; [by eexists|].
      rewrite stock_template_fields. apply set_returns_keys.
Qed.

End Fallback.

Section Outcomes.
Context {num : Type} `{!Num num} (w : world num).

(** With an empty history the lookup counts as a success, and writing the
    block then fails on the first return field. *)
Lemma get_stock_data_empty_history (symbol : string) info :
  yf_info w symbol = Return info → yf_history w symbol = Return [] →
  result (get_stock_data w symbol) = Raise (KeyError "1_month_return").
Proof.
  intros Hi Hh. unfold get_stock_data. rewrite result_bind.
  rewrite (fallback_no_retry w symbol _ (try_fetch_stock_empty w symbol info Hi Hh))
    by done.
  py_step. by rewrite format_stock_without_returns.
Qed.

(** The shapes of what one lookup returns. *)
Lemma try_fetch_stock_cases (t : string) :
  (∃ message, result (try_fetch_stock w t) = Return (NotFetched message)) ∨
  (∃ info cp, yf_history w t = Return [] ∧
     result (try_fetch_stock w t) = Return (Fetched (stock_data_of t info cp))) ∨
  (∃ info cp r1 r3 r12,
     result (try_fetch_stock w t) =
       Return (Fetched (set_returns r1 r3 r12 (stock_data_of t info cp)))).
Proof.
  destruct (yf_info w t) as [info|e] eqn:Hi.
  2:{ left. eexists. by apply try_fetch_stock_info_error. }
  destruct (yf_history w t) as [closes|e] eqn:Hh.
  2:{ left. eexists. by eapply try_fetch_stock_history_error. }
  destruct (last closes) as [c|] eqn:Hlast.
  - destruct (try_fetch_stock_nonempty w t info closes c)
      as (r1 & r3 & r12 & Heq & _); [done..|].
    right. right. by exists info, (VNum c), r1, r3, r12.
  - apply last_None in Hlast as ->. right. left.
    exists info, (dict_get info "currentPrice" NA). split; [done|].
    by apply try_fetch_stock_empty.
Qed.

Lemma format_stock_cases (data : gmap string (pyval num)) (t : string) :
  (∃ info cp, data = stock_data_of t info cp) ∨
  (∃ info cp r1 r3 r12, data = set_returns r1 r3 r12 (stock_data_of t info cp)) →
  (∃ text, result (format_stock data) = Return text) ∨
  result (format_stock data) = Raise (KeyError "1_month_return").
Proof.
  intros [(info & cp & ->)|(info & cp & r1 & r3 & r12 & ->)].
  - right. by rewrite format_stock_without_returns.
  - left. unfold format_stock. rewrite fstring_total; [by eexists|].
    rewrite stock_template_fields. apply set_returns_keys.
Qed.

Lemma rendered_cases (r : fetched) (t : string) :
  result (try_fetch_stock w t) = Return r →
  (∃ text, result (match r with
                   | Fetched data => format_stock data
                   | NotFetched message => mret message
                   end) = Return text) ∨
  result (match r with
          | Fetched data => format_stock data
          | NotFetched message => mret message
          end) = Raise (KeyError "1_month_return").
Proof.
  intros Hr. destruct r as [data|message]; [|left; by eexists].
  apply (format_stock_cases data t).
  destruct (try_fetch_stock_cases t) as [(m & Hm)|[(info & cp & _ & Hd)|Hd]].
  - by rewrite Hr in Hm.
  - rewrite Hr in Hd. injection Hd as ->. left. by exists info, cp.
  - destruct Hd as (info & cp & r1 & r3 & r12 & Hd).
    rewrite Hr in Hd. injection Hd as ->. right. by exists info, cp, r1, r3, r12.
Qed.

(** [get_stock_data] returns a text, or raises the [KeyError] of a snapshot
    without return fields; nothing else. *)
Lemma get_stock_data_outcome (symbol : string) :
  (∃ text, result (get_stock_data w symbol) = Return text) ∨
  result (get_stock_data w symbol) = Raise (KeyError "1_month_return").
Proof.
  unfold get_stock_data. rewrite result_bind.
  destruct (try_fetch_stock_returns w symbol) as (r & Hr & _).
  destruct (negb (success r) && negb (PyStr.endswith symbol ".NS")) eqn:Hcond.
  - destruct r as [data|message]; [done|]. cbn [success negb andb] in Hcond.
    apply negb_true_iff in Hcond.
    rewrite (fallback_retry w symbol message) by done. py_step.
    destruct (try_fetch_stock_returns w (symbol +:+ ".NS")) as (r' & Hr' & _).
    rewrite Hr'. by apply (rendered_cases r' (symbol +:+ ".NS")).
  - rewrite (fallback_no_retry w symbol r) by done. py_step.
    by apply (rendered_cases r symbol).
Qed.

(** Numbers whose division does not raise can compute every return the
    history is long enough for. *)
Lemma total_division_computes (closes : list num) :
  (∀ x y : num, ∃ q, num_div x y = Return q) →
  closes ≠ [] → all_computable closes.
Proof.
  intros Hdiv Hne.
  assert (Hk : ∀ k, 1 ≤ k → computable closes k).
  { intros k Hk Hle.
    destruct (last closes) as [c|] eqn:Hlast; [|by apply last_None in Hlast].
    destruct (lookup_lt_is_Some_2 closes (length closes - k)) as [x Hx]; [lia|].
    destruct (Hdiv (num_sub c x) x) as [q Hq].
    eexists. exists c, x, q. done. }
  split; [|split]; apply Hk; lia.
Qed.

(** C3.  For a symbol with a description, the numbers being such that
    division does not raise (as the 64-bit floats of the source are):
    with a history that is not empty, each of the three return fields is
    populated if the history has at least 30, 90 and 252 observations
    respectively and is ['N/A'] otherwise (so 45 closes give a populated
    1-month return and ['N/A'] for the other two; and, the formatter never
    writing ['N/A'] itself, a field is ['N/A'] exactly when the history is
    too short).  With an empty history the lookup succeeds all the same and
    none of the three fields is set: they are not ['N/A'], they are
    missing from the snapshot. *)
Theorem return_fields_need_a_history (t : string) info (closes : list num) :
  (∀ x y : num, ∃ q, num_div x y = Return q) →
  yf_info w t = Return info → yf_history w t = Return closes →
  ∃ data,
    result (try_fetch_stock w t) = Return (Fetched data) ∧
    (closes ≠ [] →
       return_fields closes data ∧
       (length closes = 45 →
          (∃ v, data !! "1_month_return" = Some v ∧ populated closes 30 v) ∧
          data !! "3_month_return" = Some NA ∧
          data !! "1_year_return" = Some NA) ∧
       ((∀ x : num, format_2f x ≠ "N/A") →
          (data !! "1_month_return" = Some NA ↔ length closes < 30) ∧
          (data !! "3_month_return" = Some NA ↔ length closes < 90) ∧
          (data !! "1_year_return" = Some NA ↔ length closes < 252))) ∧
    (closes = [] →
       data !! "1_month_return" = None ∧
       data !! "3_month_return" = None ∧
       data !! "1_year_return" = None ∧
       ¬ return_fields closes data).
Proof.
  intros Hdiv Hi Hh.
  destruct (last closes) as [c|] eqn:Hlast.
  - assert (Hne : closes ≠ []) by (by intros ->).
    destruct (try_fetch_stock_nonempty w t info closes c)
      as (r1 & r3 & r12 & Heq & Hok & _); [done..|].
    eexists. split; [done|]. split; [|done]. intros _.
    destruct (set_returns_lookup r1 r3 r12 (stock_data_of t info (VNum c)))
      as (L1 & L3 & L12).
    rewrite L1, L3, L12.
    destruct (Hok (total_division_computes closes Hdiv Hne)) as (F1 & F3 & F12).
    split; [done|]. split.
    + intros H45. destruct F1 as [F1 _], F3 as [_ F3], F12 as [_ F12].
      destruct F1 as (v & [= <-] & Hv); [lia|].
      rewrite F3, F12 by lia. eauto.
    + intros Hfmt.
      assert (Hiff : ∀ k r, return_field closes k (Some r) →
                (Some r = Some NA ↔ length closes < k)).
      { intros k r [Hlong Hshort]. split; [|by apply Hshort].
        intros [= ->]. destruct (decide (k ≤ length closes)) as [Hk|]; [|lia].
        destruct (Hlong Hk) as (v & [= <-] & (? & ? & q & _ & _ & _ & [= Hv])).
        by destruct (Hfmt (num_mul q 100)). }
      auto.
  - apply last_None in Hlast as ->.
    eexists. split; [by apply try_fetch_stock_empty|]. split; [done|]. intros _.
    assert (Hnone : ∀ key, key ∈ ["1_month_return"; "3_month_return"; "1_year_return"] →
              stock_data_of t info (dict_get info "currentPrice" NA) !! key = None).
    { intros key Hkey. unfold stock_data_of.
      repeat (apply elem_of_cons in Hkey as [->|Hkey]; [by simplify_map_eq|]).
      by apply elem_of_nil in Hkey. }
    rewrite !Hnone by set_solver. split; [done|]. split; [done|]. split; [done|].
    intros [[_ Hshort] _]. rewrite Hnone in Hshort by set_solver.
    by discriminate Hshort; simpl; lia.
Qed.

End Outcomes.

(** ** The fallback and the return fields on concrete histories *)

(** ["TCS"] is unknown, ["TCS.NS"] is known: two lookups, and the block
    returned is the one of [TCS.NS]. *)
Lemma fallback_retries_once_with_suffix_witness :
  PyStr.endswith "TCS" ".NS" = false ∧
  attempts (trace (get_stock_data Exact.only_tcs_ns "TCS")) = ["TCS"; "TCS.NS"] ∧
  ∃ rest, result (get_stock_data Exact.only_tcs_ns "TCS") =
            Return (NL +:+ "STOCK DATA FOR " +:+ "TCS.NS" +:+ NL +:+ rest).
Proof.
  split; [reflexivity|].
  destruct (fallback_retries_once_with_suffix Exact.only_tcs_ns "TCS") as [_ Hretry].
  destruct (Hretry eq_refl _ eq_refl) as [Hattempts Hsecond].
  split; [exact Hattempts|].
  destruct (Hsecond _ eq_refl) as (_ & _ & Hheader & Hreturned).
  destruct (Hreturned Exact.closes45 eq_refl) as [block Hblock]; [discriminate|].
  destruct (Hheader block Hblock) as [rest ->].
  exists rest. exact Hblock.
Defined.

(** C2.  A symbol for which the source has a description and no price
    history: the lookup counts as a success and [get_stock_data] raises
    [KeyError: '1_month_return'] instead of returning a block or an error
    text. *)
Theorem get_stock_data_raises_without_history :
  yf_history Exact.delisted "ZZZZ" = Return [] ∧
  result (get_stock_data Exact.delisted "ZZZZ") = Raise (KeyError "1_month_return").
Proof.
  split; [reflexivity|].
  by apply (get_stock_data_empty_history Exact.delisted "ZZZZ"
              (<["trailingPegRatio" := VNone]> ∅)).
Qed.

(** A text with a decimal point in it is not ['N/A']. *)
Lemma dotted_is_not_NA (digits decimals : string) :
  digits +:+ "." +:+ decimals ≠ "N/A".
Proof.
  destruct digits as [|a [|b [|c [|d digits]]]]; by rewrite ?str_app_cons.
Qed.

Lemma float_format_2f_is_not_NA (x : float) : format_2f x ≠ "N/A".
Proof.
  unfold format_2f. simpl. unfold Exact.float_format_2f.
  destruct (Prim2SF x) as [s|[]| |s m e]; try done; apply dotted_is_not_NA.
Qed.

(** 45 closes: the 1-month return is computed (10.00), the other two are
    ['N/A'].  No history at all: the lookup succeeds and the three fields
    are missing. *)
Lemma return_fields_need_a_history_witness :
  (∃ data,
     result (try_fetch_stock Exact.only_tcs_ns "TCS.NS") = Return (Fetched data) ∧
     data !! "1_month_return" = Some (VStr "10.00") ∧
     data !! "3_month_return" = Some NA ∧
     data !! "1_year_return" = Some NA ∧
     (data !! "1_month_return" = Some NA ↔ length Exact.closes45 < 30)) ∧
  (∃ data,
     yf_history Exact.delisted "ZZZZ" = Return [] ∧
     result (try_fetch_stock Exact.delisted "ZZZZ") = Return (Fetched data) ∧
     data !! "1_month_return" = None ∧
     data !! "3_month_return" = None ∧
     data !! "1_year_return" = None ∧
     ¬ return_fields [] data).
Proof.
  assert (Hdiv : ∀ x y : float, ∃ q, num_div x y = Return q) by (intros; by eexists).
  split.
  - destruct (return_fields_need_a_history Exact.only_tcs_ns "TCS.NS"
                Exact.tcs_info Exact.closes45 Hdiv eq_refl eq_refl)
      as (data & Hdata & Hok & _).
    exists data. split; [exact Hdata|].
    destruct (Hok ltac:(discriminate)) as (_ & H45 & Hiff).
    destruct (H45 eq_refl)
      as ((v & Hv & (cp & c & q & Hlast & Hc & Hq & ->)) & H3 & H12).
    destruct (Hiff float_format_2f_is_not_NA) as (Hiff1 & _ & _).
    split; [|split; [exact H3|split; [exact H12|exact Hiff1]]].
    injection Hlast as <-. injection Hc as <-. injection Hq as <-.
    exact Hv.
  - destruct (return_fields_need_a_history Exact.delisted "ZZZZ"
                (<["trailingPegRatio" := VNone]> ∅) [] Hdiv eq_refl eq_refl)
      as (data & Hdata & _ & Hempty).
    exists data. split; [reflexivity|]. split; [exact Hdata|].
    exact (Hempty eq_refl).
Defined.

(** The price of the block is printed as Python prints a float. *)
Example current_price_is_printed_as_a_float :
  shown Exact.tcs_snapshot "current_price" = "110.0" ∧
  shown Exact.tcs_snapshot "1_month_return" = "10.00".
Proof. split; vm_compute; reflexivity. Qed.

(** A close of zero thirty observations back: the division does not
    raise, the quotient is an infinity and is printed as one. *)
Example zero_close_prints_inf :
  let closes := Exact.flat 44 0%float ++ [110%float] in
  add_returns 110%float closes ∅ = ([], Return (set_returns (VStr "inf") NA NA ∅)).
Proof. vm_compute. reflexivity. Qed.

(** ** [split] *)

Section Split.
Implicit Types (s sep : string) (c a : Ascii.ascii).

Lemma split_fuel_S fuel s sep :
  PyStr.split_fuel (S fuel) s sep =
  match PyStr.find s sep with
  | None => [s]
  | Some i => PyStr.take i s ::
              PyStr.split_fuel fuel (PyStr.drop (i + String.length sep) s) sep
  end.
Proof. done. Qed.

(** One unit of fuel per character is enough: every cut removes at least
    the separator. *)
Lemma split_fuel_enough sep f1 f2 s :
  sep ≠ EmptyString → String.length s < f1 → String.length s < f2 →
  PyStr.split_fuel f1 s sep = PyStr.split_fuel f2 s sep.
Proof.
  intros Hsep. assert (1 ≤ String.length sep) by (destruct sep; [done|simpl; lia]).
  revert f2 s. induction f1 as [|f1 IH]; intros f2 s H1 H2; [lia|].
  destruct f2 as [|f2]; [lia|]. rewrite !split_fuel_S.
  destruct (PyStr.find s sep) as [i|] eqn:Hf; [|done].
  apply find_Some in Hf as [_ Hle]. f_equal.
  apply IH; rewrite str_length_drop; lia.
Qed.

Lemma split_unfold s sep :
  sep ≠ EmptyString →
  PyStr.split s sep =
  match PyStr.find s sep with
  | None => [s]
  | Some i => PyStr.take i s :: PyStr.split (PyStr.drop (i + String.length sep) s) sep
  end.
Proof.
  intros Hsep. unfold PyStr.split at 1. rewrite split_fuel_S.
  destruct (PyStr.find s sep) as [i|] eqn:Hf; [|done]. f_equal.
  assert (1 ≤ String.length sep) by (destruct sep; [done|simpl; lia]).
  apply find_Some in Hf as [_ Hle].
  apply split_fuel_enough; [done|rewrite str_length_drop; lia..].
Qed.

Lemma split_not_found s sep :
  PyStr.find s sep = None → PyStr.split s sep = [s].
Proof. intros Hf. unfold PyStr.split. by rewrite split_fuel_S, Hf. Qed.

(** The piece after the first separator: it starts right behind it and
    runs to the next separator or to the end. *)
Lemma split_found s sep i :
  sep ≠ EmptyString → PyStr.find s sep = Some i →
  ∃ piece pieces after,
    PyStr.split s sep = PyStr.take i s :: piece :: pieces ∧
    s = PyStr.take i s +:+ sep +:+ piece +:+ after ∧
    (after = EmptyString ∨ PyStr.startswith after sep = true).
Proof.
  intros Hsep Hf. rewrite split_unfold, Hf by done.
  apply find_Some in Hf as [Heq _].
  set (rest := PyStr.drop (i + String.length sep) s) in *.
  destruct (PyStr.find rest sep) as [j|] eqn:Hj.
  - rewrite split_unfold, Hj by done. apply find_Some in Hj as [Hrest _].
    eexists _, _, _. split; [done|]. split.
    + rewrite Heq at 1. by rewrite Hrest at 1.
    + right. apply startswith_spec. by eexists.
  - rewrite (split_not_found rest) by done.
    exists rest, [], EmptyString. split; [done|]. split; [|by left].
    by rewrite str_app_nil_r.
Qed.

Lemma startswith_char a s c :
  PyStr.startswith (String a s) (String c EmptyString) = Ascii.eqb a c.
Proof. simpl. rewrite Ascii.eqb_sym. destruct (Ascii.eqb a c); [apply startswith_nil|done].
Qed.

Lemma find_char c s :
  match PyStr.find s (String c EmptyString) with
  | None => count_char c s = 0
  | Some i => count_char c (PyStr.take i s) = 0 ∧
              count_char c s = S (count_char c (PyStr.drop (S i) s))
  end.
Proof.
  induction s as [|a s IH]; [done|].
  rewrite find_cons, startswith_char. destruct (Ascii.eqb a c) eqn:Ha.
  - simpl. by rewrite Ha.
  - destruct (PyStr.find s _) as [i|].
    + change (S <$> Some i) with (Some (S i)). cbv beta iota.
      change (PyStr.take (S i) (String a s)) with (String a (PyStr.take i s)).
      change (PyStr.drop (S (S i)) (String a s)) with (PyStr.drop (S i) s).
      cbn [count_char]. rewrite Ha. cbv iota. by rewrite !Nat.add_0_l.
    + simpl. by rewrite Ha.
Qed.

Lemma segments_nonempty c s : segments c s ≠ [].
Proof.
  destruct s as [|a s]; [done|]. simpl.
  destruct (Ascii.eqb a c); [done|]. by destruct (segments c s).
Qed.

Lemma segments_clean_string c s : count_char c s = 0 → segments c s = [s].
Proof.
  induction s as [|a s IH]; [done|]. simpl.
  destruct (Ascii.eqb a c); [done|]. intros Hs. by rewrite IH.
Qed.

Lemma segments_app c before rest :
  count_char c before = 0 →
  segments c (before +:+ String c rest) = before :: segments c rest.
Proof.
  induction before as [|a before IH].
  - intros _. rewrite str_app_nil_l. simpl. by rewrite Ascii.eqb_refl.
  - rewrite str_app_cons. simpl. destruct (Ascii.eqb a c); [done|].
    intros Hb. by rewrite IH.
Qed.

Lemma count_char_le c s : count_char c s ≤ String.length s.
Proof. induction s as [|a s IH]; simpl; [done|]. destruct (Ascii.eqb a c); lia. Qed.

Lemma split_fuel_char c fuel s :
  count_char c s < fuel →
  PyStr.split_fuel fuel s (String c EmptyString) = segments c s.
Proof.
  revert s. induction fuel as [|fuel IH]; intros s Hfuel; [lia|].
  rewrite split_fuel_S. pose proof (find_char c s) as Hc.
  destruct (PyStr.find s _) as [i|] eqn:Hf.
  - destruct Hc as [Hclean Hcount]. apply find_Some in Hf as [Heq _].
    rewrite Heq at 3. rewrite str_app_cons, str_app_nil_l, segments_app by done.
    f_equal. replace (i + String.length (String c EmptyString)) with (S i) in *
      by (simpl; lia).
    apply IH. lia.
  - by rewrite segments_clean_string.
Qed.

(** On a one-character separator [split] gives the pieces between its
    occurrences. *)
Lemma split_char c s : PyStr.split s (String c EmptyString) = segments c s.
Proof. apply split_fuel_char. pose proof (count_char_le c s). lia. Qed.

Lemma length_segments c s : length (segments c s) = S (count_char c s).
Proof.
  induction s as [|a s IH]; [done|]. simpl.
  destruct (Ascii.eqb a c); simpl; [by rewrite IH|].
  pose proof (segments_nonempty c s). destruct (segments c s); [done|].
  simpl in *. lia.
Qed.

Lemma join_segments c s : join (String c EmptyString) (segments c s) = s.
Proof.
  induction s as [|a s IH]; [done|]. simpl.
  pose proof (segments_nonempty c s).
  destruct (Ascii.eqb_spec a c) as [->|Hne].
  - destruct (segments c s) as [|piece pieces]; [done|].
    change (join _ (EmptyString :: piece :: pieces))
      with (EmptyString +:+ String c EmptyString +:+ join (String c EmptyString) (piece :: pieces)).
    by rewrite IH.
  - destruct (segments c s) as [|piece [|piece' pieces]]; [done|..].
    + simpl in *. by rewrite IH.
    + change (join _ (String a piece :: piece' :: pieces))
        with (String a (piece +:+ String c EmptyString +:+
                join (String c EmptyString) (piece' :: pieces))).
      by rewrite <-IH.
Qed.

Lemma segments_clean c s : Forall (λ piece, count_char c piece = 0) (segments c s).
Proof.
  induction s as [|a s IH]; simpl.
  - by repeat constructor.
  - destruct (Ascii.eqb a c) eqn:Ha; [by constructor|].
    destruct (segments c s) as [|piece pieces].
    { constructor; [simpl; by rewrite Ha|done]. }
    apply Forall_cons in IH as [Hp Hps]. constructor; [|done]. simpl. by rewrite Ha.
Qed.

(** The first piece is the text up to the first occurrence. *)
Lemma segments_head c s :
  ∃ piece pieces after,
    segments c s = piece :: pieces ∧ s = piece +:+ after ∧ count_char c piece = 0 ∧
    (after = EmptyString ∨ ∃ more, after = String c more).
Proof.
  induction s as [|a s IH]; simpl.
  - exists EmptyString, [], EmptyString. split; [done|]. split; [done|]. by split; [|left].
  - destruct (Ascii.eqb_spec a c) as [->|Hne].
    + exists EmptyString, (segments c s), (String c s).
      split; [done|]. split; [done|]. split; [done|]. right. by exists s.
    + destruct IH as (piece & pieces & after & -> & -> & Hclean & Hafter).
      exists (String a piece), pieces, after. split; [done|]. split; [done|].
      split; [|done]. simpl. by destruct (Ascii.eqb_spec a c).
Qed.

End Split.

(** ** News retrieval *)

Section NewsProperties.
Context {num : Type} `{!Num num} (w : world num).
Implicit Types (r : hit) (results : list hit) (all_news : list news_item).

Lemma source_of_trace r : trace (source_of r) = [].
Proof.
  unfold source_of, list_getitem.
  destruct (r !! "href") as [[|a href]|]; try done. by destruct (_ !! 2).
Qed.

Lemma make_news_item_result r :
  result (make_news_item r) =
  match result (source_of r) with
  | Return src => Return {| title := dict_get r "title" "";
                            body := dict_get r "body" "";
                            url := dict_get r "href" "";
                            source := src |}
  | Raise e => Raise e
  end.
Proof. unfold make_news_item. rewrite result_bind. by destruct (result _). Qed.

Lemma append_results_app results all_news :
  append_results results all_news =
  (all_news ++ collected results, (append_results results []).2).
Proof.
  unfold collected. revert all_news.
  induction results as [|r results IH]; intros all_news; simpl.
  - by rewrite app_nil_r.
  - destruct (result (make_news_item r)) as [item|e]; simpl.
    + rewrite (IH (all_news ++ [item])), (IH [item]). simpl. by rewrite <-app_assoc.
    + by rewrite app_nil_r.
Qed.

Lemma length_collected results : length (collected results) ≤ length results.
Proof.
  unfold collected. induction results as [|r results IH]; simpl; [done|].
  destruct (result (make_news_item r)) as [item|e]; simpl; [|lia].
  rewrite append_results_app. simpl. unfold collected. lia.
Qed.

(** What was appended before an item that raises stays; the item and
    everything after it is dropped. *)
Lemma collected_until_raise before r after e :
  result (make_news_item r) = Raise e →
  collected (before ++ r :: after) = collected before.
Proof.
  intros Hr. unfold collected. induction before as [|b before IH]; simpl.
  - by rewrite Hr.
  - destruct (result (make_news_item b)) as [item|e']; [|done].
    rewrite !(append_results_app _ [item]). simpl. unfold collected. by rewrite IH.
Qed.

(** One query: one search with a cap of 3, and never an exception. *)
Lemma run_query_spec all_news query :
  searches (trace (run_query w all_news query)) = [(query, 3, "us-en")] ∧
  result (run_query w all_news query) = Return (all_news ++ contribution w query).
Proof.
  unfold run_query, contribution.
  destruct (ddgs_text w query 3 "us-en") as [results|e].
  - rewrite append_results_app. by destruct ((append_results results []).2).
  - by rewrite app_nil_r.
Qed.

Lemma for_queries_spec qs all_news :
  searches (trace (for_queries w qs all_news)) = (λ q, (q, 3, "us-en")) <$> qs ∧
  result (for_queries w qs all_news) =
    Return (all_news ++ concat (contribution w <$> qs)).
Proof.
  revert all_news. induction qs as [|q qs IH]; intros all_news; simpl.
  - by rewrite app_nil_r.
  - destruct (run_query_spec all_news q) as [Hs Hr].
    rewrite trace_bind, result_bind, Hr. unfold searches in *.
    rewrite omap_app, Hs. destruct (IH (all_news ++ contribution w q)) as [-> ->].
    by rewrite <-app_assoc.
Qed.

Lemma gather_news_spec company_name symbol :
  searches (trace (gather_news w company_name symbol)) =
    match ddgs_open w with
    | Return _ => (λ q, (q, 3, "us-en")) <$> queries company_name symbol
    | Raise _ => []
    end ∧
  result (gather_news w company_name symbol) =
    match ddgs_open w with
    | Return _ => Return (concat (contribution w <$> queries company_name symbol))
    | Raise e => Raise e
    end.
Proof.
  unfold gather_news.
  destruct (for_queries_spec (queries company_name symbol) []) as [Hs Hr].
  destruct (ddgs_open w) as [[]|e]; [|done].
  rewrite (py_eta (for_queries _ _ _)), Hr. split; [|done].
  unfold searches in *. by rewrite <-Hs.
Qed.

(** [search_stock_news] always returns a text. *)
Lemma search_stock_news_result company_name symbol :
  result (search_stock_news w company_name symbol) =
  match result (gather_news w company_name symbol) with
  | Return all_news => Return (format_news company_name symbol all_news)
  | Raise e => Return ("Error searching for news: " +:+ exn_str e)
  end.
Proof.
  unfold search_stock_news. rewrite result_try_except, result_bind.
  by destruct (result (gather_news _ _ _)).
Qed.

Lemma search_stock_news_returns company_name symbol :
  ∃ text, result (search_stock_news w company_name symbol) = Return text.
Proof.
  rewrite search_stock_news_result.
  destruct (result (gather_news _ _ _)); by eexists.
Qed.

Lemma search_stock_news_trace company_name symbol :
  trace (search_stock_news w company_name symbol) =
  trace (gather_news w company_name symbol).
Proof.
  unfold search_stock_news. rewrite trace_try_except, trace_bind, result_bind.
  destruct (result (gather_news _ _ _)); simpl; by rewrite !app_nil_r.
Qed.

Lemma length_rendered_items all_news :
  length (rendered_items all_news) = length all_news `min` 8.
Proof. unfold rendered_items. rewrite length_imap, length_take. lia. Qed.

Lemma rendered_items_lookup all_news i news :
  all_news !! i = Some news → i < 8 →
  rendered_items all_news !! i = Some (render_item (S i) news).
Proof.
  intros Hi Hlt. unfold rendered_items.
  by rewrite list_lookup_imap, lookup_take_lt, Hi.
Qed.

End NewsProperties.

Section NewsClaims.
Context {num : Type} `{!Num num} (w : world num).
Implicit Types (r : hit) (results : list hit) (all_news : list news_item).

Lemma length_contribution query :
  honours_cap w → length (contribution w query) ≤ 3.
Proof.
  intros Hcap. unfold contribution.
  destruct (ddgs_text w query 3 "us-en") as [results|e] eqn:Hq; simpl; [|lia].
  pose proof (Hcap _ _ _ _ Hq). pose proof (length_collected results). lia.
Qed.

Lemma format_news_listing company_name symbol all_news :
  all_news ≠ [] →
  format_news company_name symbol all_news =
    news_header company_name symbol +:+ listing 200 (take 8 all_news).
Proof. by destruct all_news. Qed.

(** C4, as the code has it.  Every search is issued with a cap of 3 and
    there are at most three of them.  Whatever was aggregated, if it is not
    empty the text returned is the header followed by the entries of its
    first 8 items and of no other, numbered from 1, the summary of each
    being the first 200 characters of its body.  What is aggregated is what
    the search client handed back: when the client honours the cap, at most
    3 items per query and at most 9 in all. *)
Theorem news_is_capped (company_name symbol : string) :
  let run := search_stock_news w company_name symbol in
  Forall (λ search, search.1.2 = 3) (searches (trace run)) ∧
  length (searches (trace run)) ≤ 3 ∧
  (∀ all_news,
     result (gather_news w company_name symbol) = Return all_news →
     all_news ≠ [] →
     ∃ items,
       items = take 8 all_news ∧
       length items ≤ 8 ∧
       result run =
         Return (news_header company_name symbol +:+ listing 200 items) ∧
       Forall (λ item, PyStr.len (PyStr.take_chars 200 (body item)) ≤ 200 ∧
                       ∃ rest, body item = PyStr.take_chars 200 (body item) +:+ rest)
              items) ∧
  (honours_cap w →
     (∀ query, length (contribution w query) ≤ 3) ∧
     ∀ all_news,
       result (gather_news w company_name symbol) = Return all_news →
       length all_news ≤ 9).
Proof.
  intros run. subst run.
  destruct (gather_news_spec w company_name symbol) as [Hs Hr].
  rewrite search_stock_news_trace, Hs.
  split; [|split; [|split]].
  - destruct (ddgs_open w); [|done]. by repeat constructor.
  - destruct (ddgs_open w); simpl; lia.
  - intros all_news Hall Hne. exists (take 8 all_news).
    split; [done|]. split; [rewrite length_take; lia|]. split.
    + by rewrite search_stock_news_result, Hall, format_news_listing.
    + apply Forall_forall. intros item _.
      split; [apply len_take_chars|apply take_chars_prefix].
  - intros Hcap. split; [intros query; by apply length_contribution|].
    intros all_news. rewrite Hr. destruct (ddgs_open w); [|done].
    intros [= <-]. unfold queries. simpl. rewrite app_nil_r, !length_app.
    pose proof (length_contribution (company_name +:+ " stock news") Hcap).
    pose proof (length_contribution (symbol +:+ " earnings news") Hcap).
    pose proof (length_contribution (company_name +:+ " financial news") Hcap).
    lia.
Qed.

(** C5.  With the search client open, if one of the three queries raises
    and the other two return results, the aggregate is what those two
    results contribute, in query order; the text returned is the rendering
    of that aggregate; and its first 8 items (all of them, when the two
    result lists respect the cap of 3) are on the rendered list. *)
Theorem failing_query_is_skipped (company_name symbol : string)
    (e : exn) (ra rb : list hit) :
  ddgs_open w = Return tt →
  let q1 := company_name +:+ " stock news" in
  let q2 := symbol +:+ " earnings news" in
  let q3 := company_name +:+ " financial news" in
  let answered q results := ddgs_text w q 3 "us-en" = Return results in
  let refused q := ddgs_text w q 3 "us-en" = Raise e in
  (refused q1 ∧ answered q2 ra ∧ answered q3 rb) ∨
  (answered q1 ra ∧ refused q2 ∧ answered q3 rb) ∨
  (answered q1 ra ∧ answered q2 rb ∧ refused q3) →
  let aggregate := collected ra ++ collected rb in
  result (gather_news w company_name symbol) = Return aggregate ∧
  result (search_stock_news w company_name symbol) =
    Return (format_news company_name symbol aggregate) ∧
  (∀ i news, aggregate !! i = Some news → i < 8 →
     rendered_items aggregate !! i = Some (render_item (S i) news)) ∧
  (length ra ≤ 3 → length rb ≤ 3 →
   ∀ i news, aggregate !! i = Some news →
     rendered_items aggregate !! i = Some (render_item (S i) news)).
Proof.
  intros Hopen q1 q2 q3 answered refused Hcase aggregate.
  assert (Hgather : result (gather_news w company_name symbol) = Return aggregate).
  { destruct (gather_news_spec w company_name symbol) as [_ ->]. rewrite Hopen.
    unfold queries, aggregate. simpl. fold q1 q2 q3. unfold contribution.
    destruct Hcase as [(H1 & H2 & H3)|[(H1 & H2 & H3)|(H1 & H2 & H3)]];
      rewrite H1, H2, H3; by rewrite ?app_nil_r. }
  split; [done|]. split; [by rewrite search_stock_news_result, Hgather|].
  split; [intros i news; apply rendered_items_lookup|].
  intros Ha Hb i news Hi. apply rendered_items_lookup; [done|].
  apply lookup_lt_Some in Hi. unfold aggregate in Hi. rewrite length_app in Hi.
  pose proof (length_collected ra). pose proof (length_collected rb). lia.
Qed.

(** C7.  When the three queries leave the aggregate empty the text returned
    is the marker naming company and symbol; when the search itself fails
    it is the error description; the two texts are never equal.  The
    aggregate is empty whenever the client opens and no query contributes
    an item. *)
Theorem no_news_marker_is_not_an_error (company_name symbol : string) :
  let marker :=
    "No recent news found for " +:+ company_name +:+ " (" +:+ symbol +:+ ")" in
  (result (gather_news w company_name symbol) = Return [] →
     result (search_stock_news w company_name symbol) = Return marker) ∧
  (∀ e, result (gather_news w company_name symbol) = Raise e →
     result (search_stock_news w company_name symbol) =
       Return ("Error searching for news: " +:+ exn_str e)) ∧
  (∀ e, marker ≠ "Error searching for news: " +:+ exn_str e) ∧
  (ddgs_open w = Return tt →
   (∀ query, query ∈ queries company_name symbol → contribution w query = []) →
   result (gather_news w company_name symbol) = Return []).
Proof.
  intros marker. split; [|split; [|split]].
  - intros Hnone. by rewrite search_stock_news_result, Hnone.
  - intros e He. by rewrite search_stock_news_result, He.
  - intros e. unfold marker. by rewrite !str_app_cons.
  - intros Hopen Hnone. destruct (gather_news_spec w company_name symbol) as [_ ->].
    rewrite Hopen. unfold queries in *. simpl.
    rewrite !Hnone; [done|set_solver..].
Qed.

End NewsClaims.

Section SourceLabel.
Context {num : Type} `{!Num num} (w : world num).
Implicit Types (r : hit) (results : list hit) (all_news : list news_item).

Lemma source_of_href r href :
  r !! "href" = Some href → href ≠ EmptyString →
  source_of r = list_getitem (segments "/"%char href) 2.
Proof.
  intros Hr Hne. unfold source_of, dict_get. rewrite Hr. simpl.
  destruct href as [|a href]; [done|]. by rewrite split_char.
Qed.

Lemma make_news_item_raise r e :
  result (make_news_item r) = Raise e → e = out_of_range.
Proof.
  rewrite make_news_item_result. unfold source_of, list_getitem.
  destruct (r !! "href") as [[|a href]|]; try done.
  destruct (_ !! 2); [done|]. by intros [= <-].
Qed.

Lemma append_results_raise before r after e :
  result (make_news_item r) = Raise e →
  (append_results (before ++ r :: after) []).2 = Raise out_of_range.
Proof.
  intros Hr. induction before as [|b before IH]; simpl.
  - rewrite Hr. by rewrite (make_news_item_raise r e).
  - destruct (result (make_news_item b)) as [item|e'] eqn:Hb.
    + by rewrite append_results_app.
    + by rewrite (make_news_item_raise b e').
Qed.

(** C10.  No address, or an empty one: the label is ['Unknown'].  An
    address with at least two ['/']: the label is its third piece, and the
    news item carries it.  A non-empty address with fewer than two ['/']:
    the lookup of the third piece raises [IndexError]; in the query where
    such a hit turns up, the handler of that query catches it (it prints
    the error and does not sleep), the items appended before it stay and
    the hit and everything after it is dropped.  [search_stock_news]
    returns a text in every case. *)
Theorem source_label_from_href (r : hit) :
  (r !! "href" = None ∨ r !! "href" = Some EmptyString →
     result (source_of r) = Return "Unknown") ∧
  (∀ href, r !! "href" = Some href → href ≠ EmptyString →
     (2 ≤ count_char "/"%char href →
        ∃ piece, segments "/"%char href !! 2 = Some piece ∧
                 result (source_of r) = Return piece ∧
                 ∃ item, result (make_news_item r) = Return item ∧
                         source item = piece ∧ url item = href) ∧
     (count_char "/"%char href < 2 →
        result (source_of r) = Raise out_of_range ∧
        ∀ all_news query before after,
          ddgs_text w query 3 "us-en" = Return (before ++ r :: after) →
          run_query w all_news query =
            ([EvSearch query 3 "us-en";
              EvPrint ("Error with query '" +:+ query +:+ "': " +:+
                       "list index out of range")],
             Return (all_news ++ collected before)))) ∧
  (∀ company_name symbol,
     ∃ text, result (search_stock_news w company_name symbol) = Return text).
Proof.
  split; [|split].
  - unfold source_of. by intros [->| ->].
  - intros href Hr Hne. rewrite (source_of_href r href) by done.
    unfold list_getitem. split.
    + intros Hcount.
      destruct (lookup_lt_is_Some_2 (segments "/"%char href) 2) as [piece Hpiece].
      { rewrite length_segments. lia. }
      exists piece. rewrite Hpiece. split; [done|]. split; [done|].
      eexists. rewrite make_news_item_result, (source_of_href r href) by done.
      unfold list_getitem. rewrite Hpiece. split; [done|]. split; [done|].
      simpl. unfold dict_get. by rewrite Hr.
    + intros Hcount.
      assert (Hnone : segments "/"%char href !! 2 = None).
      { apply lookup_ge_None. rewrite length_segments. lia. }
      rewrite Hnone. split; [done|].
      intros all_news query before after Hq.
      assert (Hraise : result (make_news_item r) = Raise out_of_range).
      { rewrite make_news_item_result, (source_of_href r href) by done.
        unfold list_getitem. by rewrite Hnone. }
      unfold run_query. rewrite Hq, append_results_app.
      rewrite (append_results_raise before r after _ Hraise).
      by rewrite (collected_until_raise before r after _ Hraise).
  - intros company_name symbol. apply search_stock_news_returns.
Qed.

End SourceLabel.

(** ** News retrieval on concrete search results *)

Lemma newsy_honours_cap : honours_cap Exact.newsy.
Proof.
  intros query max_results region results [= <-]. rewrite length_take. lia.
Qed.

(** Three answered queries, five hits on offer each time: 3 are taken per
    query, 9 aggregated, and the text returned lists the first 8. *)
Lemma news_is_capped_witness :
  honours_cap Exact.newsy ∧
  ∃ all_news,
    result (gather_news Exact.newsy "ACME Corp" "ACME") = Return all_news ∧
    length all_news = 9 ∧
    result (search_stock_news Exact.newsy "ACME Corp" "ACME") =
      Return (news_header "ACME Corp" "ACME" +:+ listing 200 (take 8 all_news)).
Proof.
  split; [exact newsy_honours_cap|].
  destruct (news_is_capped Exact.newsy "ACME Corp" "ACME")
    as (_ & _ & Hrendered & Hcapped).
  eexists. split; [vm_compute; reflexivity|]. split; [reflexivity|].
  match goal with
  | |- _ = Return (_ +:+ listing 200 (take 8 ?all_news)) =>
      destruct (Hrendered all_news ltac:(vm_compute; reflexivity) ltac:(discriminate))
        as (items & -> & _ & Hrun & _)
  end.
  exact Hrun.
Defined.

(** A search client that hands back five hits although three were asked
    for: five items are collected for a query and fifteen in all, where
    the claim has at most 3 and at most 9.  Every search was issued with
    the cap of 3, and the text lists 8 items all the same. *)
Lemma generous_client_is_not_capped :
  Forall (λ search, search.1.2 = 3)
    (searches (trace (search_stock_news Exact.generous "ACME Corp" "ACME"))) ∧
  length (contribution Exact.generous "ACME earnings news") = 5 ∧
  ∃ all_news,
    result (gather_news Exact.generous "ACME Corp" "ACME") = Return all_news ∧
    length all_news = 15 ∧
    result (search_stock_news Exact.generous "ACME Corp" "ACME") =
      Return (news_header "ACME Corp" "ACME" +:+ listing 200 (take 8 all_news)).
Proof.
  split; [vm_compute; by repeat constructor|]. split; [vm_compute; reflexivity|].
  eexists. split; [vm_compute; reflexivity|]. split; [reflexivity|].
  vm_compute. reflexivity.
Qed.

(** The summary counts characters: a body of 201 two-byte letters is cut
    after the 200th letter, which is the 400th byte. *)
Example summary_counts_characters :
  let body := PyStr.repeat "é" 201 in
  String.length body = 402 ∧ PyStr.len body = 201 ∧
  PyStr.take_chars 200 body = PyStr.repeat "é" 200 ∧
  String.length (PyStr.take_chars 200 body) = 400.
Proof. vm_compute. auto. Qed.

(** The earnings query is refused: the six items of the other two queries
    are aggregated and all six are rendered. *)
Lemma failing_query_is_skipped_witness :
  ∃ aggregate,
    result (gather_news Exact.flaky "ACME Corp" "ACME") = Return aggregate ∧
    length aggregate = 6 ∧
    ∀ i news, aggregate !! i = Some news →
      rendered_items aggregate !! i = Some (render_item (S i) news).
Proof.
  destruct (failing_query_is_skipped Exact.flaky "ACME Corp" "ACME"
              (Exn "RatelimitException" "202 Ratelimit")
              (take 3 Exact.five_hits) (take 3 Exact.five_hits) eq_refl)
    as (Hgather & _ & _ & Hall).
  { right. left. split; [reflexivity|]. split; reflexivity. }
  eexists. split; [exact Hgather|]. split; [vm_compute; reflexivity|].
  apply Hall; vm_compute; lia.
Defined.

(** The search answers every query with nothing: the marker, not an error
    text. *)
Lemma no_news_marker_is_not_an_error_witness :
  result (search_stock_news Exact.silent "ACME Corp" "ACME") =
    Return "No recent news found for ACME Corp (ACME)" ∧
  result (search_stock_news Exact.offline "ACME Corp" "ACME") =
    Return "Error searching for news: no route to host".
Proof.
  destruct (no_news_marker_is_not_an_error Exact.silent "ACME Corp" "ACME")
    as (Hmarker & _ & _ & Hempty).
  destruct (no_news_marker_is_not_an_error Exact.offline "ACME Corp" "ACME")
    as (_ & Herror & _).
  split.
  - apply Hmarker, Hempty; [reflexivity|]. intros query _. reflexivity.
  - apply (Herror Exact.unreachable_exn). reflexivity.
Defined.

(** An address without ['/'] between two ordinary hits: the first hit is
    kept, the other two are dropped, the query ends in its handler. *)
Lemma source_label_from_href_witness :
  result (source_of Exact.bare_host) = Raise out_of_range ∧
  result (run_query Exact.with_bare_host [] "ACME stock news") =
    Return [ {| title := "Shares rally"; body := "Shares rose.";
                url := "https://news.example.com/a";
                source := "news.example.com" |} ] ∧
  result (source_of (Exact.mk_hit "Dividend" "A dividend." "https://mkt.example.net/c"))
    = Return "mkt.example.net".
Proof.
  destruct (source_label_from_href Exact.with_bare_host Exact.bare_host)
    as (_ & Hhref & _).
  destruct (Hhref "news.example.com" eq_refl) as [_ Hbare]; [discriminate|].
  destruct Hbare as [Hraise Hquery]; [vm_compute; lia|].
  split; [exact Hraise|]. split.
  - rewrite (Hquery [] "ACME stock news"
      [Exact.mk_hit "Shares rally" "Shares rose." "https://news.example.com/a"]
      [Exact.mk_hit "Dividend" "A dividend." "https://mkt.example.net/c"] eq_refl).
    vm_compute. reflexivity.
  - destruct (source_label_from_href Exact.with_bare_host
                (Exact.mk_hit "Dividend" "A dividend." "https://mkt.example.net/c"))
      as (_ & Hgood & _).
    destruct (Hgood "https://mkt.example.net/c" eq_refl) as [Hlabel _]; [discriminate|].
    destruct Hlabel as (piece & Hpiece & Hsource & _); [vm_compute; lia|].
    vm_compute in Hpiece. injection Hpiece as <-. exact Hsource.
Defined.

(** ** The layout of the block *)

Section Layout.
Context {num : Type} `{!Num num}.
Implicit Types (data : gmap string (pyval num)) (parts : list part).

Lemma fill_app parts1 parts2 (value : string → string) :
  fill (parts1 ++ parts2) value = fill parts1 value +:+ fill parts2 value.
Proof.
  induction parts1 as [|[text|key] rest IH]; [done|..]; simpl;
    by rewrite IH, str_app_assoc.
Qed.

Lemma in_order_fill needles parts (value : string → string) :
  parts_in_order needles parts →
  in_order ((λ needle, fill needle value) <$> needles) (fill parts value).
Proof.
  revert parts. induction needles as [|needle needles IH]; intros parts; [done|].
  intros (before & after & -> & Hrest). simpl.
  exists (fill before value), (fill after value).
  split; [by rewrite !fill_app|by apply IH].
Qed.

(** Find the next needle in a template: try every place in turn. *)
Ltac locate_parts :=
  lazymatch goal with
  | |- ∃ before after, ?parts = _ ∧ _ =>
      let rec go k :=
        first [ exists (take k parts); eexists; split; [reflexivity|]
              | go (S k) ] in
      go 0
  end.

Lemma stock_template_layout :
  parts_in_order
    [ [Lit "STOCK DATA FOR "; Field "symbol"];
      [Lit "Company: "; Field "company_name"];
      [Lit "CURRENT METRICS:"];
      [Lit "- Current Price: $"; Field "current_price"];
      [Lit "FINANCIAL HEALTH:"];
      [Lit "PERFORMANCE:"];
      [Lit "- 52 Week High: $"; Field "52_week_high"];
      [Lit "- 52 Week Low: $"; Field "52_week_low"];
      [Lit "- 1 Month Return: "; Field "1_month_return"; Lit "%"];
      [Lit "- 3 Month Return: "; Field "3_month_return"; Lit "%"];
      [Lit "- 1 Year Return: "; Field "1_year_return"; Lit "%"];
      [Lit "TRADING DATA:"] ]
    (join_lines stock_template).
Proof.
  cbn [join_lines stock_template app parts_in_order].
  do 12 locate_parts. exact I.
Qed.

(** C6.  A snapshot with every field present is rendered, without an
    error, into a block in which the identity lines, [CURRENT METRICS:],
    [FINANCIAL HEALTH:], [PERFORMANCE:] and [TRADING DATA:] follow one
    another in this order, the three price lines carrying [$] before the
    value and the three return lines [%] after it; [get_stock_data]
    returns that block for the snapshot its lookup resolves to. *)
Theorem block_sections_in_order data :
  Forall (λ key, is_Some (data !! key)) stock_fields →
  ∃ block,
    format_stock data = ([], Return block) ∧
    in_order (mandated data) block ∧
    ∀ (w : world num) symbol,
      result (fetch_with_fallback w symbol) = Return (Fetched data) →
      result (get_stock_data w symbol) = Return block.
Proof.
  intros Hall. exists (fill (join_lines stock_template) (shown data)).
  assert (Hformat : format_stock data =
            ([], Return (fill (join_lines stock_template) (shown data)))).
  { unfold format_stock. apply fstring_total. by rewrite stock_template_fields. }
  split; [done|]. split.
  - pose proof (in_order_fill _ _ (shown data) stock_template_layout) as Hlayout.
    cbn [fmap list_fmap fill] in Hlayout. rewrite !str_app_nil_r in Hlayout.
    exact Hlayout.
  - intros w symbol Hfetch. unfold get_stock_data.
    rewrite result_bind, Hfetch. by rewrite Hformat.
Qed.

End Layout.

(** The block of [TCS.NS], reached through the fallback from ["TCS"]. *)
Lemma block_sections_in_order_witness :
  ∃ block,
    result (get_stock_data Exact.only_tcs_ns "TCS") = Return block ∧
    in_order (mandated Exact.tcs_snapshot) block.
Proof.
  destruct (block_sections_in_order Exact.tcs_snapshot) as (block & _ & Horder & Hget).
  { apply set_returns_keys. }
  exists block. split; [|exact Horder].
  apply Hget. vm_compute. reflexivity.
Defined.

(** ** The analysis after a failed lookup *)

Section AnalysisProperties.
Context {num : Type} `{!Num num} (w : world num).

Lemma company_name_of_trace stock_symbol stock_data :
  trace (company_name_of stock_symbol stock_data) = [].
Proof.
  unfold company_name_of, list_getitem.
  destruct (PyStr.contains _ _); [|done].
  destruct (_ !! 1) as [after|]; [|done]. py_unfold. cbv beta iota zeta.
  by destruct (_ !! 0).
Qed.

(** Without the marker the ticker is used. *)
Lemma company_name_of_ticker stock_symbol stock_data :
  PyStr.contains stock_data "Company: " = false →
  result (company_name_of stock_symbol stock_data) = Return stock_symbol.
Proof.
  intros Hno. unfold company_name_of.
  destruct (PyStr.contains stock_data "Company:"); [|done].
  unfold PyStr.contains in Hno.
  destruct (PyStr.find stock_data "Company: ") eqn:Hf; [done|].
  by rewrite (split_not_found _ _ Hf).
Qed.

(** With the marker, the name is what stands between its first occurrence
    and the end of the line (or the next marker). *)
Lemma company_name_of_marker stock_symbol stock_data :
  PyStr.contains stock_data "Company: " = true →
  ∃ company_name before after,
    result (company_name_of stock_symbol stock_data) = Return company_name ∧
    stock_data = before +:+ "Company: " +:+ company_name +:+ after ∧
    PyStr.find stock_data "Company: " = Some (String.length before) ∧
    count_char (Ascii.ascii_of_nat 10) company_name = 0 ∧
    (after = EmptyString ∨ PyStr.startswith after NL = true ∨
     PyStr.startswith after "Company: " = true).
Proof.
  intros Hyes. unfold company_name_of.
  rewrite (contains_weaken stock_data "Company:" " ") by done.
  unfold PyStr.contains in Hyes.
  destruct (PyStr.find stock_data "Company: ") as [i|] eqn:Hf; [|done].
  destruct (split_found stock_data "Company: " i) as (piece & pieces & rest & -> & Heq & Hrest);
    [done..|].
  destruct (segments_head (Ascii.ascii_of_nat 10) piece)
    as (name & names & more & Hseg & -> & Hclean & Hmore).
  pose proof (find_Some _ _ _ Hf) as [_ Hle].
  exists name, (PyStr.take i stock_data), (more +:+ rest).
  split; [|split; [|split; [|split; [done|]]]].
  - unfold list_getitem. cbn [lookup list_lookup]. py_unfold. cbv beta iota zeta.
    unfold NL. by rewrite split_char, Hseg.
  - rewrite Heq at 1. by rewrite <-!str_app_assoc.
  - rewrite str_length_take. f_equal. lia.
  - destruct Hmore as [->|[tail ->]].
    + rewrite str_app_nil_l. tauto.
    + right. left. apply startswith_spec. by exists (tail +:+ rest).
Qed.

Lemma run_query_invocations all_news query :
  invocations (trace (run_query w all_news query)) = [].
Proof.
  unfold run_query. destruct (ddgs_text w query 3 "us-en") as [results|e]; [|done].
  by destruct (append_results results all_news) as [? [|]].
Qed.

Lemma for_queries_invocations qs all_news :
  invocations (trace (for_queries w qs all_news)) = [].
Proof.
  revert all_news. induction qs as [|q qs IH]; intros all_news; [done|].
  simpl. rewrite trace_bind.
  pose proof (run_query_invocations all_news q) as Hq.
  unfold invocations in *. rewrite omap_app, Hq.
  destruct (result (run_query w all_news q)); [apply IH|done].
Qed.

Lemma search_stock_news_invocations company_name symbol :
  invocations (trace (search_stock_news w company_name symbol)) = [].
Proof.
  rewrite search_stock_news_trace. unfold gather_news.
  destruct (ddgs_open w) as [[]|e]; [|done].
  pose proof (for_queries_invocations (queries company_name symbol) []) as Hq.
  by rewrite (py_eta (for_queries _ _ _)) in *.
Qed.

Lemma fetch_with_fallback_invocations symbol :
  invocations (trace (fetch_with_fallback w symbol)) = [].
Proof.
  destruct (try_fetch_stock_returns w symbol) as (r & Hr & _).
  destruct (negb (success r) && negb (PyStr.endswith symbol ".NS")) eqn:Hcond.
  - destruct r as [data|message]; [done|]. cbn [success negb andb] in Hcond.
    apply negb_true_iff in Hcond. by rewrite (fallback_retry w symbol message).
  - by rewrite (fallback_no_retry w symbol r).
Qed.

(** C9.  If the model client could be set up and both lookups failed, so
    that [get_stock_data] hands back the error text [err]: the name the
    news search is keyed on is the ticker when [err] has no ["Company: "]
    in it, and otherwise the text that follows the first ["Company: "] up
    to the end of the line (or the next marker); the prompt carries [err]
    unchanged under [STOCK DATA:]; the model is invoked exactly once, with
    that prompt; and the analysis returns the model's text, or the error
    description if the invocation fails. *)
Theorem analysis_goes_on_after_failed_lookup (stock_symbol err : string) :
  llm_init w = Return tt →
  result (fetch_with_fallback w stock_symbol) = Return (NotFetched err) →
  ∃ company_name news_data,
    result (get_stock_data w stock_symbol) = Return err ∧
    result (company_name_of stock_symbol err) = Return company_name ∧
    (PyStr.contains err "Company: " = false → company_name = stock_symbol) ∧
    (PyStr.contains err "Company: " = true →
       ∃ before after,
         err = before +:+ "Company: " +:+ company_name +:+ after ∧
         PyStr.find err "Company: " = Some (String.length before) ∧
         count_char (Ascii.ascii_of_nat 10) company_name = 0 ∧
         (after = EmptyString ∨ PyStr.startswith after NL = true ∨
          PyStr.startswith after "Company: " = true)) ∧
    result (search_stock_news w company_name stock_symbol) = Return news_data ∧
    let prompt := analysis_prompt stock_symbol err news_data in
    (∃ head tail, prompt = head +:+ "STOCK DATA:" +:+ NL +:+ err +:+ NL +:+ tail) ∧
    invocations (trace (analyze_stock_simple w stock_symbol)) = [prompt] ∧
    result (analyze_stock_simple w stock_symbol) =
      Return match llm_invoke w prompt with
             | Return response => text_of response
             | Raise e => "Error during analysis: " +:+ exn_str e
             end.
Proof.
  intros Hinit Hfetch.
  assert (Hget : get_stock_data w stock_symbol =
                 (trace (fetch_with_fallback w stock_symbol), Return err)).
  { rewrite (py_eta (get_stock_data _ _)), get_stock_data_trace. f_equal.
    unfold get_stock_data. by rewrite result_bind, Hfetch. }
  assert (∃ company_name,
            result (company_name_of stock_symbol err) = Return company_name ∧
            (PyStr.contains err "Company: " = false → company_name = stock_symbol) ∧
            (PyStr.contains err "Company: " = true →
               ∃ before after,
                 err = before +:+ "Company: " +:+ company_name +:+ after ∧
                 PyStr.find err "Company: " = Some (String.length before) ∧
                 count_char (Ascii.ascii_of_nat 10) company_name = 0 ∧
                 (after = EmptyString ∨ PyStr.startswith after NL = true ∨
                  PyStr.startswith after "Company: " = true)))
    as (company_name & Hname & Hticker & Hmarker).
  { destruct (PyStr.contains err "Company: ") eqn:Hc.
    - destruct (company_name_of_marker stock_symbol err Hc)
        as (name & before & after & Hres & Hrest).
      exists name. split; [done|]. split; [done|]. intros _. by exists before, after.
    - exists stock_symbol. split; [by apply company_name_of_ticker|]. by split. }
  destruct (search_stock_news_returns w company_name stock_symbol)
    as [news_data Hnews].
  exists company_name, news_data.
  split; [by rewrite Hget|]. split; [done|]. split; [done|]. split; [done|].
  split; [done|]. intros prompt. split.
  { exists (NL +:+ "You are a senior financial analyst. Please provide a comprehensive stock analysis for "
              +:+ stock_symbol +:+ " based on the following data:" +:+ NL +:+ NL).
    eexists. unfold prompt, analysis_prompt, lines.
    cbn [fmap list_fmap PyStr.concat]. rewrite <-!str_app_assoc. reflexivity. }
  assert (Hcn : company_name_of stock_symbol err = ([], Return company_name)).
  { by rewrite (py_eta (company_name_of _ _)), company_name_of_trace, Hname. }
  pose proof (fetch_with_fallback_invocations stock_symbol) as Hquiet1.
  pose proof (search_stock_news_invocations company_name stock_symbol) as Hquiet2.
  assert (Hsn : search_stock_news w company_name stock_symbol =
                (trace (search_stock_news w company_name stock_symbol),
                 Return news_data)).
  { by rewrite (py_eta (search_stock_news _ _ _)), trace_pair, Hnews. }
  set (tg := trace (fetch_with_fallback w stock_symbol)) in *.
  set (ts := trace (search_stock_news w company_name stock_symbol)) in *.
  unfold analyze_stock_simple. rewrite Hinit, Hget.
  unfold print.
  unfold mbind, mret, py_bind, py_ret, raise, emit, lift, try_except, trace, result.
  cbv beta iota zeta. rewrite Hcn. cbv beta iota zeta.
  rewrite Hsn. cbv beta iota zeta.
  fold prompt. destruct (llm_invoke w prompt) as [response|e];
    cbv beta iota zeta; cbn [fst snd];
    unfold invocations in *; rewrite ?omap_app, Hquiet1, Hquiet2; done.
Qed.

End AnalysisProperties.

(** Both lookups of ["ACME"] fail and the search answers: the model is
    invoked once, the error text is in the prompt, its answer is returned. *)
Lemma analysis_goes_on_after_failed_lookup_witness :
  result (get_stock_data Exact.newsy "ACME") =
    Return "Error fetching ACME.NS: no route to host" ∧
  ∃ prompt head tail,
    prompt = head +:+ "STOCK DATA:" +:+ NL +:+
             "Error fetching ACME.NS: no route to host" +:+ NL +:+ tail ∧
    invocations (trace (analyze_stock_simple Exact.newsy "ACME")) = [prompt] ∧
    result (analyze_stock_simple Exact.newsy "ACME") = Return "HOLD".
Proof.
  destruct (analysis_goes_on_after_failed_lookup Exact.newsy "ACME"
              "Error fetching ACME.NS: no route to host" eq_refl eq_refl)
    as (company_name & news_data & Hget & _ & _ & _ & _ & Hprompt & Honce & Hresult).
  split; [exact Hget|].
  destruct Hprompt as (head & tail & Hprompt).
  eexists _, head, tail. split; [exact Hprompt|]. split; [exact Honce|exact Hresult].
Defined.

(** The name is read off a rendered block, too. *)
Example company_name_of_block :
  result (company_name_of "TCS"
            (NL +:+ "STOCK DATA FOR TCS.NS" +:+ NL +:+ "Company: Tata Consultancy" +:+
             NL +:+ "Sector: Technology | Industry: N/A" +:+ NL)) =
  Return "Tata Consultancy".
Proof. vm_compute. reflexivity. Qed.

(** ** The crew *)

Section CrewProperties.
Import Crew.
Context (rt : runtime).

(** The sequential runner carries the tasks out in order, each once, and
    stops at the first one that raises. *)
Lemma run_sequential_spec (todo : list Task) (inp : inputs) (outputs : list string) :
  match result (run_sequential rt todo inp outputs) with
  | Return outs =>
      ∃ new, outs = outputs ++ new ∧ length new = length todo ∧
             executed (trace (run_sequential rt todo inp outputs)) = steps todo
  | Raise e =>
      ∃ n t before,
        todo !! n = Some t ∧ length before = n ∧
        execute_task rt (agent t) t inp (outputs ++ before) = Raise e ∧
        executed (trace (run_sequential rt todo inp outputs)) = steps (take (S n) todo)
  end.
Proof.
  revert outputs. induction todo as [|t todo IH]; intros outputs.
  - exists []. by rewrite app_nil_r.
  - cbn [run_sequential]. rewrite !trace_bind, !result_bind.
    unfold emit, lift. py_step.
    destruct (execute_task rt (agent t) t inp outputs) as [out|e] eqn:Hexec.
    + specialize (IH (outputs ++ [out])).
      destruct (result (run_sequential rt todo inp (outputs ++ [out]))) as [outs|e].
      * destruct IH as (new & -> & Hlen & Hsteps). exists (out :: new).
        split; [by rewrite <-app_assoc|]. split; [simpl; lia|].
        simpl. unfold executed in *. simpl. by rewrite Hsteps.
      * destruct IH as (n & t' & before & Ht' & Hlen & Hraise & Hsteps).
        exists (S n), t', (out :: before). split; [done|]. split; [simpl; lia|].
        split; [by rewrite <-app_assoc in Hraise|].
        simpl. unfold executed in *. simpl. by rewrite Hsteps.
    + exists 0, t, []. split; [done|]. split; [done|].
      split; [by rewrite app_nil_r|done].
Qed.

Lemma lift_then {A} (o : outcome unit) (m : py A) :
  lift o ≫= (λ _, m) =
    match o with
    | Return _ => m
    | Raise e => ([], Raise e)
    end.
Proof. destruct o as [[]|e]; [|done]. destruct m as [t r]. done. Qed.

Lemma pure_bind {A B} (a : A) (f : A → py B) : ([], Return a) ≫= f = f a.
Proof. apply ret_bind. Qed.

Lemma new_agent_unfold (a : Agent) :
  new_agent rt a =
    ([], match agent_new rt a with Return _ => Return a | Raise e => Raise e end).
Proof. unfold new_agent. rewrite lift_then. by destruct (agent_new rt a). Qed.

Lemma new_task_unfold (t : Task) :
  new_task rt t =
    ([], match task_new rt t with Return _ => Return t | Raise e => Raise e end).
Proof. unfold new_task. rewrite lift_then. by destruct (task_new rt t). Qed.

Lemma new_crew_unfold (c : Crew) :
  new_crew rt c =
    ([], match crew_new rt c with Return _ => Return c | Raise e => Raise e end).
Proof. unfold new_crew. rewrite lift_then. by destruct (crew_new rt c). Qed.

Lemma create_agents_unfold :
  _create_agents rt =
    ([], match first_failure (agent_new rt <$> the_agents.*2) with
         | None => Return the_agents
         | Some e => Raise e
         end).
Proof.
  unfold _create_agents. rewrite !new_agent_unfold.
  cbn [the_agents fmap list_fmap snd first_failure].
  destruct (agent_new rt data_processor) as [[]|?]; [|done].
  destruct (agent_new rt risk_guardian) as [[]|?]; [|done].
  destruct (agent_new rt health_advisor) as [[]|?]; [|done].
  destruct (agent_new rt product_matchmaker) as [[]|?]; [|done].
  destruct (agent_new rt report_synthesizer) as [[]|?]; done.
Qed.

(** Every agent a task names is in the dictionary. *)
Lemma agents_getitem_the_agents :
  Forall (λ entry, agents_getitem the_agents entry.1 = mret entry.2) the_agents.
Proof. repeat constructor. Qed.

Lemma create_tasks_unfold :
  _create_tasks rt the_agents =
    ([], match first_failure (task_new rt <$> the_tasks) with
         | None => Return the_tasks
         | Some e => Raise e
         end).
Proof.
  pose proof agents_getitem_the_agents as Hagents.
  unfold the_agents at 2 in Hagents.
  repeat (apply Forall_cons in Hagents as [? Hagents]). cbn [fst snd] in *.
  unfold _create_tasks.
  cbn [the_tasks fmap list_fmap first_failure].
  repeat match goal with
         | H : agents_getitem the_agents ?k = _
           |- context [agents_getitem the_agents ?k ≫= _] =>
             rewrite H, ret_bind; clear H; rewrite new_task_unfold;
             match goal with
             | |- context [task_new rt ?t] =>
                 destruct (task_new rt t) as [[]|?]; [|done]
             end;
             rewrite pure_bind
         end.
  done.
Qed.

Lemma first_failure_app (calls more : list (outcome unit)) :
  first_failure (calls ++ more) =
    match first_failure calls with
    | Some e => Some e
    | None => first_failure more
    end.
Proof. induction calls as [|[[]|e] calls IH]; done. Qed.

Lemma init_unfold :
  __init__ rt =
    (match dotenv_load rt with
     | Return _ => [EvLLMInit "gemini-1.5-flash"]
     | Raise _ => []
     end,
     match first_failure (constructions rt) with
     | None => Return built
     | Some e => Raise e
     end).
Proof.
  unfold __init__, _create_crew, constructions. rewrite create_agents_unfold.
  cbn [app first_failure].
  destruct (dotenv_load rt) as [[]|?]; [|done].
  destruct (llm_new rt) as [[]|?]; [|done].
  destruct (tool_new rt) as [[]|?]; [|done].
  rewrite !lift_then, !first_failure_app.
  destruct (first_failure (agent_new rt <$> the_agents.*2)) as [e|]; [done|].
  rewrite pure_bind, create_tasks_unfold.
  destruct (first_failure (task_new rt <$> the_tasks)) as [e|]; [done|].
  rewrite pure_bind, new_crew_unfold. fold the_crew. cbn [first_failure].
  by destruct (crew_new rt the_crew) as [[]|e].
Qed.

Lemma init_returns (self : FinancialCompanionCrew) :
  result (__init__ rt) = Return self → self = built.
Proof.
  rewrite init_unfold. cbn [result snd].
  destruct (first_failure (constructions rt)); congruence.
Qed.

Lemma init_spec (self : FinancialCompanionCrew) :
  result (__init__ rt) = Return self →
  process (self_crew self) = sequential ∧ steps (tasks (self_crew self)) = plan.
Proof. by intros ->%init_returns. Qed.

Lemma plan_nodup : NoDup plan.
Proof. apply (bool_decide_unpack _). vm_compute. exact I. Qed.

(** C8.  For the crew [__init__] builds: the process is the sequential one
    and its five (role, task) pairs are the fixed plan, no pair twice.  A
    run carries out an initial stretch of the plan, in order, each pair
    once.  Either all five steps return, and the result is the success
    dictionary with the five outputs; or some step raises, nothing after it
    is carried out, and the result is the error dictionary: status
    ['error'], the one error message, the date, and no results. *)
Theorem crew_run_is_sequential_and_all_or_nothing
    (self : FinancialCompanionCrew) (file : string)
    (profile : option (gmap string string)) :
  result (__init__ rt) = Return self →
  let run := process_customer_data rt self file profile in
  let inp := inputs_for rt file profile in
  process (self_crew self) = sequential ∧
  steps (tasks (self_crew self)) = plan ∧
  NoDup plan ∧
  ((∃ outputs,
      length outputs = 5 ∧
      executed (trace run) = plan ∧
      result run = Return (success_result (now_isoformat rt) file outputs)) ∨
   (∃ n e t before,
      tasks (self_crew self) !! n = Some t ∧ length before = n ∧
      execute_task rt (agent t) t inp before = Raise e ∧
      executed (trace run) = take (S n) plan ∧
      result run = Return (error_result (now_isoformat rt) e) ∧
      error_result (now_isoformat rt) e !! "status" = Some (Str "error") ∧
      error_result (now_isoformat rt) e !! "error_message" = Some (Str (exn_str e)) ∧
      error_result (now_isoformat rt) e !! "results" = None ∧
      dom (error_result (now_isoformat rt) e) =
        {[ "status"; "error_message"; "analysis_date" ]})).
Proof.
  intros Hinit run inp. subst inp. unfold inputs_for.
  set (inp := Build_inputs _ _ _ _ _).
  destruct (init_spec self Hinit) as [Hseq Hplan].
  split; [done|]. split; [done|]. split; [apply plan_nodup|].
  pose proof (run_sequential_spec (tasks (self_crew self)) inp []) as Hrun.
  assert (Hlen : length (tasks (self_crew self)) = 5).
  { apply (f_equal length) in Hplan. unfold steps in Hplan.
    by rewrite length_fmap in Hplan. }
  set (tr := trace (run_sequential rt (tasks (self_crew self)) inp [])) in *.
  assert (Hpair : run_sequential rt (tasks (self_crew self)) inp [] =
                  (tr, result (run_sequential rt (tasks (self_crew self)) inp [])))
    by apply py_eta.
  unfold run, process_customer_data, kickoff. rewrite Hseq. fold inp.
  cbv zeta. fold inp.
  destruct (result (run_sequential rt (tasks (self_crew self)) inp [])) as [outs|e];
    rewrite Hpair; unfold print;
    unfold mbind, mret, py_bind, py_ret, raise, emit, lift, try_except, trace, result;
    cbv beta iota zeta; cbn [fst snd].
  - left. destruct Hrun as (new & -> & Hnew & Hsteps). exists new.
    split; [lia|]. split; [|done].
    unfold executed in *. rewrite !omap_app, Hsteps, Hplan. by rewrite app_nil_r.
  - right. destruct Hrun as (n & t & before & Ht & Hbefore & Hraise & Hsteps).
    exists n, e, t, before. split; [done|]. split; [done|]. split; [done|].
    split.
    { unfold executed in *. rewrite !omap_app, Hsteps.
      cbn [omap list_omap app]. rewrite app_nil_r.
      unfold steps in *. by rewrite fmap_take, Hplan. }
    split; [done|]. unfold error_result.
    split; [by simplify_map_eq|]. split; [by simplify_map_eq|].
    split; [by simplify_map_eq|]. rewrite !dom_insert_L. set_solver.
Qed.

End CrewProperties.

(** The third step is refused: the first three pairs are carried out, the
    last two are not, and the run hands back the error dictionary. *)
Lemma crew_run_is_sequential_and_all_or_nothing_witness :
  ∃ self,
    result (Crew.__init__ Crew.refuses_third) = Return self ∧
    Crew.process (Crew.self_crew self) = Crew.sequential ∧
    Crew.steps (Crew.tasks (Crew.self_crew self)) = Crew.plan ∧
    let run := Crew.process_customer_data Crew.refuses_third self
                 "customer_transactions.csv" None in
    executed (trace run) = take 3 Crew.plan ∧
    result run =
      Return (Crew.error_result "2025-01-01T00:00:00"
                (Exn "ResourceExhausted" "429 quota exceeded")).
Proof.
  eexists. split; [reflexivity|].
  match goal with
  | |- Crew.process (Crew.self_crew ?self) = _ ∧ _ =>
      destruct (crew_run_is_sequential_and_all_or_nothing Crew.refuses_third self
                  "customer_transactions.csv" None eq_refl)
        as (Hseq & Hplan & _ & _)
  end.
  split; [exact Hseq|]. split; [exact Hplan|].
  split; vm_compute; reflexivity.
Defined.

(** Every step answers: all five pairs, in order, and the success
    dictionary. *)
Example crew_run_all_answered :
  ∃ self,
    result (Crew.__init__ Crew.answers_all) = Return self ∧
    let run := Crew.process_customer_data Crew.answers_all self
                 "customer_transactions.csv" None in
    executed (trace run) = Crew.plan ∧
    ∃ outputs, length outputs = 5 ∧
      result run =
        Return (Crew.success_result "2025-01-01T00:00:00"
                  "customer_transactions.csv" outputs).
Proof.
  eexists. split; [reflexivity|]. split; [vm_compute; reflexivity|].
  eexists. split; [|vm_compute; reflexivity]. reflexivity.
Qed.

(** ** More on quote retrieval *)

Section MoreRetrieval.
Context {num : Type} `{!Num num} (w : world num).

(** A failed lookup says which symbol failed and why. *)
Lemma try_fetch_stock_failed_inv (t message : string) :
  result (try_fetch_stock w t) = Return (NotFetched message) →
  ∃ e, message = error_text t e ∧
       (yf_info w t = Raise e ∨
        ∃ info, yf_info w t = Return info ∧ yf_history w t = Raise e).
Proof.
  destruct (yf_info w t) as [info|e] eqn:Hi.
  2:{ rewrite (try_fetch_stock_info_error w t e Hi). intros [= <-].
      exists e. split; [done|]. by left. }
  destruct (yf_history w t) as [closes|e] eqn:Hh.
  2:{ rewrite (try_fetch_stock_history_error w t info e Hi Hh). intros [= <-].
      exists e. split; [done|]. right. by exists info. }
  destruct (last closes) as [c|] eqn:Hlast.
  - destruct (try_fetch_stock_nonempty w t info closes c)
      as (r1 & r3 & r12 & -> & _); done.
  - apply last_None in Hlast as ->. by rewrite (try_fetch_stock_empty w t info).
Qed.

(** A successful lookup comes from a description and a history. *)
Lemma try_fetch_stock_fetched_inv (t : string) (data : gmap string (pyval num)) :
  result (try_fetch_stock w t) = Return (Fetched data) →
  ∃ info closes,
    yf_info w t = Return info ∧ yf_history w t = Return closes ∧
    match last closes with
    | Some c => ∃ r1 r3 r12,
        data = set_returns r1 r3 r12 (stock_data_of t info (VNum c))
    | None => data = stock_data_of t info (dict_get info "currentPrice" NA)
    end.
Proof.
  destruct (yf_info w t) as [info|e] eqn:Hi.
  2:{ by rewrite (try_fetch_stock_info_error w t e Hi). }
  destruct (yf_history w t) as [closes|e] eqn:Hh.
  2:{ by rewrite (try_fetch_stock_history_error w t info e Hi Hh). }
  intros Hr. exists info, closes. split; [done|]. split; [done|].
  destruct (last closes) as [c|] eqn:Hlast.
  - destruct (try_fetch_stock_nonempty w t info closes c)
      as (r1 & r3 & r12 & Heq & _); [done..|].
    rewrite Heq in Hr. injection Hr as <-. by exists r1, r3, r12.
  - apply last_None in Hlast as ->.
    rewrite (try_fetch_stock_empty w t info) in Hr by done. by injection Hr as <-.
Qed.

(** X1.  When the first lookup succeeds nothing else is looked up, whether
    or not the symbol ends in [.NS]: the only event is that lookup, and
    what comes back is the rendering of its snapshot. *)
Theorem first_success_is_final (symbol : string) (data : gmap string (pyval num)) :
  result (try_fetch_stock w symbol) = Return (Fetched data) →
  trace (get_stock_data w symbol) = [EvTicker symbol] ∧
  result (get_stock_data w symbol) = result (format_stock data) ∧
  data !! "symbol" = Some (VStr symbol).
Proof.
  intros Hr. rewrite get_stock_data_trace.
  rewrite (fallback_no_retry w symbol (Fetched data)) by done.
  split; [done|]. split.
  - unfold get_stock_data. rewrite result_bind.
    by rewrite (fallback_no_retry w symbol (Fetched data)).
  - destruct (try_fetch_stock_returns w symbol) as (r & Hr' & Hsym).
    apply Hsym. congruence.
Qed.

(** X2.  When a symbol without [.NS] fails and the retry fails too, the
    text returned is the one of the retry: it names the suffixed symbol and
    carries the retry's error; the error of the first lookup is not
    reported.  A symbol with [.NS] that fails reports its own error. *)
Theorem failed_retry_reports_the_retry (symbol : string) (first : string) :
  result (try_fetch_stock w symbol) = Return (NotFetched first) →
  (PyStr.endswith symbol ".NS" = true →
     result (get_stock_data w symbol) = Return first ∧
     ∃ e, first = "Error fetching " +:+ symbol +:+ ": " +:+ exn_str e) ∧
  (PyStr.endswith symbol ".NS" = false →
   ∀ second,
     result (try_fetch_stock w (symbol +:+ ".NS")) = Return (NotFetched second) →
     result (get_stock_data w symbol) = Return second ∧
     ∃ e, second = "Error fetching " +:+ (symbol +:+ ".NS") +:+ ": " +:+ exn_str e ∧
          (yf_info w (symbol +:+ ".NS") = Raise e ∨
           ∃ info, yf_info w (symbol +:+ ".NS") = Return info ∧
                   yf_history w (symbol +:+ ".NS") = Raise e)).
Proof.
  intros Hfirst. split.
  - intros Hns. split.
    + unfold get_stock_data. rewrite result_bind.
      rewrite (fallback_no_retry w symbol (NotFetched first)); [done..|].
      by rewrite Hns.
    + destruct (try_fetch_stock_failed_inv symbol first Hfirst) as (e & -> & _).
      by exists e.
  - intros Hns second Hsecond. split.
    + unfold get_stock_data. rewrite result_bind.
      rewrite (fallback_retry w symbol first) by done. py_step. by rewrite Hsecond.
    + destruct (try_fetch_stock_failed_inv _ second Hsecond) as (e & -> & He).
      by exists e.
Qed.

End MoreRetrieval.

Section MoreSnapshot.
Context {num : Type} `{!Num num} (w : world num).

Lemma set_returns_current_price r1 r3 r12 t (info : gmap string (pyval num)) cp :
  set_returns r1 r3 r12 (stock_data_of t info cp) !! "current_price" = Some cp.
Proof. unfold set_returns, stock_data_of. by simplify_map_eq. Qed.

Lemma set_returns_info_fields r1 r3 r12 t (info : gmap string (pyval num)) cp :
  Forall (λ fk, set_returns r1 r3 r12 (stock_data_of t info cp) !! fk.1 =
                Some (default NA (info !! fk.2))) info_fields.
Proof.
  unfold set_returns, stock_data_of, dict_get, info_fields.
  repeat (apply Forall_cons; split; [by simplify_map_eq|]). done.
Qed.

Lemma set_returns_pe_ratio r1 r3 r12 t (info : gmap string (pyval num)) cp :
  set_returns r1 r3 r12 (stock_data_of t info cp) !! "pe_ratio" =
    Some match info !! "forwardPE" with
         | Some v => v
         | None => default NA (info !! "trailingPE")
         end.
Proof.
  unfold set_returns, stock_data_of, dict_get. simplify_map_eq.
  by destruct (info !! "forwardPE").
Qed.

(** X3.  With a history that is not empty the lookup succeeds and its block
    is written without an error, whatever the description holds: a field
    the description lacks is ['N/A'], the price is the last close (also
    when the description has a [currentPrice]), and the P/E ratio is the
    forward one when the description has it, else the trailing one, else
    ['N/A']. *)
Theorem missing_description_fields_show_unavailable
    (t : string) (info : gmap string (pyval num)) (closes : list num) (c : num) :
  yf_info w t = Return info → yf_history w t = Return closes →
  last closes = Some c →
  ∃ data block,
    result (try_fetch_stock w t) = Return (Fetched data) ∧
    format_stock data = ([], Return block) ∧
    data !! "current_price" = Some (VNum c) ∧
    Forall (λ fk, data !! fk.1 = Some (default NA (info !! fk.2))) info_fields ∧
    data !! "pe_ratio" =
      Some match info !! "forwardPE" with
           | Some v => v
           | None => default NA (info !! "trailingPE")
           end.
Proof.
  intros Hi Hh Hlast.
  destruct (try_fetch_stock_nonempty w t info closes c)
    as (r1 & r3 & r12 & Heq & _); [done..|].
  eexists _, _. split; [exact Heq|]. split.
  { unfold format_stock. apply fstring_total.
    rewrite stock_template_fields. apply set_returns_keys. }
  split; [apply set_returns_current_price|].
  split; [apply set_returns_info_fields|apply set_returns_pe_ratio].
Qed.

Lemma fallback_resolved (symbol : string) (r : fetched) :
  result (fetch_with_fallback w symbol) = Return r →
  result (try_fetch_stock w symbol) = Return r ∨
  result (try_fetch_stock w (symbol +:+ ".NS")) = Return r.
Proof.
  destruct (try_fetch_stock_returns w symbol) as (r0 & Hr0 & _).
  destruct (negb (success r0) && negb (PyStr.endswith symbol ".NS")) eqn:Hcond.
  - destruct r0 as [data|message]; [done|]. cbn [success negb andb] in Hcond.
    apply negb_true_iff in Hcond.
    rewrite (fallback_retry w symbol message) by done. py_step. by right.
  - rewrite (fallback_no_retry w symbol r0) by done. py_step.
    intros [= <-]. by left.
Qed.

(** X4.  Every block [get_stock_data] returns shows the last close of a
    history that is not empty, for the symbol as given or with [.NS]: the
    [currentPrice] of the description, which stands in for the price when
    there is no history, never reaches a block. *)
Theorem block_price_is_a_last_close
    (symbol block : string) (data : gmap string (pyval num)) :
  result (fetch_with_fallback w symbol) = Return (Fetched data) →
  result (get_stock_data w symbol) = Return block →
  ∃ t closes c,
    (t = symbol ∨ t = symbol +:+ ".NS") ∧
    yf_history w t = Return closes ∧ last closes = Some c ∧
    data !! "symbol" = Some (VStr t) ∧
    data !! "current_price" = Some (VNum c).
Proof.
  intros Hfetch Hblock.
  assert (Hformat : result (format_stock data) = Return block).
  { unfold get_stock_data in Hblock. by rewrite result_bind, Hfetch in Hblock. }
  assert (∃ t, (t = symbol ∨ t = symbol +:+ ".NS") ∧
               result (try_fetch_stock w t) = Return (Fetched data)) as (t & Ht & Hr).
  { destruct (fallback_resolved symbol _ Hfetch); eauto. }
  destruct (try_fetch_stock_fetched_inv w t data Hr) as (info & closes & Hi & Hh & Hdata).
  destruct (last closes) as [c|] eqn:Hlast.
  - destruct Hdata as (r1 & r3 & r12 & ->). exists t, closes, c.
    split; [done|]. split; [done|]. split; [done|].
    split; [apply set_returns_symbol|apply set_returns_current_price].
  - subst data. by rewrite format_stock_without_returns in Hformat.
Qed.

End MoreSnapshot.

(** ** More on news retrieval *)

Section MoreNews.
Context {num : Type} `{!Num num} (w : world num).
Implicit Types (r : hit) (results : list hit) (all_news : list news_item).

(** X5.  Once the search client is open all three queries are issued, in
    the fixed order, each with a cap of 3 and the region [us-en], whatever
    the earlier ones did. *)
Theorem three_queries_whatever_happens (company_name symbol : string) :
  ddgs_open w = Return tt →
  searches (trace (search_stock_news w company_name symbol)) =
    [ (company_name +:+ " stock news", 3, "us-en");
      (symbol +:+ " earnings news", 3, "us-en");
      (company_name +:+ " financial news", 3, "us-en") ].
Proof.
  intros Hopen. rewrite search_stock_news_trace.
  destruct (gather_news_spec w company_name symbol) as [-> _]. by rewrite Hopen.
Qed.

(** X6.  When the search client cannot be opened nothing is searched,
    nothing is printed and no pause is taken: the error description is
    returned at once. *)
Theorem closed_client_searches_nothing (company_name symbol : string) (e : exn) :
  ddgs_open w = Raise e →
  search_stock_news w company_name symbol =
    ([EvDDGS], Return ("Error searching for news: " +:+ exn_str e)).
Proof.
  intros Hopen. unfold search_stock_news, gather_news. by rewrite Hopen.
Qed.

Lemma run_query_pauses all_news query :
  pauses (trace (run_query w all_news query)) =
    (if completes w query then [1] else []) ∧
  length (printed (trace (run_query w all_news query))) =
    (if completes w query then 0 else 1).
Proof.
  unfold run_query, completes.
  destruct (ddgs_text w query 3 "us-en") as [results|e]; [|done].
  rewrite append_results_app. by destruct ((append_results results []).2).
Qed.

Lemma for_queries_pauses qs all_news :
  pauses (trace (for_queries w qs all_news)) =
    replicate (length (filter (λ q, completes w q = true) qs)) 1 ∧
  length (printed (trace (for_queries w qs all_news))) =
    length (filter (λ q, completes w q = false) qs).
Proof.
  revert all_news. induction qs as [|q qs IH]; intros all_news; [done|].
  cbn [for_queries]. rewrite trace_bind.
  destruct (run_query_spec w all_news q) as [_ ->].
  destruct (run_query_pauses all_news q) as [Hp Hl].
  destruct (IH (all_news ++ contribution w q)) as [IHp IHl].
  unfold pauses, printed in *. rewrite !omap_app, length_app, Hp, Hl, IHp, IHl.
  rewrite !filter_cons. destruct (completes w q); simpl; by repeat case_decide.
Qed.

(** X7.  With the client open, a query that is answered and whose hits all
    make a news item is followed by a pause of one second and prints
    nothing; a query that fails, in the search or on one of its hits,
    prints one line and takes no pause. *)
Theorem one_pause_per_completed_query (company_name symbol : string) :
  ddgs_open w = Return tt →
  let qs := queries company_name symbol in
  pauses (trace (search_stock_news w company_name symbol)) =
    replicate (length (filter (λ q, completes w q = true) qs)) 1 ∧
  length (printed (trace (search_stock_news w company_name symbol))) =
    length (filter (λ q, completes w q = false) qs).
Proof.
  intros Hopen qs. rewrite search_stock_news_trace. unfold gather_news.
  rewrite Hopen.
  destruct (for_queries_pauses qs []) as [Hp Hl].
  rewrite (py_eta (for_queries w _ _)). fold qs. by rewrite <-Hp, <-Hl.
Qed.

(** X8.  Only the address can break a news item: a hit makes an item unless
    its [href] is a non-empty text with fewer than two ['/'], and then the
    exception is the [IndexError].  A title, body or address that is
    missing is the empty text in the item. *)
Theorem news_item_fails_only_on_short_address (r : hit) :
  let short :=
    ∃ href, r !! "href" = Some href ∧ href ≠ EmptyString ∧
            count_char "/"%char href < 2 in
  (short → result (make_news_item r) = Raise out_of_range) ∧
  (¬ short →
     ∃ label,
       result (make_news_item r) =
         Return {| title := default EmptyString (r !! "title");
                   body := default EmptyString (r !! "body");
                   url := default EmptyString (r !! "href");
                   source := label |}).
Proof.
  intros short. rewrite make_news_item_result. unfold dict_get. split.
  - intros (href & Hr & Hne & Hcount).
    rewrite (source_of_href r href) by done. unfold list_getitem.
    rewrite (lookup_ge_None_2 (segments "/"%char href) 2); [done|].
    rewrite length_segments. lia.
  - intros Hlong. destruct (r !! "href") as [href|] eqn:Hr.
    2:{ exists "Unknown". unfold source_of. by rewrite Hr. }
    destruct (decide (href = EmptyString)) as [->|Hne].
    { exists "Unknown". unfold source_of. by rewrite Hr. }
    rewrite (source_of_href r href) by done. unfold list_getitem.
    destruct (segments "/"%char href !! 2) as [piece|] eqn:Hpiece.
    + by exists piece.
    + destruct Hlong. exists href. split; [done|]. split; [done|].
      apply lookup_ge_None in Hpiece. rewrite length_segments in Hpiece. lia.
Qed.

Lemma segments_three (a b c rest : string) :
  count_char "/"%char a = 0 → count_char "/"%char b = 0 →
  count_char "/"%char c = 0 →
  (rest = EmptyString ∨ ∃ more, rest = String "/"%char more) →
  segments "/"%char (a +:+ "/" +:+ b +:+ "/" +:+ c +:+ rest) !! 2 = Some c.
Proof.
  intros Ha Hb Hc Hrest.
  change (a +:+ "/" +:+ b +:+ "/" +:+ c +:+ rest)
    with (a +:+ String "/"%char (b +:+ String "/"%char (c +:+ rest))).
  rewrite !segments_app by done. simpl.
  destruct Hrest as [->|[more ->]].
  - by rewrite str_app_nil_r, segments_clean_string.
  - by rewrite segments_app.
Qed.

(** X9.  For an address [a/b/c...] with no ['/'] inside [a], [b] and [c]
    the label is [c].  So for [scheme://host] followed by nothing or by a
    path it is the host; for an address without a scheme, such as
    [host/x/y], it is [y] and not the host. *)
Theorem source_label_is_the_third_piece (r : hit) (a b c rest : string) :
  r !! "href" = Some (a +:+ "/" +:+ b +:+ "/" +:+ c +:+ rest) →
  count_char "/"%char a = 0 → count_char "/"%char b = 0 →
  count_char "/"%char c = 0 →
  (rest = EmptyString ∨ ∃ more, rest = String "/"%char more) →
  result (source_of r) = Return c.
Proof.
  intros Hr Ha Hb Hc Hrest.
  rewrite (source_of_href r _ Hr).
  - unfold list_getitem. by rewrite segments_three.
  - destruct a; by rewrite ?str_app_cons.
Qed.

End MoreNews.

(** ** More on the analysis *)

Section MoreAnalysis.
Context {num : Type} `{!Num num} (w : world num).

Lemma fetch_with_fallback_trace_cases (symbol : string) :
  trace (fetch_with_fallback w symbol) = [EvTicker symbol] ∨
  trace (fetch_with_fallback w symbol) =
    [EvTicker symbol; EvPrint ("Trying " +:+ symbol +:+ ".NS for Indian stock...");
     EvTicker (symbol +:+ ".NS")].
Proof.
  destruct (try_fetch_stock_returns w symbol) as (r & Hr & _).
  destruct (negb (success r) && negb (PyStr.endswith symbol ".NS")) eqn:Hcond.
  - destruct r as [data|message]; [done|]. cbn [success negb andb] in Hcond.
    apply negb_true_iff in Hcond. right.
    by rewrite (fallback_retry w symbol message).
  - left. by rewrite (fallback_no_retry w symbol r).
Qed.

(** The name extraction catches whatever it raises. *)
Lemma company_name_of_returns (stock_symbol stock_data : string) :
  ∃ name, company_name_of stock_symbol stock_data = ([], Return name).
Proof.
  rewrite (py_eta (company_name_of _ _)), company_name_of_trace.
  unfold company_name_of. destruct (PyStr.contains _ _); [|by eexists].
  rewrite result_try_except. destruct (result _); by eexists.
Qed.

Ltac flatten_trace :=
  unfold opening; repeat (progress (rewrite <-?app_assoc, ?app_nil_r; cbn [app])).

Ltac py_run :=
  unfold print;
  unfold mbind, mret, py_bind, py_ret, raise, emit, lift, try_except, trace, result;
  cbv beta iota zeta.

Lemma analyze_without_client (stock_symbol : string) (e : exn) :
  llm_init w = Raise e →
  analyze_stock_simple w stock_symbol =
    (opening stock_symbol ++ [EvPrint ("Error during analysis: " +:+ exn_str e)],
     Return ("Error during analysis: " +:+ exn_str e)).
Proof. intros Hinit. unfold analyze_stock_simple. rewrite Hinit. by py_run. Qed.

Lemma analyze_without_data (stock_symbol : string) (e : exn) :
  llm_init w = Return tt →
  result (get_stock_data w stock_symbol) = Raise e →
  analyze_stock_simple w stock_symbol =
    (opening stock_symbol ++ [EvPrint "Fetching stock data..."] ++
     trace (get_stock_data w stock_symbol) ++
     [EvPrint ("Error during analysis: " +:+ exn_str e)],
     Return ("Error during analysis: " +:+ exn_str e)).
Proof.
  intros Hinit Hget. unfold analyze_stock_simple.
  rewrite Hinit, (py_eta (get_stock_data w stock_symbol)), Hget.
  set (tg := trace _). py_run. by flatten_trace.
Qed.

Lemma analyze_with_data (stock_symbol stock_data name news_data : string) :
  llm_init w = Return tt →
  result (get_stock_data w stock_symbol) = Return stock_data →
  result (company_name_of stock_symbol stock_data) = Return name →
  result (search_stock_news w name stock_symbol) = Return news_data →
  let prompt := analysis_prompt stock_symbol stock_data news_data in
  analyze_stock_simple w stock_symbol =
    (opening stock_symbol ++ [EvPrint "Fetching stock data..."] ++
     trace (get_stock_data w stock_symbol) ++
     [EvPrint "Searching for recent news..."] ++
     trace (search_stock_news w name stock_symbol) ++
     [EvPrint "Generating AI analysis..."; EvInvoke prompt] ++
     match llm_invoke w prompt with
     | Return _ => [EvPrint (NL +:+ "Analysis Complete for " +:+ stock_symbol);
                    EvPrint (PyStr.repeat "=" 50)]
     | Raise e => [EvPrint ("Error during analysis: " +:+ exn_str e)]
     end,
     Return match llm_invoke w prompt with
            | Return response => text_of response
            | Raise e => "Error during analysis: " +:+ exn_str e
            end).
Proof.
  intros Hinit Hget Hname Hnews prompt.
  assert (Hcn : company_name_of stock_symbol stock_data = ([], Return name)).
  { by rewrite (py_eta (company_name_of _ _)), company_name_of_trace, Hname. }
  assert (Hsn : search_stock_news w name stock_symbol =
                (trace (search_stock_news w name stock_symbol), Return news_data)).
  { by rewrite (py_eta (search_stock_news _ _ _)), trace_pair, Hnews. }
  assert (Hg : get_stock_data w stock_symbol =
               (trace (get_stock_data w stock_symbol), Return stock_data)).
  { by rewrite (py_eta (get_stock_data _ _)), trace_pair, Hget. }
  set (tg := trace (get_stock_data w stock_symbol)) in *.
  set (ts := trace (search_stock_news w name stock_symbol)) in *.
  unfold analyze_stock_simple. rewrite Hinit, Hg. py_run.
  rewrite Hcn. cbv beta iota zeta. rewrite Hsn. cbv beta iota zeta.
  fold prompt. destruct (llm_invoke w prompt) as [response|e];
    cbv beta iota zeta; by flatten_trace.
Qed.

Lemma get_stock_data_quiet (stock_symbol : string) :
  searches (trace (get_stock_data w stock_symbol)) = [] ∧
  invocations (trace (get_stock_data w stock_symbol)) = [] ∧
  (attempts (trace (get_stock_data w stock_symbol)) = [stock_symbol] ∨
   attempts (trace (get_stock_data w stock_symbol)) =
     [stock_symbol; stock_symbol +:+ ".NS"]).
Proof.
  rewrite get_stock_data_trace.
  destruct (fetch_with_fallback_trace_cases stock_symbol) as [-> | ->];
    (split; [done|]; split; [done|]).
  - by left.
  - by right.
Qed.

Lemma run_query_attempts all_news query :
  attempts (trace (run_query w all_news query)) = [].
Proof.
  unfold run_query. destruct (ddgs_text w query 3 "us-en") as [results|e]; [|done].
  by destruct (append_results results all_news) as [? [|]].
Qed.

Lemma for_queries_attempts qs all_news :
  attempts (trace (for_queries w qs all_news)) = [].
Proof.
  revert all_news. induction qs as [|q qs IH]; intros all_news; [done|].
  cbn [for_queries]. rewrite trace_bind.
  pose proof (run_query_attempts all_news q) as Hq.
  unfold attempts in *. rewrite omap_app, Hq.
  destruct (result (run_query w all_news q)); [apply IH|done].
Qed.

Lemma search_stock_news_attempts (company_name symbol : string) :
  attempts (trace (search_stock_news w company_name symbol)) = [].
Proof.
  rewrite search_stock_news_trace. unfold gather_news.
  destruct (ddgs_open w) as [[]|e]; [|done].
  pose proof (for_queries_attempts (queries company_name symbol) []) as Hq.
  by rewrite (py_eta (for_queries _ _ _)) in *.
Qed.

(** X10.  The analysis never raises: whatever the lookups, the search and
    the model do, it returns a text; and it invokes the model at most
    once. *)
Theorem analysis_always_returns (stock_symbol : string) :
  ∃ text,
    result (analyze_stock_simple w stock_symbol) = Return text ∧
    length (invocations (trace (analyze_stock_simple w stock_symbol))) ≤ 1.
Proof.
  destruct (get_stock_data_quiet stock_symbol) as (_ & Hquiet & _).
  destruct (llm_init w) as [[]|e] eqn:Hinit.
  2:{ rewrite (analyze_without_client stock_symbol e Hinit). eexists.
      split; [done|]. simpl. lia. }
  destruct (result (get_stock_data w stock_symbol)) as [stock_data|e] eqn:Hget.
  2:{ rewrite (analyze_without_data stock_symbol e Hinit Hget). eexists.
      split; [done|]. rewrite trace_pair. unfold invocations in *.
      rewrite !omap_app, Hquiet. simpl. lia. }
  destruct (company_name_of_returns stock_symbol stock_data) as [name Hname].
  destruct (search_stock_news_returns w name stock_symbol) as [news_data Hnews].
  rewrite (analyze_with_data stock_symbol stock_data name news_data);
    [|done|done|by rewrite Hname|done].
  eexists. split; [done|]. rewrite trace_pair.
  pose proof (search_stock_news_invocations w name stock_symbol) as Hquiet'.
  unfold invocations in *. rewrite !omap_app, Hquiet, Hquiet'.
  destruct (llm_invoke w _); simpl; lia.
Qed.

(** X11.  If the model client cannot be set up, nothing is looked up,
    nothing is searched and the model is not invoked: the error description
    is printed and returned. *)
Theorem no_client_no_work (stock_symbol : string) (e : exn) :
  llm_init w = Raise e →
  result (analyze_stock_simple w stock_symbol) =
    Return ("Error during analysis: " +:+ exn_str e) ∧
  attempts (trace (analyze_stock_simple w stock_symbol)) = [] ∧
  searches (trace (analyze_stock_simple w stock_symbol)) = [] ∧
  invocations (trace (analyze_stock_simple w stock_symbol)) = [] ∧
  last (printed (trace (analyze_stock_simple w stock_symbol))) =
    Some ("Error during analysis: " +:+ exn_str e).
Proof. intros Hinit. by rewrite (analyze_without_client stock_symbol e Hinit). Qed.

(** X12.  A symbol with a description and no price history, the model
    client being set up: the [KeyError] of [get_stock_data] ends the
    analysis.  It returns the error description with the key's name; no
    news is searched and the model is not invoked. *)
Theorem missing_history_ends_the_analysis
    (stock_symbol : string) (info : gmap string (pyval num)) :
  llm_init w = Return tt →
  yf_info w stock_symbol = Return info →
  yf_history w stock_symbol = Return [] →
  result (analyze_stock_simple w stock_symbol) =
    Return "Error during analysis: '1_month_return'" ∧
  attempts (trace (analyze_stock_simple w stock_symbol)) = [stock_symbol] ∧
  searches (trace (analyze_stock_simple w stock_symbol)) = [] ∧
  invocations (trace (analyze_stock_simple w stock_symbol)) = [].
Proof.
  intros Hinit Hi Hh.
  pose proof (get_stock_data_empty_history w stock_symbol info Hi Hh) as Hget.
  rewrite (analyze_without_data stock_symbol _ Hinit Hget).
  rewrite get_stock_data_trace.
  rewrite (fallback_no_retry w stock_symbol _
             (try_fetch_stock_empty w stock_symbol info Hi Hh)) by done.
  done.
Qed.

(** X13.  The model client being set up and [get_stock_data] returning a
    text, block or error description alike: the news search is keyed on the
    extracted name and on the ticker as it was given (not on the symbol the
    lookup resolved to), the prompt is made of the ticker, that text and
    the news text, the model is invoked with it exactly once, after the
    lookups and the searches, and what the analysis returns is the model's
    text, or the error description if the invocation fails. *)
Theorem analysis_composes (stock_symbol stock_data : string) :
  llm_init w = Return tt →
  result (get_stock_data w stock_symbol) = Return stock_data →
  ∃ name news_data,
    result (company_name_of stock_symbol stock_data) = Return name ∧
    result (search_stock_news w name stock_symbol) = Return news_data ∧
    let prompt := analysis_prompt stock_symbol stock_data news_data in
    invocations (trace (analyze_stock_simple w stock_symbol)) = [prompt] ∧
    (∃ before after,
       trace (analyze_stock_simple w stock_symbol) =
         before ++ EvInvoke prompt :: after ∧
       Forall (λ ev, ∃ line, ev = EvPrint line) after) ∧
    searches (trace (analyze_stock_simple w stock_symbol)) =
      match ddgs_open w with
      | Return _ => [ (name +:+ " stock news", 3, "us-en");
                      (stock_symbol +:+ " earnings news", 3, "us-en");
                      (name +:+ " financial news", 3, "us-en") ]
      | Raise _ => []
      end ∧
    result (analyze_stock_simple w stock_symbol) =
      Return match llm_invoke w prompt with
             | Return response => text_of response
             | Raise e => "Error during analysis: " +:+ exn_str e
             end.
Proof.
  intros Hinit Hget.
  destruct (company_name_of_returns stock_symbol stock_data) as [name Hname].
  destruct (search_stock_news_returns w name stock_symbol) as [news_data Hnews].
  exists name, news_data. split; [by rewrite Hname|]. split; [done|].
  intros prompt.
  rewrite (analyze_with_data stock_symbol stock_data name news_data);
    [|done|done|by rewrite Hname|done].
  fold prompt. rewrite !trace_pair, result_pair.
  destruct (get_stock_data_quiet stock_symbol) as (Hq1 & Hq2 & _).
  pose proof (search_stock_news_invocations w name stock_symbol) as Hq3.
  split; [|split; [|split; [|done]]].
  - unfold invocations in *. rewrite !omap_app, Hq2, Hq3.
    by destruct (llm_invoke w prompt).
  - eexists _, _. split.
    + change [EvPrint "Generating AI analysis..."; EvInvoke prompt]
        with ([EvPrint "Generating AI analysis..."] ++ [EvInvoke prompt]).
      rewrite !app_assoc. rewrite <-(app_assoc _ [EvInvoke prompt]). reflexivity.
    + destruct (llm_invoke w prompt); repeat constructor; by eexists.
  - pose proof (gather_news_spec w name stock_symbol) as [Hs _].
    rewrite <-(search_stock_news_trace w name stock_symbol) in Hs.
    unfold searches in *. rewrite !omap_app, Hq1, Hs.
    destruct (llm_invoke w prompt), (ddgs_open w); done.
Qed.

End MoreAnalysis.

(** ** The name read back from a block *)

Section NameRoundTrip.
Implicit Types (s t sub rest : string) (c a : Ascii.ascii).

Lemma find_no_start before rest sub :
  no_start before rest sub →
  PyStr.find (before +:+ rest) sub =
    (λ i, String.length before + i) <$> PyStr.find rest sub.
Proof.
  induction before as [|a before IH].
  - intros _. rewrite str_app_nil_l. by destruct (PyStr.find rest sub).
  - intros [Hhere Hrest]. rewrite str_app_cons, find_cons, Hhere, (IH Hrest).
    by destruct (PyStr.find rest sub).
Qed.

Lemma no_start_app before1 before2 rest sub :
  no_start before1 (before2 +:+ rest) sub → no_start before2 rest sub →
  no_start (before1 +:+ before2) rest sub.
Proof.
  intros H1 H2. induction before1 as [|a before1 IH]; [done|].
  destruct H1 as [Hhere H1]. rewrite str_app_cons. split; [|by apply IH].
  by rewrite <-str_app_assoc.
Qed.

(** An occurrence that reaches a character it does not contain ends
    before that character. *)
Lemma startswith_before_char s c rest sub :
  count_char c sub = 0 →
  PyStr.startswith (s +:+ String c rest) sub = true → PyStr.startswith s sub = true.
Proof.
  revert s. induction sub as [|b sub IH]; intros s Hc; [by rewrite !startswith_nil|].
  simpl in Hc. destruct (Ascii.eqb_spec b c) as [->|Hbc]; [done|].
  destruct s as [|a s].
  - rewrite str_app_nil_l. simpl. by destruct (Ascii.eqb_spec b c).
  - rewrite str_app_cons. simpl. destruct (Ascii.eqb b a); [|done]. by apply IH.
Qed.

Lemma find_None_cons a s sub :
  PyStr.find (String a s) sub = None →
  PyStr.startswith (String a s) sub = false ∧ PyStr.find s sub = None.
Proof.
  rewrite find_cons. destruct (PyStr.startswith _ _); [done|].
  by destruct (PyStr.find s sub).
Qed.

Lemma no_start_clean t c rest sub :
  PyStr.find t sub = None → count_char c sub = 0 →
  no_start t (String c rest) sub.
Proof.
  intros Hnone Hc. induction t as [|a t IH]; [done|].
  apply find_None_cons in Hnone as [Hhere Hnone]. split; [|by apply IH].
  destruct (PyStr.startswith (String a (t +:+ String c rest)) sub) eqn:Hs; [|done].
  rewrite <-str_app_cons in Hs. apply startswith_before_char in Hs; [|done].
  congruence.
Qed.

Lemma str_app_inv_length s1 t1 s2 t2 :
  s1 +:+ t1 = s2 +:+ t2 → String.length s1 = String.length s2 →
  s1 = s2 ∧ t1 = t2.
Proof.
  revert s2. induction s1 as [|a s1 IH]; intros [|b s2]; try done.
  rewrite !str_app_cons. intros [= -> Heq] [= Hlen].
  by destruct (IH s2 Heq Hlen) as [-> ->].
Qed.

Lemma str_app_inv_head s t1 t2 : s +:+ t1 = s +:+ t2 → t1 = t2.
Proof. induction s as [|a s IH]; [done|]. rewrite !str_app_cons. by intros [= ?%IH]. Qed.

(** Two ways of cutting one text: one cut is inside the other's head. *)
Lemma str_app_eq_cases s1 t1 s2 t2 :
  s1 +:+ t1 = s2 +:+ t2 →
  (∃ m, s2 = s1 +:+ m ∧ t1 = m +:+ t2) ∨ (∃ m, s1 = s2 +:+ m ∧ t2 = m +:+ t1).
Proof.
  revert s2. induction s1 as [|a s1 IH]; intros s2.
  - rewrite str_app_nil_l. intros ->. left. by exists s2.
  - destruct s2 as [|b s2].
    + rewrite str_app_nil_l. intros <-. right. by exists (String a s1).
    + rewrite !str_app_cons. intros [= -> Heq].
      destruct (IH s2 Heq) as [(m & -> & ->)|(m & -> & ->)]; [left|right]; by exists m.
Qed.

Lemma count_char_app c s t : count_char c (s +:+ t) = count_char c s + count_char c t.
Proof.
  induction s as [|a s IH]; [done|]. rewrite str_app_cons. simpl. rewrite IH. lia.
Qed.

End NameRoundTrip.

Section NameRoundTripBlock.
Context {num : Type} `{!Num num}.

Lemma find_here s sub : PyStr.startswith s sub = true → PyStr.find s sub = Some 0.
Proof. intros Hs. destruct s; [rewrite find_nil|rewrite find_cons]; by rewrite Hs. Qed.

Lemma block_shape (data : gmap string (pyval num)) :
  fill (join_lines stock_template) (shown data) =
    (NL +:+ "STOCK DATA FOR " +:+ shown data "symbol" +:+ NL +:+
     "===============================" +:+ NL) +:+
    "Company: " +:+ shown data "company_name" +:+ NL +:+
    fill (drop 9 (join_lines stock_template)) (shown data).
Proof.
  cbn [join_lines stock_template app fill drop]. by rewrite <-!str_app_assoc.
Qed.

Lemma block_marker_place (symbol rest : string) :
  PyStr.contains symbol "Company: " = false →
  PyStr.find ((NL +:+ "STOCK DATA FOR " +:+ symbol +:+ NL +:+
               "===============================" +:+ NL) +:+ "Company: " +:+ rest)
             "Company: " =
    Some (String.length (NL +:+ "STOCK DATA FOR " +:+ symbol +:+ NL +:+
                         "===============================" +:+ NL)).
Proof.
  intros Hclean. rewrite find_no_start.
  - rewrite find_here; [simpl; f_equal; lia|]. apply startswith_spec. by eexists.
  - apply no_start_app; [repeat (split; [reflexivity|]); exact I|].
    apply no_start_app; [repeat (split; [reflexivity|]); exact I|].
    apply no_start_app.
    + apply no_start_clean; [|reflexivity].
      unfold PyStr.contains in Hclean. by destruct (PyStr.find symbol _).
    + repeat (split; [reflexivity|]). exact I.
Qed.

(** X14.  The name the analysis reads back from a block is the company
    name the block was written with, provided the symbol and the name hold
    no ["Company: "] and the name holds no line break. *)
Theorem company_name_read_back
    (stock_symbol : string) (data : gmap string (pyval num)) :
  Forall (λ key, is_Some (data !! key)) stock_fields →
  PyStr.contains (shown data "symbol") "Company: " = false →
  PyStr.contains (shown data "company_name") "Company: " = false →
  count_char (Ascii.ascii_of_nat 10) (shown data "company_name") = 0 →
  ∃ block,
    format_stock data = ([], Return block) ∧
    result (company_name_of stock_symbol block) = Return (shown data "company_name").
Proof.
  intros Hall Hsymbol Hname Hline.
  exists (fill (join_lines stock_template) (shown data)). split.
  { unfold format_stock. apply fstring_total. by rewrite stock_template_fields. }
  rewrite block_shape.
  set (head := NL +:+ "STOCK DATA FOR " +:+ shown data "symbol" +:+ NL +:+
               "===============================" +:+ NL).
  set (tail := fill (drop 9 (join_lines stock_template)) (shown data)).
  set (name := shown data "company_name") in *.
  pose proof (block_marker_place (shown data "symbol") (name +:+ NL +:+ tail) Hsymbol)
    as Hplace. fold head in Hplace.
  destruct (company_name_of_marker stock_symbol (head +:+ "Company: " +:+ name +:+ NL +:+ tail))
    as (found & before & after & Hres & Heq & Hfind & Hclean & Hafter).
  { unfold PyStr.contains. by rewrite Hplace. }
  rewrite Hres. f_equal.
  rewrite Hplace in Hfind. injection Hfind as Hlen.
  apply str_app_inv_length in Heq as [<- Heq]; [|done].
  apply str_app_inv_head in Heq.
  apply str_app_eq_cases in Heq as [(m & -> & Hm)|(m & Hm & ->)].
  - (* the name found is longer than the name written: it holds the line break *)
    destruct m as [|a m]; [by rewrite str_app_nil_r|].
    unfold NL in Hm. rewrite str_app_cons, str_app_nil_l in Hm.
    injection Hm as <- _. rewrite count_char_app in Hclean. simpl in Hclean. lia.
  - (* the name found is shorter: what follows it would be a line break or
       the marker, inside the name written *)
    destruct m as [|a m]; [by rewrite Hm, str_app_nil_r|].
    subst name. rewrite Hm in Hline, Hname.
    destruct Hafter as [Hafter|[Hafter|Hafter]].
    + by rewrite str_app_cons in Hafter.
    + rewrite str_app_cons in Hafter. unfold NL in Hafter.
      rewrite startswith_char in Hafter. apply Ascii.eqb_eq in Hafter as ->.
      rewrite count_char_app in Hline. simpl in Hline. lia.
    + apply (startswith_before_char (String a m) (Ascii.ascii_of_nat 10) tail)
        in Hafter; [|reflexivity].
      apply startswith_spec in Hafter as [more Hmore].
      unfold PyStr.contains in Hname.
      destruct (PyStr.find (found +:+ String a m) "Company: ") eqn:Hf; [done|].
      by destruct (find_None _ _ found more Hf); rewrite Hmore.
Qed.

End NameRoundTripBlock.

(** ** The further properties on concrete worlds *)

Lemma first_success_is_final_witness :
  trace (get_stock_data Exact.only_tcs_ns "TCS.NS") = [EvTicker "TCS.NS"] ∧
  Exact.tcs_snapshot !! "symbol" = Some (VStr "TCS.NS").
Proof.
  destruct (first_success_is_final Exact.only_tcs_ns "TCS.NS" Exact.tcs_snapshot)
    as (Htrace & _ & Hsymbol).
  { vm_compute. reflexivity. }
  split; [exact Htrace|exact Hsymbol].
Defined.

Lemma failed_retry_reports_the_retry_witness :
  result (get_stock_data Exact.offline "ACME") =
    Return "Error fetching ACME.NS: no route to host".
Proof.
  destruct (failed_retry_reports_the_retry Exact.offline "ACME"
              "Error fetching ACME: no route to host" eq_refl) as [_ Hretry].
  destruct (Hretry eq_refl "Error fetching ACME.NS: no route to host" eq_refl)
    as [Hresult _].
  exact Hresult.
Defined.

Lemma missing_description_fields_show_unavailable_witness :
  ∃ data block,
    result (try_fetch_stock Exact.only_tcs_ns "TCS.NS") = Return (Fetched data) ∧
    format_stock data = ([], Return block) ∧
    data !! "current_price" = Some (VNum 110%float) ∧
    data !! "market_cap" = Some NA.
Proof.
  destruct (missing_description_fields_show_unavailable Exact.only_tcs_ns "TCS.NS"
              Exact.tcs_info Exact.closes45 110%float eq_refl eq_refl eq_refl)
    as (data & block & Hfetch & Hblock & Hprice & Hfields & _).
  exists data, block. split; [exact Hfetch|]. split; [exact Hblock|].
  split; [exact Hprice|].
  unfold info_fields in Hfields. rewrite !Forall_cons in Hfields.
  exact (proj1 (proj2 Hfields)).
Defined.

Lemma block_price_is_a_last_close_witness :
  ∃ t closes c,
    (t = "TCS" ∨ t = "TCS" +:+ ".NS") ∧
    yf_history Exact.only_tcs_ns t = Return closes ∧ last closes = Some c ∧
    Exact.tcs_snapshot !! "symbol" = Some (VStr t) ∧
    Exact.tcs_snapshot !! "current_price" = Some (VNum c).
Proof.
  assert (Hfetch : result (fetch_with_fallback Exact.only_tcs_ns "TCS") =
                   Return (Fetched Exact.tcs_snapshot)) by (vm_compute; reflexivity).
  assert (∃ block, result (get_stock_data Exact.only_tcs_ns "TCS") = Return block)
    as [block Hblock] by (eexists; vm_compute; reflexivity).
  exact (block_price_is_a_last_close Exact.only_tcs_ns "TCS" block
           Exact.tcs_snapshot Hfetch Hblock).
Defined.

Lemma three_queries_whatever_happens_witness :
  searches (trace (search_stock_news Exact.flaky "ACME Corp" "ACME")) =
    [ ("ACME Corp stock news", 3, "us-en"); ("ACME earnings news", 3, "us-en");
      ("ACME Corp financial news", 3, "us-en") ] ∧
  ddgs_text Exact.flaky "ACME earnings news" 3 "us-en" =
    Raise (Exn "RatelimitException" "202 Ratelimit").
Proof.
  split; [|reflexivity].
  exact (three_queries_whatever_happens Exact.flaky "ACME Corp" "ACME" eq_refl).
Defined.

Lemma closed_client_searches_nothing_witness :
  search_stock_news Exact.offline "ACME Corp" "ACME" =
    ([EvDDGS], Return "Error searching for news: no route to host").
Proof.
  exact (closed_client_searches_nothing Exact.offline "ACME Corp" "ACME"
           Exact.unreachable_exn eq_refl).
Defined.

Lemma one_pause_per_completed_query_witness :
  pauses (trace (search_stock_news Exact.flaky "ACME Corp" "ACME")) = [1; 1] ∧
  length (printed (trace (search_stock_news Exact.flaky "ACME Corp" "ACME"))) = 1.
Proof.
  destruct (one_pause_per_completed_query Exact.flaky "ACME Corp" "ACME" eq_refl)
    as [Hpauses Hprinted].
  split; [exact Hpauses|exact Hprinted].
Defined.

Lemma news_item_fails_only_on_short_address_witness :
  result (make_news_item Exact.bare_host) = Raise out_of_range ∧
  result (make_news_item ∅) =
    Return {| title := ""; body := ""; url := ""; source := "Unknown" |}.
Proof.
  split.
  - apply (news_item_fails_only_on_short_address Exact.bare_host).
    exists "news.example.com". split; [reflexivity|]. split; [discriminate|].
    vm_compute. lia.
  - destruct (news_item_fails_only_on_short_address ∅) as [_ Hitem].
    destruct Hitem as [label Hlabel].
    + intros (href & Hhref & _). discriminate Hhref.
    + reflexivity.
Defined.

Lemma source_label_is_the_third_piece_witness :
  result (source_of (Exact.mk_hit "Shares rally" "Shares rose."
                       "https://news.example.com/a")) = Return "news.example.com" ∧
  result (source_of (Exact.mk_hit "No scheme" "" "news.example.com/markets/a")) =
    Return "a".
Proof.
  split.
  - apply (source_label_is_the_third_piece _ "https:" "" "news.example.com" "/a");
      [reflexivity..|]. right. by exists "a".
  - apply (source_label_is_the_third_piece _ "news.example.com" "markets" "a" "");
      [reflexivity..|]. by left.
Defined.

Lemma no_client_no_work_witness :
  result (analyze_stock_simple Exact.offline "ACME") =
    Return "Error during analysis: no route to host" ∧
  attempts (trace (analyze_stock_simple Exact.offline "ACME")) = [].
Proof.
  destruct (no_client_no_work Exact.offline "ACME" Exact.unreachable_exn eq_refl)
    as (Hresult & Hattempts & _).
  split; [exact Hresult|exact Hattempts].
Defined.

Lemma missing_history_ends_the_analysis_witness :
  result (analyze_stock_simple Exact.delisted "ZZZZ") =
    Return "Error during analysis: '1_month_return'" ∧
  invocations (trace (analyze_stock_simple Exact.delisted "ZZZZ")) = [].
Proof.
  destruct (missing_history_ends_the_analysis Exact.delisted "ZZZZ"
              (<["trailingPegRatio" := VNone]> ∅) eq_refl eq_refl eq_refl)
    as (Hresult & _ & _ & Hquiet).
  split; [exact Hresult|exact Hquiet].
Defined.

Lemma analysis_composes_witness :
  searches (trace (analyze_stock_simple Exact.only_tcs_ns "TCS")) =
    [ ("Tata Consultancy Services Limited stock news", 3, "us-en");
      ("TCS earnings news", 3, "us-en");
      ("Tata Consultancy Services Limited financial news", 3, "us-en") ] ∧
  result (analyze_stock_simple Exact.only_tcs_ns "TCS") = Return "HOLD".
Proof.
  pose (block := fill (join_lines stock_template) (shown Exact.tcs_snapshot)).
  assert (Hblock : result (get_stock_data Exact.only_tcs_ns "TCS") = Return block)
    by (vm_compute; reflexivity).
  destruct (analysis_composes Exact.only_tcs_ns "TCS" block eq_refl Hblock)
    as (name & news_data & Hname & _ & _ & _ & Hsearches & Hresult).
  split; [|exact Hresult].
  rewrite Hsearches.
  vm_compute in Hname. injection Hname as <-.
  reflexivity.
Defined.

Lemma company_name_read_back_witness :
  ∃ block,
    format_stock Exact.tcs_snapshot = ([], Return block) ∧
    result (company_name_of "TCS" block) =
      Return "Tata Consultancy Services Limited".
Proof.
  destruct (company_name_read_back "TCS" Exact.tcs_snapshot)
    as (block & Hblock & Hname); [apply set_returns_keys|reflexivity..|].
  exists block. split; [exact Hblock|exact Hname].
Defined.

(** ** The front end *)

Section SymbolBox.
Import PyText.

Lemma upper_char_space (a : Ascii.ascii) : is_space (upper_char a) = is_space a.
Proof. by destruct a as [[] [] [] [] [] [] [] []]. Qed.

Lemma upper_char_idemp (a : Ascii.ascii) : upper_char (upper_char a) = upper_char a.
Proof. by destruct a as [[] [] [] [] [] [] [] []]. Qed.

Lemma upper_idemp (s : string) : upper (upper s) = upper s.
Proof. induction s as [|a s IH]; [done|]. cbn [upper]. by rewrite upper_char_idemp, IH. Qed.

Lemma upper_app (s t : string) : upper (s +:+ t) = upper s +:+ upper t.
Proof.
  induction s as [|a s IH]; [done|].
  rewrite str_app_cons. cbn [upper]. by rewrite str_app_cons, IH.
Qed.

Lemma blank_upper (s : string) : blank (upper s) = blank s.
Proof. induction s as [|a s IH]; [done|]. cbn [upper blank]. by rewrite upper_char_space, IH. Qed.

Lemma lstrip_blank (s : string) : lstrip s = "" ↔ blank s = true.
Proof.
  induction s as [|a s IH]; [done|]. cbn [lstrip blank].
  destruct (is_space a); [done|]. split; intros; done.
Qed.

Lemma rstrip_empty (s : string) : rstrip s = "" ↔ blank s = true.
Proof.
  induction s as [|a s IH]; [done|]. cbn [rstrip blank].
  destruct (rstrip s) as [|b r].
  - destruct (is_space a); [|split; intros; done].
    destruct IH as [IH _]. by rewrite (IH eq_refl).
  - split; [done|]. intros [_ Hs]%andb_true_iff. by apply IH in Hs.
Qed.

Lemma lstrip_blank_app (l s : string) : blank l = true → lstrip (l +:+ s) = lstrip s.
Proof.
  induction l as [|a l IH]; [done|]. cbn [blank]. intros [Ha Hl]%andb_true_iff.
  rewrite str_app_cons. cbn [lstrip]. rewrite Ha. by apply IH.
Qed.

Lemma rstrip_app_blank (s r : string) : blank r = true → rstrip (s +:+ r) = rstrip s.
Proof.
  intros Hr. induction s as [|a s IH].
  - rewrite str_app_nil_l. by apply rstrip_empty.
  - rewrite str_app_cons. cbn [rstrip]. by rewrite IH.
Qed.

Lemma strip_app_blank (s r : string) : blank r = true → strip (s +:+ r) = strip s.
Proof.
  intros Hr. unfold strip. induction s as [|a s IH].
  - rewrite str_app_nil_l. apply lstrip_blank in Hr as ->. done.
  - rewrite str_app_cons. cbn [lstrip]. destruct (is_space a); [done|].
    by rewrite <-str_app_cons, rstrip_app_blank.
Qed.

Lemma lstrip_first (s : string) :
  match lstrip s with
  | EmptyString => True
  | String a _ => is_space a = false
  end.
Proof.
  induction s as [|a s IH]; [done|]. cbn [lstrip].
  by destruct (is_space a) eqn:Ha.
Qed.

Lemma lstrip_fixed (s : string) :
  match s with EmptyString => True | String a _ => is_space a = false end →
  lstrip s = s.
Proof. destruct s as [|a s]; [done|]. cbn [lstrip]. by intros ->. Qed.

Lemma rstrip_first (s : string) :
  match s with EmptyString => True | String a _ => is_space a = false end →
  match rstrip s with EmptyString => True | String a _ => is_space a = false end.
Proof.
  destruct s as [|a s]; [done|]. cbn [rstrip]. intros Ha.
  destruct (rstrip s); by rewrite ?Ha.
Qed.

Lemma rstrip_idemp (s : string) : rstrip (rstrip s) = rstrip s.
Proof.
  induction s as [|a s IH]; [done|]. cbn [rstrip].
  destruct (rstrip s) as [|b r] eqn:Hr.
  - destruct (is_space a) eqn:Ha; [done|]. cbn [rstrip]. by rewrite Ha.
  - cbn [rstrip] in *. rewrite IH. by destruct (rstrip r).
Qed.

Lemma strip_idemp (s : string) : strip (strip s) = strip s.
Proof.
  unfold strip. rewrite (lstrip_fixed (rstrip (lstrip s))).
  - apply rstrip_idemp.
  - apply rstrip_first, lstrip_first.
Qed.

Lemma upper_lstrip (s : string) : upper (lstrip s) = lstrip (upper s).
Proof.
  induction s as [|a s IH]; [done|]. cbn [lstrip upper].
  rewrite upper_char_space. by destruct (is_space a).
Qed.

Lemma upper_rstrip (s : string) : upper (rstrip s) = rstrip (upper s).
Proof.
  induction s as [|a s IH]; [done|]. cbn [rstrip upper]. rewrite <-IH.
  destruct (rstrip s) as [|b r]; cbn [upper]; [|done].
  rewrite upper_char_space. by destruct (is_space a).
Qed.

Lemma upper_strip (s : string) : upper (strip s) = strip (upper s).
Proof. unfold strip. by rewrite upper_rstrip, upper_lstrip. Qed.

Lemma symbol_of_blank (raw : string) : App.symbol_of raw = "" ↔ blank raw = true.
Proof.
  unfold App.symbol_of, strip. rewrite rstrip_empty.
  rewrite <-(blank_upper raw). split.
  - intros Hb. apply lstrip_blank. apply rstrip_empty in Hb.
    unfold strip in *. revert Hb. generalize (upper raw) as s.
    intros s. induction s as [|a s IH]; [done|]. cbn [lstrip].
    destruct (is_space a) eqn:Ha; [done|]. cbn [rstrip].
    destruct (rstrip s); by rewrite ?Ha.
  - intros Hb. apply lstrip_blank in Hb. by rewrite Hb.
Qed.

Lemma symbol_of_idemp (raw : string) :
  App.symbol_of (App.symbol_of raw) = App.symbol_of raw.
Proof.
  unfold App.symbol_of.
  by rewrite (upper_strip (upper raw)), upper_idemp, strip_idemp.
Qed.

Lemma symbol_of_padded (l raw r : string) :
  blank l = true → blank r = true →
  App.symbol_of (l +:+ raw +:+ r) = App.symbol_of raw.
Proof.
  intros Hl Hr. unfold App.symbol_of. rewrite !upper_app.
  rewrite <-(blank_upper l) in Hl. rewrite <-(blank_upper r) in Hr.
  rewrite str_app_assoc, strip_app_blank by done.
  unfold strip. by rewrite lstrip_blank_app.
Qed.

Lemma truthy_spec (s : string) : truthy s = true ↔ s ≠ "".
Proof. by destruct s. Qed.

Lemma is_ascii_app (s p : string) : is_ascii (s +:+ p) = is_ascii s && is_ascii p.
Proof.
  induction s as [|a s IH]; [done|].
  rewrite str_app_cons. cbn [is_ascii]. by rewrite IH, andb_assoc.
Qed.

Lemma blank_is_ascii (s : string) : blank s = true → is_ascii s = true.
Proof.
  induction s as [|a s IH]; [done|]. cbn [blank is_ascii].
  intros [Ha Hs]%andb_true_iff. rewrite (IH Hs), andb_true_r.
  revert Ha. by destruct a as [[] [] [] [] [] [] [] []].
Qed.

Lemma is_ascii_upper (s : string) : is_ascii (upper s) = is_ascii s.
Proof.
  induction s as [|a s IH]; [done|]. cbn [upper is_ascii]. rewrite IH. f_equal.
  by destruct a as [[] [] [] [] [] [] [] []].
Qed.

Lemma is_ascii_lstrip (s : string) : is_ascii s = true → is_ascii (lstrip s) = true.
Proof.
  induction s as [|a s IH]; [done|]. cbn [lstrip].
  destruct (is_space a); [|done]. cbn [is_ascii]. by intros [_ ?]%andb_true_iff; auto.
Qed.

Lemma is_ascii_rstrip (s : string) : is_ascii s = true → is_ascii (rstrip s) = true.
Proof.
  induction s as [|a s IH]; [done|]. cbn [rstrip is_ascii].
  intros [Ha Hs]%andb_true_iff. specialize (IH Hs).
  destruct (rstrip s) as [|b r].
  - destruct (is_space a); [done|]. cbn [is_ascii]. by rewrite Ha.
  - cbn [is_ascii] in *. by rewrite Ha, IH.
Qed.

Lemma is_ascii_symbol_of (raw : string) :
  is_ascii raw = true → is_ascii (App.symbol_of raw) = true.
Proof.
  intros Hraw. unfold App.symbol_of, strip.
  apply is_ascii_rstrip, is_ascii_lstrip. by rewrite is_ascii_upper.
Qed.

End SymbolBox.

Section FrontEnd.
Import PyText App.
Context {num : Type} `{!Num num}.
Context (normalise : string → string).
Context (world_of : gmap string string → world num).
Context (import_module : outcome (gmap string string)).

(** Whatever happens inside, the analysis hands back a text. *)
Lemma analyze_returns (w : world num) (stock_symbol : string) :
  ∃ text, result (analyze_stock_simple w stock_symbol) = Return text.
Proof.
  unfold analyze_stock_simple. rewrite !result_bind. unfold print, emit. py_step.
  rewrite result_try_except.
  match goal with |- ∃ _, match result ?m with _ => _ end = _ => destruct (result m) end;
    by eexists.
Qed.

Lemma analyze_without_client_text (w : world num) (stock_symbol : string) (e : exn) :
  llm_init w = Raise e →
  result (analyze_stock_simple w stock_symbol) =
    Return ("Error during analysis: " +:+ exn_str e).
Proof.
  intros Hinit. unfold analyze_stock_simple. rewrite Hinit.
  unfold print. unfold mbind, mret, py_bind, py_ret, raise, emit, lift, try_except, result.
  done.
Qed.

Lemma running_key api_key environ loaded :
  running api_key environ loaded !! KEY = Some api_key.
Proof.
  unfold running. apply lookup_union_Some_l. by rewrite lookup_insert.
Qed.

(** The page and the environment of a run that gets to the analysis. *)
Lemma app_analysed api_key raw environ loaded :
  normalise raw ≠ "" → api_key ≠ "" → has_nul api_key = false →
  import_module = Return loaded →
  let symbol := normalise raw in
  let run := analyze_stock_simple (world_of (running api_key environ loaded)) symbol in
  ∃ text,
    result run = Return text ∧
    app normalise world_of import_module api_key raw true environ =
      (top ++
       [ Header ("Analysis for " +:+ symbol);
         Spinner ("Analyzing " +:+ symbol +:+ "... This may take a few minutes.");
         Analysis (trace run);
         SuccessBox "Analysis Complete!";
         Expander "📊 Complete Analysis Report" true;
         Markdown text ] ++ footer,
       delete KEY (running api_key environ loaded)).
Proof.
  intros Hsym Hkey Hnul Himp symbol run.
  destruct (analyze_returns (world_of (running api_key environ loaded)) symbol)
    as [text Htext].
  exists text. split; [done|].
  unfold app, run_analysis, attempt, environ_setitem.
  apply truthy_spec in Hsym, Hkey. rewrite Hsym, Hkey, Hnul, Himp.
  cbn [andb negb]. fold (running api_key environ loaded). fold symbol.
  rewrite (py_eta (analyze_stock_simple _ _)). fold run in Htext |- *.
  by rewrite Htext.
Qed.

(** The page and the environment of a run that stops before the analysis. *)
Lemma app_refused api_key raw environ e :
  normalise raw ≠ "" → api_key ≠ "" →
  (has_nul api_key = true ∧ e = Exn "ValueError" "embedded null byte" ∨
   has_nul api_key = false ∧ import_module = Raise e) →
  let symbol := normalise raw in
  app normalise world_of import_module api_key raw true environ =
    (top ++
     [ Header ("Analysis for " +:+ symbol);
       Spinner ("Analyzing " +:+ symbol +:+ "... This may take a few minutes.");
       ErrorBox ("Error during analysis: " +:+ exn_str e);
       InfoBox "Please check your API key, dependencies, and internet connection.";
       Expander "Error Details" false;
       Code (exn_str e) ] ++ footer,
     delete KEY environ).
Proof.
  intros Hsym Hkey Hwhy symbol.
  unfold app, run_analysis, attempt, environ_setitem.
  apply truthy_spec in Hsym, Hkey. rewrite Hsym, Hkey. cbn [andb negb].
  destruct Hwhy as [[-> ->]|[-> ->]]; [done|].
  by rewrite delete_insert_eq.
Qed.

(** The page and the environment of a run that does not try. *)
Lemma app_idle api_key raw analyze_button environ :
  analyze_button = false ∨ normalise raw = "" ∨ api_key = "" →
  app normalise world_of import_module api_key raw analyze_button environ =
    (top ++
     (if analyze_button then
        if truthy (normalise raw) then
          [ ErrorBox "⚠️ Please enter your Google API Key in the sidebar to proceed.";
            InfoBox "You can get a free API key from [Google AI Studio](https://aistudio.google.com/app/apikey)" ]
        else [WarningBox "Please enter a stock symbol to analyze."]
      else [Markdown instructions]) ++ footer,
     environ).
Proof.
  intros Hwhy. unfold app.
  destruct analyze_button; cbn [andb negb].
  - destruct (truthy (normalise raw)) eqn:Hsym; cbn [andb negb]; [|done].
    destruct Hwhy as [?|[Hs| ->]]; [done| |done].
    by rewrite Hs in Hsym.
  - by destruct (truthy (normalise raw)).
Qed.

End FrontEnd.

Section FrontEndProperties.
Import PyText App.
Context {num : Type} `{!Num num}.
Context (normalise : string → string).
Context (world_of : gmap string string → world num).
Context (import_module : outcome (gmap string string)).

Lemma app_cases (api_key raw : string) (analyze_button : bool) :
  (analyze_button = false ∨ normalise raw = "" ∨ api_key = "") ∨
  (analyze_button = true ∧ normalise raw ≠ "" ∧ api_key ≠ "" ∧
   ((∃ e, has_nul api_key = true ∧ e = Exn "ValueError" "embedded null byte" ∨
          has_nul api_key = false ∧ import_module = Raise e) ∨
    (has_nul api_key = false ∧ ∃ loaded, import_module = Return loaded))).
Proof.
  destruct analyze_button; [|by left; left].
  destruct (decide (normalise raw = "")); [by left; right; left|].
  destruct (decide (api_key = "")); [by left; right; right|].
  right. split; [done|]. split; [done|]. split; [done|].
  destruct (has_nul api_key); [left; eexists; by left|].
  destruct import_module as [loaded|e]; [right; eauto|left; eauto].
Qed.

(** X15.  The analysis is called exactly when the button is pressed, the
    normalised symbol and the key are not empty, the key can be put into the
    environment and the analysis module can be imported.  It is then called
    once, for the normalised symbol, in an environment that holds the typed
    key, whatever the environment and the [.env] file held under that
    name. *)
Theorem analysis_needs_button_symbol_and_key
    (api_key raw : string) (analyze_button : bool) (environ : gmap string string) :
  let page := (app normalise world_of import_module api_key raw analyze_button environ).1 in
  (analyses page ≠ [] ↔
     analyze_button = true ∧ normalise raw ≠ "" ∧ api_key ≠ "" ∧
     has_nul api_key = false ∧ ∃ loaded, import_module = Return loaded) ∧
  (∀ loaded, import_module = Return loaded →
     running api_key environ loaded !! KEY = Some api_key ∧
     (analyses page ≠ [] →
      analyses page =
        [trace (analyze_stock_simple (world_of (running api_key environ loaded))
                  (normalise raw))])).
Proof.
  intros page. subst page.
  assert (Hrun : ∀ loaded, running api_key environ loaded !! KEY = Some api_key).
  { intros loaded. unfold running. apply lookup_union_Some_l. by rewrite lookup_insert. }
  destruct (app_cases api_key raw analyze_button)
    as [Hidle|(-> & Hsym & Hkey & [[e Hwhy]|[Hnul [loaded Himp]]])].
  - rewrite (app_idle normalise world_of import_module _ _ _ _ Hidle). cbn [fst].
    assert (Hnone : analyses
              (top ++
               (if analyze_button
                then if truthy (normalise raw)
                     then [ErrorBox "⚠️ Please enter your Google API Key in the sidebar to proceed.";
                           InfoBox "You can get a free API key from [Google AI Studio](https://aistudio.google.com/app/apikey)"]
                     else [WarningBox "Please enter a stock symbol to analyze."]
                else [Markdown instructions]) ++ footer) = []).
    { by destruct analyze_button, (truthy (normalise raw)). }
    rewrite Hnone. split; [|intros loaded _; split; [apply Hrun|done]].
    split; [done|]. intros (-> & Hsym & Hkey & _). by destruct Hidle as [?|[?|?]].
  - rewrite (app_refused normalise world_of import_module _ _ _ e Hsym Hkey Hwhy). cbn [fst].
    split; [|intros loaded _; split; [apply Hrun|done]].
    split; [done|]. intros (_ & _ & _ & Hnul & [loaded Himp]).
    destruct Hwhy as [[Hn _]|[_ He]]; congruence.
  - destruct (app_analysed normalise world_of import_module _ _ environ loaded Hsym Hkey Hnul Himp)
      as (text & _ & ->). cbn [fst]. split.
    + split; [|done]. intros _. eauto 10.
    + intros loaded' Himp'. split; [apply Hrun|]. intros _.
      assert (loaded' = loaded) as -> by congruence. done.
Qed.

(** X16.  Once the attempt is made (button, symbol and key), the typed key
    is not in the environment afterwards: not when the analysis ran, not
    when the import failed, and not when the variable was set before the
    script started.  Every other variable the environment held is still
    there. *)
Theorem typed_key_does_not_outlive_the_run
    (api_key raw : string) (environ : gmap string string) :
  normalise raw ≠ "" → api_key ≠ "" →
  let after := (app normalise world_of import_module api_key raw true environ).2 in
  after !! KEY = None ∧
  ∀ k v, k ≠ KEY → environ !! k = Some v → after !! k = Some v.
Proof.
  intros Hsym Hkey after. subst after.
  destruct (app_cases api_key raw true)
    as [[?|[?|?]]|(_ & _ & _ & [[e Hwhy]|[Hnul [loaded Himp]]])]; [done..| |].
  - rewrite (app_refused normalise world_of import_module _ _ _ e Hsym Hkey Hwhy). cbn [snd].
    split; [apply lookup_delete_eq|]. intros k v Hk Hv. by rewrite lookup_delete_ne.
  - destruct (app_analysed normalise world_of import_module _ _ environ loaded Hsym Hkey Hnul Himp)
      as (text & _ & ->). cbn [snd].
    split; [apply lookup_delete_eq|]. intros k v Hk Hv.
    rewrite lookup_delete_ne by done. unfold running.
    apply lookup_union_Some_l. by rewrite lookup_insert_ne.
Qed.

(** X17.  When the analysis is called, the page reports success whatever
    the analysis hands back: the success box, the report with the returned
    text, and no error box.  If the model client cannot be set up, the text
    under [Analysis Complete!] is the error description. *)
Theorem failed_analysis_is_shown_as_complete
    (api_key raw : string) (environ loaded : gmap string string) :
  normalise raw ≠ "" → api_key ≠ "" → has_nul api_key = false →
  import_module = Return loaded →
  let w := world_of (running api_key environ loaded) in
  let page := (app normalise world_of import_module api_key raw true environ).1 in
  ∃ text,
    result (analyze_stock_simple w (normalise raw)) = Return text ∧
    successes page = ["Analysis Complete!"] ∧
    error_boxes page = [] ∧
    warnings page = [] ∧
    texts page =
      [ "Get comprehensive stock analysis with buy/hold/sell recommendations powered by CrewAI";
        text; "---"; "*Powered by CrewAI and Google Gemini*" ] ∧
    ∀ e, llm_init w = Raise e → text = "Error during analysis: " +:+ exn_str e.
Proof.
  intros Hsym Hkey Hnul Himp w page. subst page.
  destruct (app_analysed normalise world_of import_module _ _ environ loaded Hsym Hkey Hnul Himp)
    as (text & Htext & ->). cbn [fst].
  exists text. split; [done|]. split; [done|]. split; [done|]. split; [done|].
  split; [done|]. intros e Hinit.
  rewrite (analyze_without_client_text _ _ e Hinit) in Htext. congruence.
Qed.

(** X18.  If the analysis module cannot be imported, the analysis is not
    called: the page shows the error box with the import's message, the
    advice and the details, no success box, and the key is taken out of the
    environment again. *)
Theorem failed_import_is_shown_as_error
    (api_key raw : string) (environ : gmap string string) (e : exn) :
  normalise raw ≠ "" → api_key ≠ "" → has_nul api_key = false →
  import_module = Raise e →
  let run := app normalise world_of import_module api_key raw true environ in
  analyses run.1 = [] ∧
  successes run.1 = [] ∧
  error_boxes run.1 = ["Error during analysis: " +:+ exn_str e] ∧
  Code (exn_str e) ∈ run.1 ∧
  run.2 = delete KEY environ.
Proof.
  intros Hsym Hkey Hnul Himp run. subst run.
  rewrite (app_refused normalise world_of import_module _ _ _ e Hsym Hkey); [|by right].
  cbn [fst snd]. split; [done|]. split; [done|]. split; [done|]. split; [|done].
  apply elem_of_app. right. set_solver.
Qed.

Lemma app_ext (api_key raw raw' : string) (analyze_button : bool)
    (environ : gmap string string) :
  normalise raw = normalise raw' →
  app normalise world_of import_module api_key raw analyze_button environ =
    app normalise world_of import_module api_key raw' analyze_button environ.
Proof. unfold app. by intros ->. Qed.

(** X19.  The warning about the symbol shows exactly when the button is
    pressed and the symbol, once normalised, is empty; for a box that holds
    ASCII text that is: when it holds nothing but white space.  Then
    nothing else happens, with or without a key: no analysis, no error box,
    no success box, the environment untouched. *)
Theorem blank_symbol_only_warns
    (api_key raw : string) (analyze_button : bool) (environ : gmap string string) :
  let run := app normalise world_of import_module api_key raw analyze_button environ in
  (warnings run.1 ≠ [] ↔ analyze_button = true ∧ normalise raw = "") ∧
  (warnings run.1 ≠ [] →
     warnings run.1 = ["Please enter a stock symbol to analyze."] ∧
     analyses run.1 = [] ∧ error_boxes run.1 = [] ∧ successes run.1 = [] ∧
     run.2 = environ) ∧
  (on_ascii normalise → is_ascii raw = true →
     (normalise raw = "" ↔ blank raw = true)).
Proof.
  intros run. subst run.
  assert (Hascii : on_ascii normalise → is_ascii raw = true →
                   (normalise raw = "" ↔ blank raw = true)).
  { intros Hon Hraw. rewrite (Hon raw Hraw). apply symbol_of_blank. }
  destruct (app_cases api_key raw analyze_button)
    as [Hidle|(-> & Hsym & Hkey & [[e Hwhy]|[Hnul [loaded Himp]]])].
  - rewrite (app_idle normalise world_of import_module _ _ _ _ Hidle). cbn [fst snd].
    destruct analyze_button; [|split; [split; [done|by intros [? _]]|done]].
    destruct (truthy (normalise raw)) eqn:Htruthy.
    + apply truthy_spec in Htruthy. split; [|done]. split; [done|]. by intros [_ ?].
    + destruct (normalise raw); [|done]. done.
  - rewrite (app_refused normalise world_of import_module _ _ _ e Hsym Hkey Hwhy). cbn [fst].
    split; [|done]. split; [done|]. by intros [_ ?].
  - destruct (app_analysed normalise world_of import_module _ _ environ loaded Hsym Hkey Hnul Himp)
      as (text & _ & ->). cbn [fst].
    split; [|done]. split; [done|]. by intros [_ ?].
Qed.

(** X20.  For a box that holds ASCII text, white space typed around the
    symbol and the case of its letters do not matter: the run is that of
    the bare symbol, and that of the symbol as normalised, which has no
    small letter left. *)
Theorem padding_and_case_do_not_matter
    (api_key l raw r : string) (analyze_button : bool) (environ : gmap string string) :
  on_ascii normalise → is_ascii raw = true → blank l = true → blank r = true →
  app normalise world_of import_module api_key (l +:+ raw +:+ r) analyze_button environ =
    app normalise world_of import_module api_key raw analyze_button environ ∧
  app normalise world_of import_module api_key raw analyze_button environ =
    app normalise world_of import_module api_key (normalise raw) analyze_button environ ∧
  upper (normalise raw) = normalise raw.
Proof.
  intros Hon Hraw Hl Hr.
  assert (Hpadded : is_ascii (l +:+ raw +:+ r) = true).
  { by rewrite !is_ascii_app, Hraw, (blank_is_ascii l), (blank_is_ascii r). }
  split; [|split].
  - apply app_ext. rewrite (Hon _ Hpadded), (Hon _ Hraw). by apply symbol_of_padded.
  - apply app_ext. rewrite (Hon _ Hraw), (Hon _ (is_ascii_symbol_of raw Hraw)).
    by rewrite symbol_of_idemp.
  - rewrite (Hon _ Hraw). unfold symbol_of. by rewrite upper_strip, upper_idemp.
Qed.

End FrontEndProperties.

(** ** More on the crew *)

Section MoreCrew.
Import Crew CrewMain.
Context (rt : runtime).

Lemma kickoffs_app (t1 t2 : list event) : kickoffs (t1 ++ t2) = kickoffs t1 + kickoffs t2.
Proof. unfold kickoffs. by rewrite omap_app, length_app. Qed.

Lemma clients_app (t1 t2 : list event) : clients (t1 ++ t2) = clients t1 ++ clients t2.
Proof. unfold clients. by rewrite omap_app. Qed.

Lemma printed_app (t1 t2 : list event) : printed (t1 ++ t2) = printed t1 ++ printed t2.
Proof. unfold printed. by rewrite omap_app. Qed.

(** The sequential runner starts no run and builds no client. *)
Lemma run_sequential_quiet (todo : list Task) (inp : inputs) (outputs : list string) :
  kickoffs (trace (run_sequential rt todo inp outputs)) = 0 ∧
  clients (trace (run_sequential rt todo inp outputs)) = [] ∧
  printed (trace (run_sequential rt todo inp outputs)) = [].
Proof.
  revert outputs. induction todo as [|t todo IH]; intros outputs; [done|].
  cbn [run_sequential]. rewrite !trace_bind. unfold emit, lift. py_step.
  rewrite kickoffs_app, clients_app, printed_app.
  destruct (execute_task rt (agent t) t inp outputs) as [out|e]; [|done].
  cbn [app]. destruct (IH (outputs ++ [out])) as (-> & -> & ->). done.
Qed.

Lemma kickoff_quiet (c : Crew) (inp : inputs) :
  kickoffs (trace (kickoff rt c inp)) = 1 ∧
  clients (trace (kickoff rt c inp)) = [] ∧
  printed (trace (kickoff rt c inp)) = [].
Proof.
  unfold kickoff. rewrite trace_bind. unfold emit. py_step.
  rewrite kickoffs_app, clients_app, printed_app.
  destruct (process c).
  - destruct (run_sequential_quiet (tasks c) inp []) as (-> & -> & ->). done.
  - unfold lift. done.
Qed.

(** The wrapper, for any crew it is given. *)
Lemma process_customer_data_unfold
    (self : FinancialCompanionCrew) (file : string)
    (profile : option (gmap string string)) :
  let inp := inputs_for rt file profile in
  let run := kickoff rt (self_crew self) inp in
  process_customer_data rt self file profile =
    ([ EvPrint "üöÄ Starting Financial Companion Analysis...";
       EvPrint ("üìÅ Processing file: " +:+ file);
       EvPrint ("üìÖ Analysis date: " +:+ now_isoformat rt);
       EvPrint (PyStr.repeat "-" 50) ] ++
     trace run ++
     match result run with
     | Return _ => []
     | Raise e => [EvPrint ("‚ùå Error during crew execution: " +:+ exn_str e)]
     end,
     Return match result run with
            | Return outputs => success_result (now_isoformat rt) file outputs
            | Raise e => error_result (now_isoformat rt) e
            end).
Proof.
  intros inp run. unfold process_customer_data. fold (inputs_for rt file profile).
  fold inp. fold run. rewrite (py_eta run).
  destruct (result run) as [outputs|e]; unfold print;
    unfold mbind, mret, py_bind, py_ret, raise, emit, lift, try_except, trace, result;
    cbv beta iota zeta; cbn [fst snd app]; by rewrite ?app_nil_r.
Qed.

Lemma success_result_lookup (date file : string) (outputs : list string) :
  success_result date file outputs !! "status" = Some (Str "success") ∧
  success_result date file outputs !! "results" = Some (CrewOutput outputs) ∧
  success_result date file outputs !! "error_message" = None ∧
  success_result date file outputs !! "analysis_date" = Some (Str date).
Proof. unfold success_result. repeat split; by simplify_map_eq. Qed.

Lemma error_result_lookup (date : string) (e : exn) :
  error_result date e !! "status" = Some (Str "error") ∧
  error_result date e !! "results" = None ∧
  error_result date e !! "error_message" = Some (Str (exn_str e)) ∧
  error_result date e !! "analysis_date" = Some (Str date).
Proof. unfold error_result. repeat split; by simplify_map_eq. Qed.

(** X21.  The wrapper never raises, whatever crew it is given and whatever
    the run does: it starts the crew once and returns a dictionary whose
    status is ['success'] or ['error'].  The results are there exactly on
    success, the error message exactly on error, the date always; nothing
    is printed after a run that succeeded, and after a run that failed the
    last line printed is the handler's, as the file has it. *)
Theorem process_customer_data_never_raises
    (self : FinancialCompanionCrew) (file : string)
    (profile : option (gmap string string)) :
  let run := process_customer_data rt self file profile in
  let started := kickoff rt (self_crew self) (inputs_for rt file profile) in
  kickoffs (trace run) = 1 ∧
  ∃ d, result run = Return d ∧
    d !! "analysis_date" = Some (Str (now_isoformat rt)) ∧
    match result started with
    | Return outputs =>
        d !! "status" = Some (Str "success") ∧
        d !! "results" = Some (CrewOutput outputs) ∧
        d !! "error_message" = None ∧
        d !! "transaction_file" = Some (Str file) ∧
        length (printed (trace run)) = 4
    | Raise e =>
        d !! "status" = Some (Str "error") ∧
        d !! "results" = None ∧
        d !! "error_message" = Some (Str (exn_str e)) ∧
        last (printed (trace run)) =
          Some ("‚ùå Error during crew execution: " +:+ exn_str e)
    end.
Proof.
  intros run started. subst run.
  rewrite process_customer_data_unfold. fold started. cbn [trace result fst snd].
  destruct (kickoff_quiet (self_crew self) (inputs_for rt file profile))
    as (Hk & _ & Hp). fold started in Hk, Hp.
  split.
  { rewrite !kickoffs_app, Hk. by destruct (result started). }
  eexists. split; [done|].
  rewrite !printed_app, Hp.
  destruct (result started) as [outputs|e].
  - destruct (success_result_lookup (now_isoformat rt) file outputs) as (? & ? & ? & ?).
    repeat split; done.
  - destruct (error_result_lookup (now_isoformat rt) e) as (? & ? & ? & ?).
    repeat split; done.
Qed.

Lemma init_trace :
  trace (__init__ rt) =
    match dotenv_load rt with
    | Return _ => [EvLLMInit "gemini-1.5-flash"]
    | Raise _ => []
    end.
Proof. by rewrite init_unfold. Qed.

Lemma first_failure_None (calls : list (outcome unit)) :
  first_failure calls = None ↔ Forall (λ call, call = Return tt) calls.
Proof.
  induction calls as [|[[]|e] calls IH]; cbn [first_failure].
  - split; [constructor|done].
  - rewrite IH. split; [by constructor|by intros [_ ?]%Forall_cons].
  - split; [done|]. by intros [? _]%Forall_cons.
Qed.

(** X22.  Building the crew makes fourteen calls that can fail, in this
    order: the [.env] loader, the model client, the file tool, the five
    agents, the five tasks, the crew.  [__init__] raises exactly when one
    of them raises, with the exception of the first that does, and returns
    otherwise: no agent is looked up under a name the dictionary lacks.
    The model client is built whenever the loader returns.  In the object
    that is built, the crew's tasks are those of the object, its agents
    are those of the dictionary in its order, the i-th task is given to the
    i-th agent, no name is used twice, no agent may delegate, and only the
    first one holds a tool. *)
Theorem crew_is_wired_as_declared :
  length (constructions rt) = 14 ∧
  (∀ e, result (__init__ rt) = Raise e ↔ first_failure (constructions rt) = Some e) ∧
  (dotenv_load rt = Return tt → clients (trace (__init__ rt)) = ["gemini-1.5-flash"]) ∧
  ∀ self, result (__init__ rt) = Return self →
    Forall (λ call, call = Return tt) (constructions rt) ∧
    tasks (self_crew self) = self_tasks self ∧
    agents (self_crew self) = (self_agents self).*2 ∧
    agent <$> self_tasks self = (self_agents self).*2 ∧
    NoDup ((self_agents self).*1) ∧
    Forall (λ a, allow_delegation a = false) (agents (self_crew self)) ∧
    ∀ i a, agents (self_crew self) !! i = Some a → tools a ≠ [] → i = 0.
Proof.
  split; [done|]. rewrite init_unfold. cbn [trace result fst snd]. split.
  { intros e. destruct (first_failure (constructions rt)); split; congruence. }
  split; [by intros ->|].
  intros self Hself.
  destruct (first_failure (constructions rt)) eqn:Hfirst; [done|].
  injection Hself as <-. split; [by apply first_failure_None|].
  split; [done|]. split; [done|]. split; [done|]. split.
  { apply (bool_decide_unpack _). vm_compute. exact I. }
  split.
  { repeat constructor. }
  intros i a Hi Htools.
  destruct i as [|[|[|[|[|i]]]]]; [done|..]; cbn in Hi; try done;
    injection Hi as <-; done.
Qed.

Section MainProperties.
Context (path_exists : string → bool) (show_output : list string → string).

Lemma main_without_crew (e : exn) :
  result (__init__ rt) = Raise e →
  main rt path_exists show_output =
    ([ EvPrint "Financial Companion CrewAI Framework";
       EvPrint (PyStr.repeat "=" 50) ] ++ trace (__init__ rt), Raise e).
Proof.
  intros Hinit. unfold main. rewrite (py_eta (__init__ rt)), Hinit.
  by cbv beta iota zeta delta [mbind py_bind mret py_ret emit print lift raise].
Qed.

Lemma main_with_crew (self : FinancialCompanionCrew) :
  result (__init__ rt) = Return self →
  let started := kickoff rt (self_crew self)
                   (inputs_for rt "customer_transactions.csv" (Some example_profile)) in
  main rt path_exists show_output =
    ([ EvPrint "Financial Companion CrewAI Framework";
       EvPrint (PyStr.repeat "=" 50);
       EvLLMInit "gemini-1.5-flash" ] ++
     (if path_exists "customer_transactions.csv" then
        [ EvPrint "üöÄ Starting Financial Companion Analysis...";
          EvPrint ("üìÅ Processing file: " +:+ "customer_transactions.csv");
          EvPrint ("üìÖ Analysis date: " +:+ now_isoformat rt);
          EvPrint (PyStr.repeat "-" 50) ] ++
        trace started ++
        match result started with
        | Return outputs =>
            [ EvPrint "‚úÖ Financial Companion Analysis Completed Successfully!";
              EvPrint ("üìä Results: " +:+ show_output outputs) ]
        | Raise e =>
            [ EvPrint ("‚ùå Error during crew execution: " +:+ exn_str e);
              EvPrint ("‚ùå Analysis Failed: " +:+ exn_str e) ]
        end
      else
        [ EvPrint ("‚ö†Ô∏è  Transaction file '" +:+ "customer_transactions.csv" +:+ "' not found.");
          EvPrint "üìù Please ensure your transaction data file is available.";
          EvPrint (NL +:+ "Expected CSV format should include columns:");
          EvPrint "transaction_id, date_time, amount, merchant_name, category, transaction_type, account_id, channel" ]),
     Return tt).
Proof.
  intros Hself started. unfold main.
  assert (Hinit : __init__ rt = ([EvLLMInit "gemini-1.5-flash"], Return self)).
  { rewrite init_unfold in Hself |- *. cbn [result snd] in Hself.
    destruct (first_failure (constructions rt)) eqn:Hfirst; [done|].
    apply first_failure_None in Hfirst. unfold constructions in Hfirst.
    cbn [app] in Hfirst. apply Forall_cons in Hfirst as [-> _]. by rewrite Hself. }
  rewrite Hinit.
  destruct (path_exists "customer_transactions.csv"); cbn [negb];
    cbv beta iota zeta delta [mbind py_bind mret py_ret emit print lift raise];
    [|done].
  rewrite (process_customer_data_unfold self). fold started.
  set (tr := trace started).
  destruct (result started) as [outputs|e]; cbv beta iota zeta; unfold dict_getitem.
  - destruct (success_result_lookup (now_isoformat rt) "customer_transactions.csv" outputs)
      as (Hstatus & Hresults & _ & _).
    rewrite Hstatus.
    cbv beta iota zeta delta [mbind py_bind mret py_ret emit print lift raise].
    change (is_success (Str "success")) with true. rewrite Hresults.
    cbv beta iota zeta delta [value_str]. cbn [app].
    by rewrite <-!app_assoc, ?app_nil_r.
  - destruct (error_result_lookup (now_isoformat rt) e) as (Hstatus & _ & Hmessage & _).
    rewrite Hstatus.
    cbv beta iota zeta delta [mbind py_bind mret py_ret emit print lift raise].
    change (is_success (Str "error")) with false. rewrite Hmessage.
    cbv beta iota zeta delta [value_str]. cbn [app].
    by rewrite <-!app_assoc, ?app_nil_r.
Qed.

(** X23.  The demonstration raises exactly when building the crew raises,
    with the same exception; the model client is built, whenever the
    [.env] loader returns, before the transaction file is looked for.
    With the crew built: without the file no crew is started and no task
    is carried out, and the last line printed is the list of columns; with
    the file the crew is started once, and the last line printed is the
    results line on success and the failure line otherwise, as the file
    has them. *)
Theorem main_builds_the_client_before_it_looks_for_the_file :
  let run := main rt path_exists show_output in
  (∀ e, result run = Raise e ↔ result (__init__ rt) = Raise e) ∧
  (dotenv_load rt = Return tt → clients (trace run) = ["gemini-1.5-flash"]) ∧
  ∀ self, result (__init__ rt) = Return self →
    if path_exists "customer_transactions.csv" then
      kickoffs (trace run) = 1 ∧
      last (printed (trace run)) =
        Some match result (kickoff rt (self_crew self)
                             (inputs_for rt "customer_transactions.csv"
                                (Some example_profile))) with
             | Return outputs => "üìä Results: " +:+ show_output outputs
             | Raise e => "‚ùå Analysis Failed: " +:+ exn_str e
             end
    else
      kickoffs (trace run) = 0 ∧
      executed (trace run) = [] ∧
      last (printed (trace run)) =
        Some "transaction_id, date_time, amount, merchant_name, category, transaction_type, account_id, channel".
Proof.
  intros run. subst run.
  destruct (result (__init__ rt)) as [self|e] eqn:Hinit.
  2:{ rewrite (main_without_crew e Hinit). cbn [trace result fst snd].
      split; [intros e'; split; congruence|]. split; [|done].
      intros Hload. by rewrite clients_app, init_trace, Hload. }
  pose proof (main_with_crew self Hinit) as Hmain. cbv zeta in Hmain.
  destruct (kickoff_quiet (self_crew self)
              (inputs_for rt "customer_transactions.csv" (Some example_profile)))
    as (Hk & Hc & Hp).
  rewrite Hmain. cbn [trace result fst snd]. split; [done|]. split.
  { intros _. rewrite clients_app. destruct (path_exists _); [|done].
    rewrite !clients_app, Hc. by destruct (result (kickoff _ _ _)). }
  intros self' [= <-].
  destruct (path_exists _); [|done].
  rewrite !kickoffs_app, !printed_app, Hk, Hp.
  by destruct (result (kickoff _ _ _)).
Qed.

End MainProperties.

End MoreCrew.

(** ** The front end and the crew on concrete inputs *)

(** The normalisation of ASCII text is one that agrees with it there. *)
Lemma symbol_of_on_ascii : App.on_ascii App.symbol_of.
Proof. by intros s _. Qed.

(** The key was in the environment before the script started, and another
    variable with it: the key is gone afterwards, the other variable is
    not. *)
Lemma typed_key_does_not_outlive_the_run_witness :
  let environ := <[App.KEY := "from-the-shell"]> (<["HOME" := "/root"]> ∅) in
  let after :=
    (App.app App.symbol_of App.keyed (Return ∅) "secret" " tcs " true environ).2 in
  after !! App.KEY = None ∧ after !! "HOME" = Some "/root".
Proof.
  cbv zeta.
  destruct (typed_key_does_not_outlive_the_run App.symbol_of App.keyed (Return ∅)
              "secret" " tcs "
              (<[App.KEY := "from-the-shell"]> (<["HOME" := "/root"]> ∅))
              ltac:(vm_compute; discriminate) ltac:(discriminate))
    as [Hkey Hrest].
  split; [exact Hkey|]. apply Hrest; [discriminate|]. vm_compute. reflexivity.
Defined.

(** A key the model service does not accept: the page says the analysis is
    complete, and the report is the error description. *)
Lemma failed_analysis_is_shown_as_complete_witness :
  let page := (App.app App.symbol_of App.keyed (Return ∅) "wrong" "tcs" true ∅).1 in
  App.successes page = ["Analysis Complete!"] ∧
  App.error_boxes page = [] ∧
  App.texts page =
    [ "Get comprehensive stock analysis with buy/hold/sell recommendations powered by CrewAI";
      "Error during analysis: no route to host";
      "---"; "*Powered by CrewAI and Google Gemini*" ].
Proof.
  cbv zeta.
  destruct (failed_analysis_is_shown_as_complete App.symbol_of App.keyed (Return ∅)
              "wrong" "tcs" ∅ ∅
              ltac:(vm_compute; discriminate) ltac:(discriminate) eq_refl eq_refl)
    as (text & _ & Hsuccess & Hboxes & _ & Htexts & Hinit).
  rewrite (Hinit Exact.unreachable_exn ltac:(vm_compute; reflexivity)) in Htexts.
  split; [exact Hsuccess|]. split; [exact Hboxes|exact Htexts].
Defined.

(** A dependency is missing: the error box, and no analysis. *)
Lemma failed_import_is_shown_as_error_witness :
  let failure := Exn "ModuleNotFoundError" "No module named 'yfinance'" in
  let run := App.app App.symbol_of App.keyed (Raise failure) "secret" "TCS" true ∅ in
  App.analyses run.1 = [] ∧
  App.error_boxes run.1 = ["Error during analysis: No module named 'yfinance'"] ∧
  run.2 = ∅.
Proof.
  cbv zeta.
  destruct (failed_import_is_shown_as_error App.symbol_of App.keyed
              (Raise (Exn "ModuleNotFoundError" "No module named 'yfinance'"))
              "secret" "TCS" ∅ (Exn "ModuleNotFoundError" "No module named 'yfinance'")
              ltac:(vm_compute; discriminate) ltac:(discriminate) eq_refl eq_refl)
    as (Hnone & _ & Hbox & _ & Henv).
  split; [exact Hnone|]. split; [exact Hbox|]. rewrite Henv. apply delete_empty.
Defined.

(** Two blanks in the symbol box and the button pressed: the warning and
    nothing else, with a key typed in. *)
Lemma blank_symbol_only_warns_witness :
  let run := App.app App.symbol_of App.keyed (Return ∅) "secret" "  " true ∅ in
  App.warnings run.1 = ["Please enter a stock symbol to analyze."] ∧
  App.analyses run.1 = [] ∧
  run.2 = ∅.
Proof.
  cbv zeta.
  destruct (blank_symbol_only_warns App.symbol_of App.keyed (Return ∅) "secret" "  "
              true ∅) as (Hiff & Hthen & Hblank).
  destruct (Hblank symbol_of_on_ascii eq_refl) as [_ Hempty].
  destruct Hiff as [_ Hwarns].
  destruct (Hthen (Hwarns (conj eq_refl (Hempty eq_refl))))
    as (Hwarning & Hnone & _ & _ & Henv).
  split; [exact Hwarning|]. split; [exact Hnone|exact Henv].
Defined.

(** Two blanks before, a line feed after, small letters. *)
Lemma padding_and_case_do_not_matter_witness :
  App.app App.symbol_of App.keyed (Return ∅) "secret" ("  " +:+ "tcs" +:+ NL) true ∅ =
    App.app App.symbol_of App.keyed (Return ∅) "secret" "TCS" true ∅.
Proof.
  destruct (padding_and_case_do_not_matter App.symbol_of App.keyed (Return ∅) "secret"
              "  " "tcs" NL true ∅ symbol_of_on_ascii eq_refl eq_refl eq_refl)
    as (Hpad & Hcase & _).
  rewrite Hpad. exact Hcase.
Defined.

(** Every constructor returns: the crew is built and wired.  The crew's
    own constructor raises: [__init__] raises its exception, with the
    model client built. *)
Lemma crew_is_wired_as_declared_witness :
  (∃ self,
     result (Crew.__init__ Crew.answers_all) = Return self ∧
     Crew.agent <$> Crew.self_tasks self = (Crew.self_agents self).*2 ∧
     Crew.tasks (Crew.self_crew self) = Crew.self_tasks self) ∧
  result (Crew.__init__ Crew.refuses_crew) =
    Raise (Exn "ValidationError" "1 validation error for Crew") ∧
  clients (trace (Crew.__init__ Crew.refuses_crew)) = ["gemini-1.5-flash"].
Proof.
  destruct (crew_is_wired_as_declared Crew.answers_all) as (_ & _ & _ & Hwired).
  destruct (crew_is_wired_as_declared Crew.refuses_crew) as (_ & Hraises & Hclient & _).
  split; [|split; [by apply Hraises|by apply Hclient]].
  exists Crew.built. split; [reflexivity|].
  destruct (Hwired Crew.built eq_refl) as (_ & Htasks & _ & Hagents & _).
  split; [exact Hagents|exact Htasks].
Defined.

(** No transaction file: the client is built, no crew is started.  With
    the file and the third step refused: one run, and the failure is the
    last line.  The crew's constructor refused: the demonstration raises
    its exception. *)
Lemma main_builds_the_client_before_it_looks_for_the_file_witness :
  let absent := CrewMain.main Crew.answers_all (λ _, false) (String.concat ", ") in
  let present := CrewMain.main Crew.refuses_third (λ _, true) (String.concat ", ") in
  let refused := CrewMain.main Crew.refuses_crew (λ _, true) (String.concat ", ") in
  clients (trace absent) = ["gemini-1.5-flash"] ∧
  kickoffs (trace absent) = 0 ∧
  kickoffs (trace present) = 1 ∧
  last (printed (trace present)) = Some "‚ùå Analysis Failed: 429 quota exceeded" ∧
  result refused = Raise (Exn "ValidationError" "1 validation error for Crew").
Proof.
  cbv zeta.
  destruct (main_builds_the_client_before_it_looks_for_the_file Crew.answers_all
              (λ _, false) (String.concat ", ")) as (_ & Hclient & Habsent).
  destruct (main_builds_the_client_before_it_looks_for_the_file Crew.refuses_third
              (λ _, true) (String.concat ", ")) as (_ & _ & Hpresent).
  destruct (main_builds_the_client_before_it_looks_for_the_file Crew.refuses_crew
              (λ _, true) (String.concat ", ")) as (Hraises & _ & _).
  destruct (Habsent _ eq_refl) as (Hnone & _).
  destruct (Hpresent _ eq_refl) as (Hone & Hlast).
  split; [by apply Hclient|]. split; [exact Hnone|]. split; [exact Hone|].
  split; [|by apply Hraises].
  rewrite Hlast. vm_compute. reflexivity.
Defined.
